(** * Calendar-MCP: the scheduling core of [server.py]

    A shallow embedding of the calendar server: the in-memory event list
    [EVENTS], the JSON-RPC methods [list_events], [get_events_for_day],
    [find_free_slot] and [create_event], and the REST helper
    [book_and_confirm].  Handlers are functions from the current event list
    to the new event list and a response; Python exceptions are an error
    monad.  The language model wrapper [generate] of llm.py and the command
    line client of client.py follow: the client is a small monad of runs
    that print lines and call the server. *)

From Stdlib Require Import ZArith Lia Ascii String List Bool DecimalString.
From stdpp Require Import gmap strings list sorting.

Local Open Scope string_scope.
Local Open Scope list_scope.
Local Open Scope Z_scope.

Set Warnings "-register-all".

(** ** Exceptions

    The three exception classes the handlers can meet: [ValueError] (a
    malformed timestamp or number), [TypeError] (a value of the wrong JSON
    type) and [OverflowError] (date arithmetic leaving years 1..9999). *)

Inductive exn : Type := ValueError | TypeError | OverflowError.

Inductive result (A : Type) : Type :=
| Ok (a : A)
| Raise (e : exn).

Arguments Ok {A} a.
Arguments Raise {A} e.

#[global] Instance result_ret : MRet result := fun _ a => Ok a.
#[global] Instance result_bind : MBind result := fun _ _ f m =>
  match m with
  | Ok a => f a
  | Raise e => Raise e
  end.

(** ** JSON values

    Request parameters and event fields are [Any] in the source.  Numbers
    are integers here; JSON floats are outside the model. *)

Inductive json : Type :=
| JNull
| JBool (b : bool)
| JInt (z : Z)
| JStr (s : string)
| JList (l : list json)
| JObj (l : list (string * json)).

(** Python truthiness, as used by [if not day] and
    [if not (title and start and end)]. *)
Definition truthy (v : json) : bool :=
  match v with
  | JNull => false
  | JBool b => b
  | JInt z => negb (z =? 0)
  | JStr s => negb (String.eqb s "")
  | JList l => match l with [] => false | _ => true end
  | JObj l => match l with [] => false | _ => true end
  end.

(** ** The [datetime] library, second precision

    A naive datetime.  The date is kept as its proleptic Gregorian ordinal
    ([date.toordinal()], 0001-01-01 is day 1), which is also what the
    library's own arithmetic goes through; year, month and day appear when
    parsing and printing. *)

Record datetime : Type := mkdatetime {
  date : Z;
  hour : Z;
  minute : Z;
  second : Z
}.

Definition MAXORDINAL : Z := 3652059.

Definition is_leap (year : Z) : bool :=
  (year mod 4 =? 0) && (negb (year mod 100 =? 0) || (year mod 400 =? 0)).

Definition days_before_year (year : Z) : Z :=
  let y := year - 1 in y * 365 + y / 4 - y / 100 + y / 400.

Definition DAYS_IN_MONTH (month : Z) : Z :=
  match month with
  | 1 => 31 | 2 => 28 | 3 => 31 | 4 => 30 | 5 => 31 | 6 => 30
  | 7 => 31 | 8 => 31 | 9 => 30 | 10 => 31 | 11 => 30 | 12 => 31
  | _ => 0
  end.

Definition DAYS_BEFORE_MONTH (month : Z) : Z :=
  match month with
  | 1 => 0 | 2 => 31 | 3 => 59 | 4 => 90 | 5 => 120 | 6 => 151
  | 7 => 181 | 8 => 212 | 9 => 243 | 10 => 273 | 11 => 304 | 12 => 334
  | _ => 0
  end.

Definition days_in_month (year month : Z) : Z :=
  if (month =? 2) && is_leap year then 29 else DAYS_IN_MONTH month.

Definition days_before_month (year month : Z) : Z :=
  DAYS_BEFORE_MONTH month + (if (2 <? month) && is_leap year then 1 else 0).

Definition ymd2ord (year month day : Z) : Z :=
  days_before_year year + days_before_month year month + day.

(** [datetime(year, month, day, hour, minute, second)]: the constructor
    checks every field and raises [ValueError] otherwise. *)
Definition new_datetime (year month day hh mm ss : Z) : result datetime :=
  if (1 <=? year) && (year <=? 9999) && (1 <=? month) && (month <=? 12)
     && (1 <=? day) && (day <=? days_in_month year month)
     && (0 <=? hh) && (hh <=? 23) && (0 <=? mm) && (mm <=? 59)
     && (0 <=? ss) && (ss <=? 59)
  then Ok (mkdatetime (ymd2ord year month day) hh mm ss)
  else Raise ValueError.

Definition digit (c : ascii) : option Z :=
  let n := Z.of_N (N_of_ascii c) in
  if (48 <=? n) && (n <=? 57) then Some (n - 48) else None.

Definition num2 (a b : ascii) : option Z :=
  x ← digit a; y ← digit b; Some (10 * x + y).

Definition num4 (a b c d : ascii) : option Z :=
  x ← num2 a b; y ← num2 c d; Some (100 * x + y).

Definition is_char (c : ascii) (d : ascii) : bool := Ascii.eqb c d.

(** The time part after the date: nothing, or one separator character (any
    character) followed by [HH], [HH:MM] or [HH:MM:SS]. *)
Definition parse_isoformat_time (rest : list ascii) : option (Z * Z * Z) :=
  match rest with
  | [] => Some (0, 0, 0)
  | [_; h1; h2] =>
      hh ← num2 h1 h2; Some (hh, 0, 0)
  | [_; h1; h2; c1; m1; m2] =>
      if is_char c1 ":" then
        hh ← num2 h1 h2; mm ← num2 m1 m2; Some (hh, mm, 0)
      else None
  | [_; h1; h2; c1; m1; m2; c2; s1; s2] =>
      if is_char c1 ":" && is_char c2 ":" then
        hh ← num2 h1 h2; mm ← num2 m1 m2; ss ← num2 s1 s2; Some (hh, mm, ss)
      else None
  | _ => None
  end.

(** [datetime.fromisoformat] on the grammar [YYYY-MM-DD[*HH[:MM[:SS]]]],
    where [*] is any one character: on a string of this grammar it is the
    library's function, value or [ValueError].  The library also reads a
    fraction of a second, a UTC offset, and the basic and week formats; the
    datetimes it makes of them have microseconds or an offset, which the
    record above does not have, and this definition raises on them where
    the library does not.  What is stated below about timestamps that are
    read is stated for the strings of the grammar, see [naive_seconds]. *)
Definition fromisoformat (s : string) : result datetime :=
  match list_ascii_of_string s with
  | y1 :: y2 :: y3 :: y4 :: c1 :: m1 :: m2 :: c2 :: d1 :: d2 :: rest =>
      if is_char c1 "-" && is_char c2 "-" then
        match num4 y1 y2 y3 y4, num2 m1 m2, num2 d1 d2,
              parse_isoformat_time rest with
        | Some y, Some m, Some d, Some (hh, mm, ss) =>
            new_datetime y m d hh mm ss
        | _, _, _, _ => Raise ValueError
        end
      else Raise ValueError
  | _ => Raise ValueError
  end.

(** Seconds since the start of ordinal day 0; [a - b] on datetimes is the
    difference of these, and [total_seconds()] reads it back. *)
Definition to_seconds (a : datetime) : Z :=
  date a * 86400 + hour a * 3600 + minute a * 60 + second a.

Definition total_seconds_between (a b : datetime) : Z :=
  (date a - date b) * 86400
  + ((hour a * 3600 + minute a * 60 + second a)
     - (hour b * 3600 + minute b * 60 + second b)).

(** Comparison of naive datetimes: field by field, most significant
    first. *)
Definition dt_ltb (a b : datetime) : bool :=
  (date a <? date b) ||
  ((date a =? date b) &&
   ((hour a <? hour b) ||
    ((hour a =? hour b) &&
     ((minute a <? minute b) ||
      ((minute a =? minute b) && (second a <? second b)))))).

Definition dt_leb (a b : datetime) : bool := negb (dt_ltb b a).

(** [max(a, b)]: the first argument unless the second is greater. *)
Definition dt_max (a b : datetime) : datetime :=
  if dt_ltb a b then b else a.

(** [timedelta(minutes=m)] and [timedelta(days=d)], in seconds; the
    constructor refuses more than 999999999 days either way. *)
Definition timedelta_seconds (secs : Z) : result Z :=
  let days := secs / 86400 in
  if (-999999999 <=? days) && (days <=? 999999999) then Ok secs
  else Raise OverflowError.

Definition timedelta_minutes (m : Z) : result Z := timedelta_seconds (m * 60).
Definition timedelta_days (d : Z) : result Z := timedelta_seconds (d * 86400).

(** [a + delta]: normalise through the ordinal, refuse a day outside
    1..[MAXORDINAL]. *)
Definition dt_add (a : datetime) (delta : Z) : result datetime :=
  let total := to_seconds a + delta in
  let days := total / 86400 in
  let secs := total mod 86400 in
  if (0 <? days) && (days <=? MAXORDINAL) then
    Ok (mkdatetime days (secs / 3600) ((secs mod 3600) / 60) (secs mod 60))
  else Raise OverflowError.

(** [dt.replace(hour=9, minute=0, second=0)] and [dt.replace(hour=17)]. *)
Definition replace_hms (a : datetime) (hh mm ss : Z) : datetime :=
  mkdatetime (date a) hh mm ss.

Definition replace_hour (a : datetime) (hh : Z) : datetime :=
  mkdatetime (date a) hh (minute a) (second a).

(** Printing: [_ord2ymd] and [isoformat(timespec='seconds')]. *)
Definition ord2ymd (n0 : Z) : Z * Z * Z :=
  let n := n0 - 1 in
  let n400 := n / 146097 in
  let n := n mod 146097 in
  let year := n400 * 400 + 1 in
  let n100 := n / 36524 in
  let n := n mod 36524 in
  let n4 := n / 1461 in
  let n := n mod 1461 in
  let n1 := n / 365 in
  let n := n mod 365 in
  let year := year + n100 * 100 + n4 * 4 + n1 in
  if (n1 =? 4) || (n100 =? 4) then (year - 1, 12, 31)
  else
    let leapyear := (n1 =? 3) && (negb (n4 =? 24) || (n100 =? 3)) in
    let month := Z.shiftr (n + 50) 5 in
    let preceding :=
      DAYS_BEFORE_MONTH month + (if (2 <? month) && leapyear then 1 else 0) in
    if n <? preceding then
      let month := month - 1 in
      let preceding :=
        preceding
        - (DAYS_IN_MONTH month + (if (month =? 2) && leapyear then 1 else 0)) in
      (year, month, n - preceding + 1)
    else (year, month, n - preceding + 1).

Definition digit_char (d : Z) : ascii := ascii_of_N (Z.to_N (48 + d mod 10)).

Definition fmt2 (n : Z) (k : string) : string :=
  String (digit_char (n / 10)) (String (digit_char n) k).

Definition fmt4 (n : Z) (k : string) : string :=
  fmt2 (n / 100) (fmt2 (n mod 100) k).

Definition iso (dt : datetime) : string :=
  let '(y, m, d) := ord2ymd (date dt) in
  fmt4 y (String "-" (fmt2 m (String "-" (fmt2 d (String "T"
    (fmt2 (hour dt) (String ":" (fmt2 (minute dt) (String ":"
      (fmt2 (second dt) "")))))))))).

(** ** Events and the store *)

(** An event dictionary.  Every event of the program has exactly these six
    keys; [id_] and [end_] are the keys ["id"] and ["end"].  The values of
    [title], [start], [end_] and [attendees] are whatever the request
    carried. *)
Record event : Type := mkevent {
  id_ : string;
  title : json;
  start : json;
  end_ : json;
  attendees : json;
  created_by : json
}.

(** The module-level list the server starts with. *)
Definition EVENTS : list event :=
  [ mkevent "e1" (JStr "Weekly team sync")
      (JStr "2025-10-22T10:00:00") (JStr "2025-10-22T10:30:00")
      (JList [JStr "alice@example.com"]) (JStr "system");
    mkevent "e2" (JStr "Project planning")
      (JStr "2025-10-22T15:00:00") (JStr "2025-10-22T16:00:00")
      (JList [JStr "bob@example.com"]) (JStr "system") ].

(** [parse_iso(s)]: [datetime.fromisoformat] wants a [str]. *)
Definition parse_iso (v : json) : result datetime :=
  match v with
  | JStr s => fromisoformat s
  | _ => Raise TypeError
  end.

(** A list comprehension [[e for e in l if p(e)]] whose condition can
    raise: the first exception met, in list order, ends it. *)
Fixpoint filterM {A : Type} (p : A -> result bool) (l : list A)
  : result (list A) :=
  match l with
  | [] => Ok []
  | x :: xs =>
      b ← p x;
      r ← filterM p xs;
      Ok (if b : bool then x :: r else r)
  end.

(** [sorted(l, key=lambda x: x["start"])]: a stable sort on the start
    *strings*, compared as Python compares [str] (code point order).  Only
    lists whose starts are all strings reach it, see
    [day_events_starts_are_strings]. *)
Definition sort_key (e : event) : string :=
  match start e with
  | JStr s => s
  | _ => ""
  end.

Fixpoint insert_by_start (x : event) (l : list event) : list event :=
  match l with
  | [] => [x]
  | y :: l' =>
      if String.ltb (sort_key y) (sort_key x)
      then y :: insert_by_start x l'
      else x :: y :: l'
  end.

Definition sorted_by_start (l : list event) : list event :=
  foldr insert_by_start [] l.

(** ** Slot search (server.py lines 97-109, and again 157-169)

    The two handlers carry the same statements.  [find_slot] is that block;
    it returns the two datetimes, and the handlers print them with [iso]
    into the dictionary [{"start": ..., "end": ...}]. *)

Definition slot_at (cursor : datetime) (duration : Z)
  : result (datetime * datetime) :=
  delta ← timedelta_minutes duration;
  stop ← dt_add cursor delta;
  Ok (cursor, stop).

(** The [for e in evs] loop: the slot found, if any, and the cursor on
    leaving the loop. *)
Fixpoint scan (evs : list event) (cursor : datetime) (duration : Z)
  : result (option (datetime * datetime) * datetime) :=
  match evs with
  | [] => Ok (None, cursor)
  | e :: rest =>
      s ← parse_iso (start e);
      if duration * 60 <=? total_seconds_between s cursor then
        slot ← slot_at cursor duration;
        Ok (Some slot, cursor)
      else
        t ← parse_iso (end_ e);
        scan rest (dt_max cursor t) duration
  end.

Definition day_events (store : list event) (work_start : datetime)
  : result (list event) :=
  filterM (fun e => s ← parse_iso (start e);
                    Ok (date s =? date work_start)) store.

Definition find_slot (store : list event) (day : json) (duration : Z)
  : result (option (datetime * datetime)) :=
  d0 ← parse_iso day;
  let work_start := replace_hms d0 9 0 0 in
  let work_end := replace_hour work_start 17 in
  todays ← day_events store work_start;
  let evs := sorted_by_start todays in
  '(slot, cursor) ← scan evs work_start duration;
  match slot with
  | Some found => Ok (Some found)
  | None =>
      if duration * 60 <=? total_seconds_between work_end cursor then
        found ← slot_at cursor duration;
        Ok (Some found)
      else Ok None
  end.

(** The slot dictionary. *)
Record slot : Type := mkslot {
  slot_start : string;
  slot_end : string
}.

Definition slot_dict (found : datetime * datetime) : slot :=
  mkslot (iso (fst found)) (iso (snd found)).

(** ** [int(x)] on a request value

    Integers pass, booleans are 0 and 1, [None] and containers are a
    [TypeError]; a string is read as a decimal literal: blanks stripped, an
    optional sign, digits with single underscores between them, and at most
    4300 digits ([sys.int_max_str_digits]).  Strings are sequences of code
    points below 256: the blanks [int] strips are the ASCII ones and the
    code points 133 and 160, and the only decimal digits are the ASCII
    ones. *)

Definition is_space (c : ascii) : bool :=
  let n := Z.of_N (N_of_ascii c) in
  ((9 <=? n) && (n <=? 13)) || (n =? 32) || (n =? 133) || (n =? 160).

Fixpoint lstrip (l : list ascii) : list ascii :=
  match l with
  | c :: rest => if is_space c then lstrip rest else l
  | [] => []
  end.

Definition strip (l : list ascii) : list ascii :=
  rev (lstrip (rev (lstrip l))).

Fixpoint int_digits (l : list ascii) (acc : Z) (after_digit : bool)
  : option Z :=
  match l with
  | [] => if after_digit then Some acc else None
  | c :: rest =>
      match digit c with
      | Some d => int_digits rest (10 * acc + d) true
      | None =>
          if is_char c "_" && after_digit then int_digits rest acc false
          else None
      end
  end.

Definition count_digits (l : list ascii) : Z :=
  Z.of_nat (length (List.filter (fun c => match digit c with
                                          | Some _ => true
                                          | None => false
                                          end) l)).

Definition int_of_string (s : string) : result Z :=
  let l := strip (list_ascii_of_string s) in
  let r :=
    match l with
    | c :: rest =>
        if is_char c "-" then Z.opp <$> int_digits rest 0 false
        else if is_char c "+" then int_digits rest 0 false
        else int_digits l 0 false
    | [] => None
    end in
  match r with
  | Some z => if 4300 <? count_digits l then Raise ValueError else Ok z
  | None => Raise ValueError
  end.

Definition py_int (v : json) : result Z :=
  match v with
  | JInt z => Ok z
  | JBool b => Ok (if b then 1 else 0)
  | JStr s => int_of_string s
  | JNull | JList _ | JObj _ => Raise TypeError
  end.

(** ** The JSON-RPC endpoint *)

(** A validated request: the body went through the [JSONRPCRequest] model.
    Its [jsonrpc] version string plays no part and is left out; [req_id]
    is the field [id]. *)
Record JSONRPCRequest : Type := mkrequest {
  method : string;
  params : gmap string json;
  req_id : json
}.

(** What a handler hands back as ["result"]. *)
Inductive payload : Type :=
| PEvents (l : list event)
| PSlot (s : option slot)
| PEvent (e : event).

(** The response dictionary: [{"result": ..., "id": ...}] or
    [{"error": {"code": ..., "message": ..., "data": str(e)}, "id": ...}];
    of [data] the exception class is kept. *)
Inductive response : Type :=
| RpcResult (r : payload) (i : json)
| RpcError (code : Z) (message : string) (data : option exn) (i : json).

(** [d.get(key)] and [d.get(key, dflt)]. *)
Definition get (d : gmap string json) (key : string) : json :=
  default JNull (d !! key).

Definition get_or (d : gmap string json) (key : string) (dflt : json) : json :=
  default dflt (d !! key).

(** [try: ... except Exception as e: return {"error": -32000 ...}] *)
Definition try_except (i : json) (body : result response) : response :=
  match body with
  | Ok r => r
  | Raise e => RpcError (-32000) "Server error" (Some e) i
  end.

Definition get_events_for_day (store : list event) (rpc : JSONRPCRequest)
  : result response :=
  let day := get (params rpc) "day" in
  if negb (truthy day) then
    Ok (RpcError (-32602) "Missing param 'day'" None (req_id rpc))
  else
    start_day ← parse_iso day;
    one_day ← timedelta_days 1;
    end_day ← dt_add start_day one_day;
    matches ← filterM (fun e =>
                 s ← parse_iso (start e);
                 if dt_leb start_day s then
                   s' ← parse_iso (start e);
                   Ok (dt_ltb s' end_day)
                 else Ok false) store;
    Ok (RpcResult (PEvents matches) (req_id rpc)).

Definition find_free_slot (store : list event) (rpc : JSONRPCRequest)
  : result response :=
  let day := get (params rpc) "day" in
  duration ← py_int (get_or (params rpc) "duration_minutes" (JInt 60));
  if negb (truthy day) then
    Ok (RpcError (-32602) "Missing param 'day'" None (req_id rpc))
  else
    found ← find_slot store day duration;
    Ok (RpcResult (PSlot (slot_dict <$> found)) (req_id rpc)).

(** [create_event]: the only JSON-RPC method that changes the store.
    [uuid8] is [str(uuid.uuid4())[:8]], drawn by the caller. *)
Definition create_event (uuid8 : string) (store : list event)
    (rpc : JSONRPCRequest) : list event * response :=
  let title_ := get (params rpc) "title" in
  let start_ := get (params rpc) "start" in
  let end__ := get (params rpc) "end" in
  let attendees_ := get_or (params rpc) "attendees" (JList []) in
  if negb (truthy title_ && truthy start_ && truthy end__) then
    (store, RpcError (-32602) "Missing title/start/end" None (req_id rpc))
  else
    let new_e := mkevent uuid8 title_ start_ end__ attendees_
                   (get_or (params rpc) "created_by" (JStr "client")) in
    (store ++ [new_e], RpcResult (PEvent new_e) (req_id rpc)).

Definition jsonrpc (uuid8 : string) (store : list event)
    (rpc : JSONRPCRequest) : list event * response :=
  if String.eqb (method rpc) "list_events" then
    (store, RpcResult (PEvents store) (req_id rpc))
  else if String.eqb (method rpc) "get_events_for_day" then
    (store, try_except (req_id rpc) (get_events_for_day store rpc))
  else if String.eqb (method rpc) "find_free_slot" then
    (store, try_except (req_id rpc) (find_free_slot store rpc))
  else if String.eqb (method rpc) "create_event" then
    create_event uuid8 store rpc
  else
    (store, RpcError (-32601) "Method not found" None (req_id rpc)).

(** ** The REST helper [/api/book_and_confirm] *)

(** [book_title] and [book_attendees] are the attributes [title] and
    [attendees] of the class. *)
Record BookRequest : Type := mkbook {
  day : string;
  duration_minutes : Z;
  book_title : string;
  book_attendees : list string
}.

(** Building a [BookRequest] from a body: [day] is required, the other
    fields fall back to the defaults of the class. *)
Definition BookRequest_init (day_ : string) (duration_ : option Z)
    (title_ : option string) (attendees_ : option (list string))
  : BookRequest :=
  mkbook day_ (default 60 duration_) (default "Booked via UI" title_)
         (default [] attendees_).

Inductive http_response : Type :=
| Http200 (e : event) (confirmation : string)
| Http404 (detail : string)
| Http500 (e : exn).

(** [confirm] stands for lines 186-187 when [llm_generate] returns: the
    prompt built from the new event and the text answered.  The call
    itself, which can raise after the event has been appended, is in
    [book_and_confirm_llm] below. *)
Definition book_and_confirm (confirm : event -> string) (uuid8 : string)
    (store : list event) (req : BookRequest) : list event * http_response :=
  match find_slot store (JStr (day req)) (duration_minutes req) with
  | Raise e => (store, Http500 e)
  | Ok None => (store, Http404 "No free slot found")
  | Ok (Some found) =>
      let s := slot_dict found in
      let new_e := mkevent uuid8 (JStr (book_title req))
                     (JStr (slot_start s)) (JStr (slot_end s))
                     (JList (JStr <$> book_attendees req)) (JStr "ui") in
      (store ++ [new_e], Http200 new_e (confirm new_e))
  end.

(** ** Requests as the client builds them (client.py) *)

Definition find_free_slot_request (day_iso : string) (duration : Z)
  : JSONRPCRequest :=
  mkrequest "find_free_slot"
    (<["day" := JStr day_iso]> (<["duration_minutes" := JInt duration]> ∅))
    (JInt 1).

Definition create_event_request (title_ start_ end__ : string)
    (attendees_ : list string) : JSONRPCRequest :=
  mkrequest "create_event"
    (<["title" := JStr title_]> (<["start" := JStr start_]>
      (<["end" := JStr end__]>
        (<["attendees" := JList (JStr <$> attendees_)]> ∅))))
    (JInt 2).

Definition get_events_for_day_request (day_iso : string) : JSONRPCRequest :=
  mkrequest "get_events_for_day" (<["day" := JStr day_iso]> ∅) (JInt 3).

(** ** Python strings

    A string is a sequence of code points below 256; the methods below are
    Python's on such strings. *)

Definition code (c : ascii) : Z := Z.of_N (N_of_ascii c).
Definition chr (n : Z) : ascii := ascii_of_N (Z.to_N n).

(** [s.lower()] *)
Definition lower_char (c : ascii) : ascii :=
  let n := code c in
  if ((65 <=? n) && (n <=? 90))
     || ((192 <=? n) && (n <=? 222) && negb (n =? 215))
  then chr (n + 32) else c.

Fixpoint lower (s : string) : string :=
  match s with
  | EmptyString => EmptyString
  | String c s' => String (lower_char c) (lower s')
  end.

(** [sub in s] *)
Fixpoint contains (sub s : string) : bool :=
  String.prefix sub s ||
  match s with
  | EmptyString => false
  | String _ s' => contains sub s'
  end.

(** [str.isspace] on one character, which is also the class [\s] of [re]
    and what [str.strip()] removes. *)
Definition is_whitespace (c : ascii) : bool :=
  let n := code c in
  ((9 <=? n) && (n <=? 13)) || ((28 <=? n) && (n <=? 32))
  || (n =? 133) || (n =? 160).

(** The class [\d] of [re]. *)
Definition is_digit (c : ascii) : bool :=
  let n := code c in (48 <=? n) && (n <=? 57).

Fixpoint take_while (p : ascii -> bool) (s : string) : string :=
  match s with
  | String c s' => if p c then String c (take_while p s') else EmptyString
  | EmptyString => EmptyString
  end.

Fixpoint drop_while (p : ascii -> bool) (s : string) : string :=
  match s with
  | String c s' => if p c then drop_while p s' else s
  | EmptyString => EmptyString
  end.

(** [s.strip()] *)
Definition str_strip (s : string) : string :=
  string_of_list_ascii
    (rev (list_ascii_of_string
            (drop_while is_whitespace
               (string_of_list_ascii
                  (rev (list_ascii_of_string
                          (drop_while is_whitespace s))))))).

(** [s.replace(old, new)] for one-character [old] and [new]. *)
Fixpoint replace_char (old new : ascii) (s : string) : string :=
  match s with
  | EmptyString => EmptyString
  | String c s' =>
      String (if Ascii.eqb c old then new else c) (replace_char old new s')
  end.

(** [sep.join(l)] *)
Fixpoint join (sep : string) (l : list string) : string :=
  match l with
  | [] => EmptyString
  | [x] => x
  | x :: l' => String.append x (String.append sep (join sep l'))
  end.

Definition hex_digit (n : Z) : ascii :=
  if n <? 10 then chr (48 + n) else chr (87 + n).

Definition quote : ascii := "039"%char.
Definition dquote : ascii := "034"%char.
Definition backslash : ascii := "092"%char.
Definition newline : ascii := "010"%char.

(** [str.isprintable] on one character. *)
Definition is_printable (c : ascii) : bool :=
  let n := code c in
  ((32 <=? n) && (n <=? 126)) || ((161 <=? n) && negb (n =? 173)).

(** [repr(s)] of a string: single quotes, unless the string holds a single
    quote and no double quote. *)
Definition repr_char (q : ascii) (c : ascii) : string :=
  if Ascii.eqb c backslash then String backslash (String backslash "")
  else if Ascii.eqb c q then String backslash (String q "")
  else if Ascii.eqb c "009" then String backslash "t"
  else if Ascii.eqb c "010" then String backslash "n"
  else if Ascii.eqb c "013" then String backslash "r"
  else if is_printable c then String c ""
  else String backslash
         (String "x" (String (hex_digit (code c / 16))
                        (String (hex_digit (code c mod 16)) ""))).

Fixpoint repr_chars (q : ascii) (s : string) : string :=
  match s with
  | EmptyString => EmptyString
  | String c s' => String.append (repr_char q c) (repr_chars q s')
  end.

Definition repr_str (s : string) : string :=
  let q :=
    if contains (String quote "") s && negb (contains (String dquote "") s)
    then dquote else quote in
  String q (String.append (repr_chars q s) (String q "")).

Definition str_of_int (z : Z) : string := NilZero.string_of_int (Z.to_int z).

(** [repr(v)] and [str(v)] of a JSON value. *)
Fixpoint py_repr (v : json) : string :=
  match v with
  | JNull => "None"
  | JBool b => if b then "True" else "False"
  | JInt z => str_of_int z
  | JStr s => repr_str s
  | JList l =>
      String.append "[" (String.append (join ", " (map py_repr l)) "]")
  | JObj l =>
      String.append "{"
        (String.append
           (join ", "
              (map (fun kv =>
                      String.append (repr_str kv.1)
                        (String.append ": " (py_repr kv.2))) l))
           "}")
  end.

Definition py_str (v : json) : string :=
  match v with
  | JStr s => s
  | _ => py_repr v
  end.

(** The f-string of server.py line 186 and client.py line 44. *)
Definition prompt (title_ start_ end__ attendees_ : json) : string :=
  String.append "You scheduled an event titled '"
    (String.append (py_str title_)
       (String.append "' from "
          (String.append (py_str start_)
             (String.append " to "
                (String.append (py_str end__)
                   (String.append " with attendees "
                      (String.append (py_str attendees_)
                         ". Produce a short friendly confirmation message."))))))).

(** ** The language model (llm.py) *)

(** Exceptions that nothing catches. *)
Inductive uncaught : Type :=
| UncaughtTypeError
| UncaughtKeyError
| UncaughtIndexError
| UncaughtAttributeError
| UncaughtOverflowError
| UncaughtValueError.

Inductive outcome (A : Type) : Type :=
| Returns (a : A)
| Raises (e : uncaught).

Arguments Returns {A} a.
Arguments Raises {A} e.

#[global] Instance outcome_ret : MRet outcome := fun _ a => Returns a.
#[global] Instance outcome_bind : MBind outcome := fun _ _ f m =>
  match m with
  | Returns a => f a
  | Raises e => Raises e
  end.

(** [prompt[:400].replace("\n", " ")] *)
Definition snippet (prompt_ : string) : string :=
  replace_char newline " " (String.substring 0 400 prompt_).

Definition mock_reply (prompt_ : string) : string :=
  String.append "[MOCK LLM]"
    (String newline
       (String.append "Based on context: "
          (String.append (snippet prompt_)
             (String newline (String newline
                "Reply: (mock) I scheduled your meeting successfully."))))).

Definition fallback_reply (prompt_ : string) : string :=
  String.append "[MOCK LLM - fallback]"
    (String newline
       (String.append "Based on context: "
          (String.append (snippet prompt_)
             (String newline (String newline
                "Reply: (mock fallback) Meeting scheduled."))))).

(** What the request to the API comes to: a [RequestException] (no
    connection, a timeout, a status of 400 or more, a body that is not
    JSON, which [requests] reports as one from version 2.27 on), or the
    body, decoded.  A decoded body holds no integer of more than 4300
    digits: Python refuses to read one. *)
Inductive http_reply : Type :=
| RequestException
| Body (data : json).

(** A decoded object holds each key once. *)
Fixpoint dict_get (l : list (string * json)) (key : string) : option json :=
  match l with
  | [] => None
  | (k, v) :: l' => if String.eqb k key then Some v else dict_get l' key
  end.

(** [key in v] *)
Definition py_in (key : string) (v : json) : outcome bool :=
  match v with
  | JObj l =>
      Returns (match dict_get l key with Some _ => true | None => false end)
  | JList l =>
      Returns (existsb (fun x => match x with
                                 | JStr s => String.eqb s key
                                 | _ => false
                                 end) l)
  | JStr s => Returns (contains key s)
  | JNull | JBool _ | JInt _ => Raises UncaughtTypeError
  end.

(** [v[key]] for a string [key] *)
Definition py_getitem (v : json) (key : string) : outcome json :=
  match v with
  | JObj l =>
      match dict_get l key with
      | Some x => Returns x
      | None => Raises UncaughtKeyError
      end
  | _ => Raises UncaughtTypeError
  end.

(** [len(v)] *)
Definition py_len (v : json) : outcome Z :=
  match v with
  | JObj l => Returns (Z.of_nat (length l))
  | JList l => Returns (Z.of_nat (length l))
  | JStr s => Returns (Z.of_nat (String.length s))
  | JNull | JBool _ | JInt _ => Raises UncaughtTypeError
  end.

(** [v[0]] *)
Definition py_first (v : json) : outcome json :=
  match v with
  | JList (x :: _) => Returns x
  | JList [] => Raises UncaughtIndexError
  | JStr (String c _) => Returns (JStr (String c EmptyString))
  | JStr EmptyString => Raises UncaughtIndexError
  | JObj _ => Raises UncaughtKeyError
  | JNull | JBool _ | JInt _ => Raises UncaughtTypeError
  end.

(** [v.strip()] *)
Definition py_strip (v : json) : outcome string :=
  match v with
  | JStr s => Returns (str_strip s)
  | _ => Raises UncaughtAttributeError
  end.

(** [json.dumps(data, indent=2)] *)
Definition json_char (c : ascii) : string :=
  if Ascii.eqb c dquote then String backslash (String dquote "")
  else if Ascii.eqb c backslash then String backslash (String backslash "")
  else if Ascii.eqb c "010" then String backslash "n"
  else if Ascii.eqb c "013" then String backslash "r"
  else if Ascii.eqb c "009" then String backslash "t"
  else if Ascii.eqb c "008" then String backslash "b"
  else if Ascii.eqb c "012" then String backslash "f"
  else if (32 <=? code c) && (code c <=? 126) then String c ""
  else String backslash
         (String "u" (String "0" (String "0"
            (String (hex_digit (code c / 16))
               (String (hex_digit (code c mod 16)) ""))))).

Fixpoint json_chars (s : string) : string :=
  match s with
  | EmptyString => EmptyString
  | String c s' => String.append (json_char c) (json_chars s')
  end.

Definition json_string (s : string) : string :=
  String dquote (String.append (json_chars s) (String dquote "")).

Fixpoint spaces (n : nat) : string :=
  match n with
  | O => EmptyString
  | S n' => String " " (spaces n')
  end.

Definition bracketed (opening closing : string) (level : nat)
    (items : list string) : string :=
  match items with
  | [] => String.append opening closing
  | _ =>
      let inner := String newline (spaces (2 * S level)) in
      String.append opening
        (String.append inner
           (String.append (join (String "," inner) items)
              (String newline
                 (String.append (spaces (2 * level)) closing))))
  end.

Fixpoint dumps (level : nat) (v : json) : string :=
  match v with
  | JNull => "null"
  | JBool b => if b then "true" else "false"
  | JInt z => str_of_int z
  | JStr s => json_string s
  | JList l => bracketed "[" "]" level (map (dumps (S level)) l)
  | JObj l =>
      bracketed "{" "}" level
        (map (fun kv =>
                String.append (json_string kv.1)
                  (String.append ": " (dumps (S level) kv.2))) l)
  end.

(** [generate(prompt)]: [key] is the environment variable
    [OPENROUTER_API_KEY], [reply] what the request comes to when it is
    made. *)
Definition generate (key : option string) (reply : http_reply)
    (prompt_ : string) : outcome string :=
  if match key with Some k => String.eqb k "" | None => true end then
    Returns (mock_reply prompt_)
  else
    match reply with
    | RequestException => Returns (fallback_reply prompt_)
    | Body data =>
        has_choices ← py_in "choices" data;
        nonempty ←
          (if has_choices : bool then
             choices ← py_getitem data "choices";
             n ← py_len choices;
             Returns (0 <? n)
           else Returns false);
        if nonempty : bool then
          choices ← py_getitem data "choices";
          choice ← py_first choices;
          has_message ← py_in "message" choice;
          has_content ←
            (if has_message : bool then
               message ← py_getitem choice "message";
               py_in "content" message
             else Returns false);
          if has_content : bool then
            message ← py_getitem choice "message";
            content ← py_getitem message "content";
            py_strip content
          else
            has_text ← py_in "text" choice;
            if has_text : bool then
              text ← py_getitem choice "text";
              py_strip text
            else Returns (String.substring 0 1000 (dumps 0 data))
        else Returns (String.substring 0 1000 (dumps 0 data))
    end.

(** ** [book_and_confirm] with the language model

    [book_and_confirm] above takes the confirmation text as given.  Here
    the call of [llm_generate] is made as the source makes it, on the
    prompt built from the new event, after the event has been appended;
    an exception of that call is caught by nothing. *)
Definition book_and_confirm_llm (llm : string -> outcome string)
    (uuid8 : string) (store : list event) (req : BookRequest)
  : list event * outcome http_response :=
  match find_slot store (JStr (day req)) (duration_minutes req) with
  | Raise e => (store, Returns (Http500 e))
  | Ok None => (store, Returns (Http404 "No free slot found"))
  | Ok (Some found) =>
      let s := slot_dict found in
      let new_e := mkevent uuid8 (JStr (book_title req))
                     (JStr (slot_start s)) (JStr (slot_end s))
                     (JList (JStr <$> book_attendees req)) (JStr "ui") in
      let store := store ++ [new_e] in
      match llm (prompt (title new_e) (start new_e) (end_ new_e)
                   (attendees new_e)) with
      | Raises e => (store, Raises e)
      | Returns confirmation => (store, Returns (Http200 new_e confirmation))
      end
  end.

(** Requests to [/api/book_and_confirm] that arrive together.  The handler
    is a coroutine ([async def]) without an [await]: once the event loop
    has started it, it runs to its end, search and append included, before
    another request is looked at.  So such requests are served one after
    the other, in the order the loop takes them.  [book_each] serves a list
    of requests in list order, each with the identifier drawn for it, and
    gives the store they leave and their answers. *)
Fixpoint book_each (llm : string -> outcome string) (store : list event)
    (reqs : list (string * BookRequest))
  : list event * list (outcome http_response) :=
  match reqs with
  | [] => (store, [])
  | r :: rest =>
      let '(store1, answer) := book_and_confirm_llm llm r.1 store r.2 in
      let '(store2, answers) := book_each llm store1 rest in
      (store2, answer :: answers)
  end.

(** ** The client (client.py)

    A run of the client prints lines and calls the server.  [jsonrpc_call]
    posts a request and decodes the answer; here the call reaches the
    server and its answer comes back as the server built it, printing
    succeeds, and nobody else talks to the server between two calls of one
    run. *)

(** What the client prints, one constructor for each [print] statement; a
    line that shows a value keeps the value. *)
Inductive printed : Type :=
| AskingServer
| ServerErrorLine (code : Z) (message : string) (data : option exn)
| NoFreeSlot
| FoundSlot (found : payload)
| CreateErrorLine (code : Z) (message : string) (data : option exn)
| EventCreated (ev : payload)
| Confirmation (msg : string)
| ShowErrorLine (code : Z) (message : string) (data : option exn)
| EventsOn (day_iso : string)
| EventRow (start_ title_ : json)
| UsageLine
| CouldNotParseBookingDate
| Unrecognized.

(** A client computation: from the server's store to the store after it,
    the lines printed, and the value returned or the exception that ended
    it. *)
Definition client (A : Type) : Type :=
  list event -> list event * list printed * outcome A.

#[global] Instance client_ret : MRet client := fun _ a store =>
  (store, [], Returns a).

#[global] Instance client_bind : MBind client := fun _ _ f m store =>
  let '(store1, out1, r) := m store in
  match r with
  | Raises e => (store1, out1, Raises e)
  | Returns a =>
      let '(store2, out2, r2) := f a store1 in (store2, out1 ++ out2, r2)
  end.

Definition print (p : printed) : client unit := fun store =>
  (store, [p], Returns tt).

Definition lift {A : Type} (o : outcome A) : client A := fun store =>
  (store, [], o).

Definition uncaught_of (e : exn) : uncaught :=
  match e with
  | ValueError => UncaughtValueError
  | TypeError => UncaughtTypeError
  | OverflowError => UncaughtOverflowError
  end.

Definition lift_result {A : Type} (r : result A) : client A :=
  lift (match r with
        | Ok a => Returns a
        | Raise e => Raises (uncaught_of e)
        end).

(** [jsonrpc_call(method, params, id)]; [uuid8] is the identifier the
    server draws if the call creates an event. *)
Definition jsonrpc_call (uuid8 : string) (method_ : string)
    (params_ : gmap string json) (id : Z) : client response := fun store =>
  let '(store', r) := jsonrpc uuid8 store (mkrequest method_ params_ (JInt id)) in
  (store', [], Returns r).

(** [not r] and [r[key]] on the value of ["result"]. *)
Definition falsy (r : payload) : bool :=
  match r with
  | PSlot None | PEvents [] => true
  | PSlot (Some _) | PEvents (_ :: _) | PEvent _ => false
  end.

Definition subscript (r : payload) (key : string) : outcome json :=
  match r with
  | PSlot (Some s) =>
      if String.eqb key "start" then Returns (JStr (slot_start s))
      else if String.eqb key "end" then Returns (JStr (slot_end s))
      else Raises UncaughtKeyError
  | PEvent e =>
      if String.eqb key "id" then Returns (JStr (id_ e))
      else if String.eqb key "title" then Returns (title e)
      else if String.eqb key "start" then Returns (start e)
      else if String.eqb key "end" then Returns (end_ e)
      else if String.eqb key "attendees" then Returns (attendees e)
      else if String.eqb key "created_by" then Returns (created_by e)
      else Raises UncaughtKeyError
  | PSlot None | PEvents _ => Raises UncaughtTypeError
  end.

(** [find_free_and_book(day_iso, duration_minutes, title, attendees)];
    [llm] is [generate] with its key and the reply its request would
    get. *)
Definition find_free_and_book (llm : string -> outcome string)
    (uuid8 : string) (day_iso : string) (duration_minutes : Z)
    (title_ : string) (attendees_ : option (list string)) : client unit :=
  print AskingServer;;
  r ← jsonrpc_call uuid8 "find_free_slot"
        (<["day" := JStr day_iso]>
           (<["duration_minutes" := JInt duration_minutes]> ∅)) 1;
  match r with
  | RpcError code message data _ => print (ServerErrorLine code message data)
  | RpcResult found _ =>
      if falsy found then print NoFreeSlot
      else
        print (FoundSlot found);;
        start_ ← lift (subscript found "start");
        end__ ← lift (subscript found "end");
        create ← jsonrpc_call uuid8 "create_event"
                   (<["title" := JStr title_]> (<["start" := start_]>
                     (<["end" := end__]>
                       (<["attendees" :=
                            JList (JStr <$> default [] attendees_)]> ∅)))) 2;
        match create with
        | RpcError code message data _ =>
            print (CreateErrorLine code message data)
        | RpcResult ev _ =>
            print (EventCreated ev);;
            start_ ← lift (subscript ev "start");
            end__ ← lift (subscript ev "end");
            attendees_ ← lift (subscript ev "attendees");
            msg ← lift (llm (prompt (JStr title_) start_ end__ attendees_));
            print (Confirmation msg)
        end
  end.

(** [for e in evs: print("-", e["start"], e["title"])] *)
Fixpoint print_rows (l : list event) : client unit :=
  match l with
  | [] => mret tt
  | e :: l' => print (EventRow (start e) (title e));; print_rows l'
  end.

Definition show_events (uuid8 : string) (day_iso : string) : client unit :=
  r ← jsonrpc_call uuid8 "get_events_for_day" (<["day" := JStr day_iso]> ∅) 3;
  match r with
  | RpcError code message data _ => print (ShowErrorLine code message data)
  | RpcResult evs _ =>
      print (EventsOn day_iso);;
      match evs with
      | PEvents l => print_rows l
      | PSlot _ | PEvent _ => lift (Raises UncaughtTypeError)
      end
  end.

(** [re.search] with the pattern of a date, four digits, two digits and
    two digits with hyphens between: group 1 of the leftmost match. *)
Definition match_date (s : string) : option string :=
  match s with
  | String y1 (String y2 (String y3 (String y4 (String c1
      (String m1 (String m2 (String c2 (String d1 (String d2 _))))))))) =>
      if is_digit y1 && is_digit y2 && is_digit y3 && is_digit y4
         && Ascii.eqb c1 "-" && is_digit m1 && is_digit m2
         && Ascii.eqb c2 "-" && is_digit d1 && is_digit d2
      then Some (String y1 (String y2 (String y3 (String y4 (String c1
             (String m1 (String m2 (String c2 (String d1
               (String d2 EmptyString))))))))))
      else None
  | _ => None
  end.

Fixpoint search_date (s : string) : option string :=
  match match_date s with
  | Some d => Some d
  | None =>
      match s with
      | EmptyString => None
      | String _ s' => search_date s'
      end
  end.

(** [re.search] with the pattern of a duration, digits, then blanks if
    any, then [min]: the digits of the leftmost match.  The digits and the
    blanks are taken greedily, and giving some back never helps: [min]
    starts with neither. *)
Definition match_minutes (s : string) : option string :=
  let digits := take_while is_digit s in
  if String.eqb digits "" then None
  else if String.prefix "min" (drop_while is_whitespace (drop_while is_digit s))
  then Some digits
  else None.

Fixpoint search_minutes (s : string) : option string :=
  match match_minutes s with
  | Some d => Some d
  | None =>
      match s with
      | EmptyString => None
      | String _ s' => search_minutes s'
      end
  end.

(** [d.isoformat()] of a date, and [d + timedelta(days=k)]. *)
Definition date_isoformat (n : Z) : string :=
  let '(y, m, d) := ord2ymd n in
  fmt4 y (String "-" (fmt2 m (String "-" (fmt2 d "")))).

Definition date_plus_days (n k : Z) : result Z :=
  _ ← timedelta_days k;
  if (0 <? n + k) && (n + k <=? MAXORDINAL) then Ok (n + k)
  else Raise OverflowError.

(** [main(argv)]; [today] is the ordinal of [datetime.utcnow().date()]. *)
Definition main (llm : string -> outcome string) (uuid8 : string)
    (today : Z) (argv : list string) : client unit :=
  match argv with
  | _ :: arg :: _ =>
      let cmd := lower arg in
      if contains "free" cmd || contains "find" cmd then
        day_ ← match search_date cmd with
               | Some d => (mret d : client string)
               | None =>
                   if contains "tomorrow" cmd
                   then lift_result (tomorrow ← date_plus_days today 1;
                                     Ok (date_isoformat tomorrow))
                   else mret (date_isoformat today)
               end;
        dur ← match search_minutes cmd with
              | Some digits => lift_result (int_of_string digits)
              | None => (mret 60 : client Z)
              end;
        find_free_and_book llm uuid8 day_ dur "Quick MCP Booking" None
      else if contains "book" cmd || contains "schedule" cmd then
        match search_date cmd with
        | Some d =>
            find_free_and_book llm uuid8 d 60 "Booked by user request" None
        | None =>
            if contains "tomorrow" cmd then
              day_ ← lift_result (tomorrow ← date_plus_days today 1;
                                  Ok (date_isoformat tomorrow));
              find_free_and_book llm uuid8 day_ 60 "Booked by user request"
                None
            else print CouldNotParseBookingDate
        end
      else if contains "show" cmd || contains "events" cmd then
        match search_date cmd with
        | Some d => show_events uuid8 d
        | None => show_events uuid8 (date_isoformat today)
        end
      else print Unrecognized
  | _ => print UsageLine
  end.

(** * Specification vocabulary *)

(** Datetimes the library can construct: every field in range. *)
Definition valid_time (a : datetime) : Prop :=
  0 <= hour a <= 23 /\ 0 <= minute a <= 59 /\ 0 <= second a <= 59.

Definition valid_datetime (a : datetime) : Prop :=
  1 <= date a <= MAXORDINAL /\ valid_time a.

(** The values of the local variables [day] and [duration] of the
    [find_free_slot] and [get_events_for_day] branches. *)
Definition requested_day (rpc : JSONRPCRequest) : json :=
  get (params rpc) "day".

Definition requested_duration (rpc : JSONRPCRequest) : result Z :=
  py_int (get_or (params rpc) "duration_minutes" (JInt 60)).

(** The working window of the day of [d0]: the values of the local
    variables [work_start] and [work_end]. *)
Definition work_start (d0 : datetime) : datetime := replace_hms d0 9 0 0.
Definition work_end (d0 : datetime) : datetime :=
  replace_hour (work_start d0) 17.

(** A candidate start [c] of a slot of [duration] minutes is free when the
    slot lies in the working window and meets no event of the day.  Instants
    are ordered by [to_seconds]; the slot is the half-open interval
    [[c, c + duration)], and an event of the day is one whose start has the
    date of the window. *)
Definition overlaps (lo hi s t : Z) : Prop := lo < t /\ s < hi.

Definition event_of_day (work_start : datetime) (e : event)
    (s t : datetime) : Prop :=
  parse_iso (start e) = Ok s /\ parse_iso (end_ e) = Ok t /\
  date s = date work_start.

Definition free_slot (store : list event) (work_start work_end : datetime)
    (duration : Z) (c : datetime) : Prop :=
  to_seconds work_start <= to_seconds c /\
  to_seconds c + duration * 60 <= to_seconds work_end /\
  forall e s t, e ∈ store -> event_of_day work_start e s t ->
    ~ overlaps (to_seconds c) (to_seconds c + duration * 60)
        (to_seconds s) (to_seconds t).

(** Both timestamps of a stored event are read by [parse_iso] above; they
    are then naive timestamps to the second, see [naive_seconds] below and
    [parse_iso_naive_timestamp]. *)
Definition timestamps_parse (e : event) : Prop :=
  (exists s, parse_iso (start e) = Ok s) /\
  (exists t, parse_iso (end_ e) = Ok t).

(** Naive timestamps to the second.  [datetime.fromisoformat] also reads a
    fraction of a second, a UTC offset, and the basic and week formats; a
    datetime made from such a string carries microseconds or an offset,
    which the record [datetime] does not have, and [fromisoformat] above
    raises on it.  [naive_seconds] accepts the strings without any of
    these: [YYYY-MM-DD], alone or followed by one character (any) and [HH],
    [HH:MM] or [HH:MM:SS], every digit an ASCII digit.  On these strings
    [fromisoformat] above is the library's function.  A value is a naive
    timestamp for [t] when it is such a string and denotes the date and
    time [t]. *)
Definition is_digits (l : list ascii) : bool :=
  forallb (fun c => match digit c with Some _ => true | None => false end) l.

Definition naive_seconds (s : string) : bool :=
  match list_ascii_of_string s with
  | y1 :: y2 :: y3 :: y4 :: c1 :: m1 :: m2 :: c2 :: d1 :: d2 :: rest =>
      is_char c1 "-" && is_char c2 "-"
      && is_digits [y1; y2; y3; y4; m1; m2; d1; d2]
      && match rest with
         | [] => true
         | [_; h1; h2] => is_digits [h1; h2]
         | [_; h1; h2; c3; i1; i2] =>
             is_char c3 ":" && is_digits [h1; h2; i1; i2]
         | [_; h1; h2; c3; i1; i2; c4; s1; s2] =>
             is_char c3 ":" && is_char c4 ":"
             && is_digits [h1; h2; i1; i2; s1; s2]
         | _ => false
         end
  | _ => false
  end.

Definition naive_timestamp (v : json) (t : datetime) : Prop :=
  exists s, v = JStr s /\ naive_seconds s = true /\ fromisoformat s = Ok t.

(** The start of a stored event, and both its timestamps, are naive
    timestamps. *)
Definition naive_start (e : event) : Prop :=
  exists s, naive_timestamp (start e) s.

Definition naive_event (e : event) : Prop :=
  naive_start e /\ exists t, naive_timestamp (end_ e) t.

(** The event starts on ordinal day [n]: at or after its midnight, before
    the next one. *)
Definition starts_on (n : Z) (e : event) : bool :=
  match parse_iso (start e) with
  | Ok t => (n * 86400 <=? to_seconds t) && (to_seconds t <? (n + 1) * 86400)
  | Raise _ => false
  end.

(** The event starts on the date of [ws]: the test of the day filter. *)
Definition same_date (ws : datetime) (e : event) : bool :=
  match parse_iso (start e) with
  | Ok t => date t =? date ws
  | Raise _ => false
  end.

(** Timestamps in the format [iso] prints, [YYYY-MM-DDTHH:MM:SS]: nineteen
    characters with a [T] after the date. *)
Definition timestamp_string (y1 y2 y3 y4 m1 m2 d1 d2 h1 h2 i1 i2 s1 s2 : ascii)
  : string :=
  String y1 (String y2 (String y3 (String y4 (String "-"
    (String m1 (String m2 (String "-" (String d1 (String d2 (String "T"
      (String h1 (String h2 (String ":" (String i1 (String i2 (String ":"
        (String s1 (String s2 "")))))))))))))))))).

Definition canonical (s : string) : Prop :=
  String.length s = 19%nat /\ String.get 10 s = Some "T"%char.

Definition canonical_start (e : event) : Prop :=
  exists s, start e = JStr s /\ canonical s.

(** The start of an event in seconds (0 when it does not parse), and the
    stores whose start strings sort as their instants do: on a list [l],
    comparing two start strings gives what comparing the two starts
    gives. *)
Definition start_seconds (e : event) : Z :=
  match parse_iso (start e) with
  | Ok t => to_seconds t
  | Raise _ => 0
  end.

Definition chronological (l : list event) : Prop :=
  forall e1 e2, e1 ∈ l -> e2 ∈ l ->
    String.ltb (sort_key e1) (sort_key e2)
    = (start_seconds e1 <? start_seconds e2).

(** The start and end of the event a booking created. *)
Definition booked (r : http_response) : option (json * json) :=
  match r with
  | Http200 e _ => Some (start e, end_ e)
  | Http404 _ | Http500 _ => None
  end.

Definition booked_answer (a : outcome http_response)
  : option (json * json) :=
  match a with
  | Returns r => booked r
  | Raises _ => None
  end.

Definition is_error (r : response) : bool :=
  match r with
  | RpcError _ _ _ _ => true
  | RpcResult _ _ => false
  end.

(** The id and the error code of a response. *)
Definition response_id (r : response) : json :=
  match r with
  | RpcResult _ i => i
  | RpcError _ _ _ i => i
  end.

Definition error_code (r : response) : option Z :=
  match r with
  | RpcResult _ _ => None
  | RpcError code _ _ _ => Some code
  end.

(** A duration given as a string has at most 4300 characters, and so no
    more digits than [int] converts. *)
Definition short_duration (rpc : JSONRPCRequest) : Prop :=
  forall s, get_or (params rpc) "duration_minutes" (JInt 60) = JStr s ->
    Z.of_nat (String.length s) <= 4300.

(** The event has naive timestamps to the second and lies within the
    working hours of the day it starts on. *)
Definition within_working_hours (e : event) : Prop :=
  exists s t, naive_timestamp (start e) s /\ naive_timestamp (end_ e) t /\
    to_seconds (work_start s) <= to_seconds s /\
    to_seconds s <= to_seconds t /\
    to_seconds t <= to_seconds (work_end s).

(** No two events of the list overlap. *)
Definition disjoint (store : list event) : Prop :=
  forall (i j : nat) e1 e2 s1 t1 s2 t2,
    i <> j -> store !! i = Some e1 -> store !! j = Some e2 ->
    parse_iso (start e1) = Ok s1 -> parse_iso (end_ e1) = Ok t1 ->
    parse_iso (start e2) = Ok s2 -> parse_iso (end_ e2) = Ok t2 ->
    ~ overlaps (to_seconds s1) (to_seconds t1) (to_seconds s2) (to_seconds t2).

Definition well_booked (store : list event) : Prop :=
  Forall canonical_start store /\
  Forall within_working_hours store /\
  disjoint store.

(** A run of booking requests, each with the identifier drawn for it: the
    store it leaves when every confirmation is produced. *)
Definition book_all (confirm : event -> string) (store : list event)
    (reqs : list (string * BookRequest)) : list event :=
  foldl (fun st r => fst (book_and_confirm confirm r.1 st r.2)) store reqs.

(** The shapes of a body on which [generate] finds its way: an object
    whose [choices], if any, is a list, whose first element, if any, is an
    object, whose [message], if any, is an object with a string for
    [content] (or none), and whose [text], if looked at, is a string. *)
Definition expected_text (choice : list (string * json)) : bool :=
  match dict_get choice "text" with
  | Some (JStr _) | None => true
  | Some _ => false
  end.

Definition expected_choice (choice : json) : bool :=
  match choice with
  | JObj l =>
      match dict_get l "message" with
      | Some (JObj m) =>
          match dict_get m "content" with
          | Some (JStr _) => true
          | Some _ => false
          | None => expected_text l
          end
      | Some _ => false
      | None => expected_text l
      end
  | _ => false
  end.

Definition expected_body (data : json) : bool :=
  match data with
  | JObj l =>
      match dict_get l "choices" with
      | None | Some (JList []) => true
      | Some (JList (choice :: _)) => expected_choice choice
      | Some _ => false
      end
  | _ => false
  end.

(** The event as [create_event] labels it for a client. *)
Definition created_by_client (e : event) : event :=
  mkevent (id_ e) (title e) (start e) (end_ e) (attendees e) (JStr "client").

(** * Properties *)

(** ** The datetime library *)

Example fromisoformat_day :
  fromisoformat "2025-10-22" = Ok (mkdatetime 739546 0 0 0).
Proof. reflexivity. Qed.

Example iso_round :
  iso (mkdatetime 739546 9 0 0) = "2025-10-22T09:00:00".
Proof. reflexivity. Qed.

Lemma is_leap_true year :
  is_leap year = true ->
  year mod 4 = 0 /\ (year mod 100 <> 0 \/ year mod 400 = 0).
Proof.
  unfold is_leap. rewrite andb_true_iff, orb_true_iff, negb_true_iff.
  rewrite !Z.eqb_eq, Z.eqb_neq. tauto.
Qed.

Lemma ymd2ord_range year month d :
  1 <= year <= 9999 -> 1 <= month <= 12 ->
  1 <= d <= days_in_month year month ->
  1 <= ymd2ord year month d <= MAXORDINAL.
Proof.
  intros Hy Hm Hd.
  unfold ymd2ord, days_before_year, days_before_month, MAXORDINAL.
  unfold days_in_month in Hd.
  assert (Hcases : month = 1 \/ month = 2 \/ month = 3 \/ month = 4 \/
                   month = 5 \/ month = 6 \/ month = 7 \/ month = 8 \/
                   month = 9 \/ month = 10 \/ month = 11 \/ month = 12)
    by lia.
  destruct (is_leap year) eqn:Hleap.
  - apply is_leap_true in Hleap. destruct Hleap as [H4 _].
    repeat (destruct Hcases as [-> | Hcases]); try subst month;
      cbn in Hd |- *; Z.div_mod_to_equations; lia.
  - repeat (destruct Hcases as [-> | Hcases]); try subst month;
      cbn in Hd |- *; Z.div_mod_to_equations; lia.
Qed.

Lemma new_datetime_valid year month d hh mm ss a :
  new_datetime year month d hh mm ss = Ok a -> valid_datetime a.
Proof.
  unfold new_datetime. destruct (_ && _) eqn:Hc; [|discriminate].
  intros [= <-]. repeat (apply andb_true_iff in Hc as [Hc ?]).
  split; [apply ymd2ord_range|repeat split]; cbn; lia.
Qed.

Lemma fromisoformat_valid s a :
  fromisoformat s = Ok a -> valid_datetime a.
Proof.
  unfold fromisoformat. intros H.
  repeat case_match; try discriminate; eauto using new_datetime_valid.
Qed.

Lemma parse_iso_valid v a : parse_iso v = Ok a -> valid_datetime a.
Proof. destruct v; try discriminate. apply fromisoformat_valid. Qed.

Lemma total_seconds_between_eq a b :
  total_seconds_between a b = to_seconds a - to_seconds b.
Proof. unfold total_seconds_between, to_seconds. lia. Qed.

Lemma dt_ltb_lt a b :
  valid_time a -> valid_time b ->
  dt_ltb a b = true <-> to_seconds a < to_seconds b.
Proof.
  intros (? & ? & ?) (? & ? & ?). unfold dt_ltb, to_seconds.
  rewrite !orb_true_iff, !andb_true_iff, !Z.ltb_lt, !Z.eqb_eq. lia.
Qed.

Lemma dt_ltb_ge a b :
  valid_time a -> valid_time b ->
  dt_ltb a b = false <-> to_seconds b <= to_seconds a.
Proof.
  intros Ha Hb. pose proof (dt_ltb_lt a b Ha Hb) as H.
  destruct (dt_ltb a b).
  - split; [discriminate|]. intros Hle.
    assert (to_seconds a < to_seconds b) by (apply H; reflexivity). lia.
  - split; [|reflexivity]. intros _.
    destruct (Z.lt_ge_cases (to_seconds a) (to_seconds b)) as [Hlt|Hge];
      [apply H in Hlt; discriminate | lia].
Qed.

Lemma dt_leb_le a b :
  valid_time a -> valid_time b ->
  dt_leb a b = true <-> to_seconds a <= to_seconds b.
Proof.
  intros Ha Hb. unfold dt_leb. rewrite negb_true_iff.
  apply dt_ltb_ge; assumption.
Qed.

Lemma dt_ltb_seconds a b :
  valid_time a -> valid_time b ->
  dt_ltb a b = (to_seconds a <? to_seconds b).
Proof.
  intros Ha Hb. destruct (dt_ltb a b) eqn:E; symmetry.
  - apply Z.ltb_lt. apply dt_ltb_lt; assumption.
  - apply Z.ltb_ge. apply dt_ltb_ge; assumption.
Qed.

Lemma dt_leb_seconds a b :
  valid_time a -> valid_time b ->
  dt_leb a b = (to_seconds a <=? to_seconds b).
Proof.
  intros Ha Hb. unfold dt_leb. rewrite dt_ltb_seconds by assumption.
  rewrite Z.leb_antisym. reflexivity.
Qed.

Lemma dt_max_seconds a b :
  valid_time a -> valid_time b ->
  to_seconds (dt_max a b) = Z.max (to_seconds a) (to_seconds b).
Proof.
  intros Ha Hb. unfold dt_max. destruct (dt_ltb a b) eqn:E.
  - apply dt_ltb_lt in E; trivial. lia.
  - apply dt_ltb_ge in E; trivial. lia.
Qed.

Lemma dt_max_valid a b :
  valid_datetime a -> valid_datetime b -> valid_datetime (dt_max a b).
Proof. unfold dt_max. destruct (dt_ltb a b); trivial. Qed.

Lemma to_seconds_range a :
  valid_datetime a ->
  86400 <= to_seconds a < 86400 * (MAXORDINAL + 1).
Proof.
  unfold valid_datetime, valid_time, to_seconds, MAXORDINAL. lia.
Qed.

Lemma dt_add_ok a delta r :
  dt_add a delta = Ok r ->
  to_seconds r = to_seconds a + delta /\ valid_datetime r.
Proof.
  unfold dt_add. destruct (_ && _) eqn:Hc; [|discriminate].
  intros [= <-]. apply andb_true_iff in Hc as [H1 H2].
  apply Z.ltb_lt in H1. apply Z.leb_le in H2.
  unfold valid_datetime, valid_time, to_seconds at 1. cbn.
  split; [|split; [lia|]]; Z.div_mod_to_equations; lia.
Qed.

Lemma dt_add_total a delta :
  86400 <= to_seconds a + delta < 86400 * (MAXORDINAL + 1) ->
  exists r, dt_add a delta = Ok r.
Proof.
  intros H. unfold dt_add.
  assert (0 < (to_seconds a + delta) / 86400 <= MAXORDINAL) as [H1 H2]
    by (unfold MAXORDINAL in *; Z.div_mod_to_equations; lia).
  apply Z.ltb_lt in H1. apply Z.leb_le in H2. rewrite H1, H2. cbn. eauto.
Qed.

Lemma timedelta_minutes_ok m :
  -999999999 * 1440 <= m <= 999999999 * 1440 ->
  timedelta_minutes m = Ok (m * 60).
Proof.
  intros H. unfold timedelta_minutes, timedelta_seconds.
  assert (-999999999 <= m * 60 / 86400 <= 999999999) as [H1 H2]
    by (Z.div_mod_to_equations; lia).
  apply Z.leb_le in H1. apply Z.leb_le in H2. rewrite H1, H2. reflexivity.
Qed.

Lemma dt_add_work_start d0 m :
  valid_datetime d0 -> 0 <= m <= 480 ->
  dt_add (work_start d0) (m * 60)
  = Ok (mkdatetime (date d0) (9 + m / 60) (m mod 60) 0).
Proof.
  intros [[Hlo Hhi] _] Hm. unfold dt_add, work_start, to_seconds. cbn.
  assert ((date d0 * 86400 + 9 * 3600 + 0 * 60 + 0 + m * 60) / 86400 = date d0)
    as -> by (Z.div_mod_to_equations; lia).
  assert ((date d0 * 86400 + 9 * 3600 + 0 * 60 + 0 + m * 60) mod 86400
          = 32400 + m * 60)
    as -> by (Z.div_mod_to_equations; lia).
  apply Z.leb_le in Hhi as Hhi'.
  replace (0 <? date d0) with true by (symmetry; apply Z.ltb_lt; lia).
  rewrite Hhi'. cbn. do 2 f_equal; Z.div_mod_to_equations; lia.
Qed.

Lemma dt_add_one_day n :
  0 <= n < MAXORDINAL ->
  dt_add (mkdatetime n 0 0 0) 86400 = Ok (mkdatetime (n + 1) 0 0 0).
Proof.
  intros H. unfold dt_add, to_seconds. cbn [date hour minute second].
  replace (n * 86400 + 0 * 3600 + 0 * 60 + 0 + 86400) with ((n + 1) * 86400)
    by lia.
  rewrite Z.div_mul, Z.mod_mul by lia.
  replace (0 <? n + 1) with true by (symmetry; apply Z.ltb_lt; lia).
  replace (n + 1 <=? MAXORDINAL) with true by (symmetry; apply Z.leb_le; lia).
  reflexivity.
Qed.

Lemma work_start_valid d0 :
  valid_datetime d0 -> valid_datetime (work_start d0).
Proof. unfold valid_datetime, valid_time. cbn. lia. Qed.

(** ** The ordinal identifies the date

    [ymd2ord] is injective on the dates the constructor accepts, so keeping
    the ordinal in [date] loses nothing of year, month and day. *)

Lemma days_before_year_next y :
  days_before_year (y + 1)
  = days_before_year y + 365 + (if is_leap y then 1 else 0).
Proof.
  unfold days_before_year, is_leap.
  destruct (y mod 4 =? 0) eqn:E4; destruct (y mod 100 =? 0) eqn:E100;
    destruct (y mod 400 =? 0) eqn:E400; cbn;
    rewrite ?Z.eqb_eq, ?Z.eqb_neq in *; Z.div_mod_to_equations; lia.
Qed.

Lemma days_before_year_mono y y' :
  y <= y' -> days_before_year y <= days_before_year y'.
Proof.
  unfold days_before_year. intros H. Z.div_mod_to_equations. lia.
Qed.

Lemma month_cases m : 1 <= m <= 12 ->
  m = 1 \/ m = 2 \/ m = 3 \/ m = 4 \/ m = 5 \/ m = 6 \/
  m = 7 \/ m = 8 \/ m = 9 \/ m = 10 \/ m = 11 \/ m = 12.
Proof. lia. Qed.

Lemma ymd2ord_bounds y m d :
  1 <= m <= 12 -> 1 <= d <= days_in_month y m ->
  days_before_year y < ymd2ord y m d <= days_before_year (y + 1).
Proof.
  intros Hm Hd. rewrite days_before_year_next.
  unfold ymd2ord, days_before_month. unfold days_in_month in Hd.
  apply month_cases in Hm.
  destruct (is_leap y);
    repeat (destruct Hm as [-> | Hm]); try subst m; cbn in Hd |- *; lia.
Qed.

Lemma ymd2ord_inj y m d y' m' d' :
  1 <= m <= 12 -> 1 <= d <= days_in_month y m ->
  1 <= m' <= 12 -> 1 <= d' <= days_in_month y' m' ->
  ymd2ord y m d = ymd2ord y' m' d' ->
  y = y' /\ m = m' /\ d = d'.
Proof.
  intros Hm Hd Hm' Hd' H.
  pose proof (ymd2ord_bounds y m d Hm Hd) as B.
  pose proof (ymd2ord_bounds y' m' d' Hm' Hd') as B'.
  assert (y = y') as <-.
  { destruct (Z.lt_trichotomy y y') as [Hlt | [Heq | Hgt]]; [|assumption|].
    - pose proof (days_before_year_mono (y + 1) y'). lia.
    - pose proof (days_before_year_mono (y' + 1) y). lia. }
  split; [reflexivity|].
  unfold ymd2ord, days_before_month in H. unfold days_in_month in Hd, Hd'.
  apply month_cases in Hm. apply month_cases in Hm'.
  destruct (is_leap y);
    repeat (destruct Hm as [-> | Hm]); try subst m;
    repeat (destruct Hm' as [-> | Hm']); try subst m';
    cbn in Hd, Hd', H |- *; lia.
Qed.

(** ** Canonical timestamps sort as their instants do *)

Lemma digit_code c v :
  digit c = Some v -> Z.of_N (N_of_ascii c) = 48 + v /\ 0 <= v <= 9.
Proof.
  unfold digit. destruct (_ && _) eqn:E; [|discriminate].
  intros [= <-]. apply andb_true_iff in E as [H1 H2].
  apply Z.leb_le in H1. apply Z.leb_le in H2. lia.
Qed.

Lemma num2_inv a b v :
  num2 a b = Some v ->
  exists x y, digit a = Some x /\ digit b = Some y /\ v = 10 * x + y.
Proof.
  unfold num2. destruct (digit a) as [x|]; [|discriminate].
  destruct (digit b) as [y|]; [|discriminate]. cbn. intros [= <-]. eauto.
Qed.

Lemma num4_inv a b c d v :
  num4 a b c d = Some v ->
  exists x y, num2 a b = Some x /\ num2 c d = Some y /\ v = 100 * x + y.
Proof.
  unfold num4. destruct (num2 a b) as [x|]; [|discriminate].
  destruct (num2 c d) as [y|]; [|discriminate]. cbn. intros [= <-]. eauto.
Qed.

Lemma num2_range a b v : num2 a b = Some v -> 0 <= v <= 99.
Proof.
  intros H. apply num2_inv in H as (x & y & Hx & Hy & ->).
  apply digit_code in Hx as [_ ?]. apply digit_code in Hy as [_ ?]. lia.
Qed.

Lemma ascii_compare_digits a b x y :
  digit a = Some x -> digit b = Some y -> Ascii.compare a b = (x ?= y).
Proof.
  intros Ha Hb. apply digit_code in Ha as [Ha _]. apply digit_code in Hb as [Hb _].
  unfold Ascii.compare. rewrite N2Z.inj_compare, Ha, Hb || rewrite <- N2Z.inj_compare, Ha, Hb.
  apply Z.add_compare_mono_l.
Qed.

Lemma compare_cons_same c s s' :
  String.compare (String c s) (String c s') = String.compare s s'.
Proof.
  cbn. unfold Ascii.compare. rewrite N.compare_refl. reflexivity.
Qed.

Lemma compare_num2 a b a' b' v v' s s' :
  num2 a b = Some v -> num2 a' b' = Some v' ->
  String.compare (String a (String b s)) (String a' (String b' s'))
  = match v ?= v' with Eq => String.compare s s' | c => c end.
Proof.
  intros H H'.
  apply num2_inv in H as (x & y & Hx & Hy & ->).
  apply num2_inv in H' as (x' & y' & Hx' & Hy' & ->).
  cbn [String.compare].
  rewrite (ascii_compare_digits _ _ _ _ Hx Hx'),
          (ascii_compare_digits _ _ _ _ Hy Hy').
  apply digit_code in Hx as [_ ?]. apply digit_code in Hy as [_ ?].
  apply digit_code in Hx' as [_ ?]. apply digit_code in Hy' as [_ ?].
  destruct (Z.compare_spec x x'); destruct (Z.compare_spec y y');
    destruct (Z.compare_spec (10 * x + y) (10 * x' + y')); try reflexivity;
    lia.
Qed.

Lemma fromisoformat_canonical_inv s t :
  fromisoformat s = Ok t -> canonical s ->
  exists y1 y2 y3 y4 m1 m2 d1 d2 h1 h2 i1 i2 s1 s2 Y M D hh mm ss,
    s = timestamp_string y1 y2 y3 y4 m1 m2 d1 d2 h1 h2 i1 i2 s1 s2 /\
    num4 y1 y2 y3 y4 = Some Y /\ num2 m1 m2 = Some M /\
    num2 d1 d2 = Some D /\ num2 h1 h2 = Some hh /\
    num2 i1 i2 = Some mm /\ num2 s1 s2 = Some ss /\
    new_datetime Y M D hh mm ss = Ok t.
Proof.
  intros H [Hlen Hsep].
  destruct s as [|c0 s]; [discriminate Hlen|].
  destruct s as [|c1 s]; [discriminate Hlen|].
  destruct s as [|c2 s]; [discriminate Hlen|].
  destruct s as [|c3 s]; [discriminate Hlen|].
  destruct s as [|c4 s]; [discriminate Hlen|].
  destruct s as [|c5 s]; [discriminate Hlen|].
  destruct s as [|c6 s]; [discriminate Hlen|].
  destruct s as [|c7 s]; [discriminate Hlen|].
  destruct s as [|c8 s]; [discriminate Hlen|].
  destruct s as [|c9 s]; [discriminate Hlen|].
  destruct s as [|c10 s]; [discriminate Hlen|].
  destruct s as [|c11 s]; [discriminate Hlen|].
  destruct s as [|c12 s]; [discriminate Hlen|].
  destruct s as [|c13 s]; [discriminate Hlen|].
  destruct s as [|c14 s]; [discriminate Hlen|].
  destruct s as [|c15 s]; [discriminate Hlen|].
  destruct s as [|c16 s]; [discriminate Hlen|].
  destruct s as [|c17 s]; [discriminate Hlen|].
  destruct s as [|c18 s]; [discriminate Hlen|].
  destruct s; [|discriminate Hlen]. clear Hlen.
  cbn in Hsep. injection Hsep as ->.
  unfold fromisoformat in H. cbn [list_ascii_of_string] in H.
  destruct (is_char c4 "-" && is_char c7 "-") eqn:Hd; [|discriminate].
  apply andb_true_iff in Hd as [Hd1 Hd2].
  apply Ascii.eqb_eq in Hd1 as ->. apply Ascii.eqb_eq in Hd2 as ->.
  destruct (num4 c0 c1 c2 c3) as [Y|] eqn:HY; [|discriminate].
  destruct (num2 c5 c6) as [M|] eqn:HM; [|discriminate].
  destruct (num2 c8 c9) as [D|] eqn:HD; [|discriminate].
  cbn [parse_isoformat_time] in H.
  destruct (is_char c13 ":" && is_char c16 ":") eqn:Hc; [|discriminate].
  apply andb_true_iff in Hc as [Hc1 Hc2].
  apply Ascii.eqb_eq in Hc1 as ->. apply Ascii.eqb_eq in Hc2 as ->.
  destruct (num2 c11 c12) as [hh|] eqn:Hh; [|discriminate].
  destruct (num2 c14 c15) as [mm|] eqn:Hmi; [|discriminate].
  destruct (num2 c17 c18) as [ss|] eqn:Hss; [|discriminate].
  cbn in H.
  exists c0, c1, c2, c3, c5, c6, c8, c9, c11, c12, c14, c15, c17, c18.
  exists Y, M, D, hh, mm, ss. repeat split; assumption.
Qed.

Lemma new_datetime_inv Y M D hh mm ss t :
  new_datetime Y M D hh mm ss = Ok t ->
  t = mkdatetime (ymd2ord Y M D) hh mm ss /\
  1 <= M <= 12 /\ 1 <= D <= days_in_month Y M /\
  0 <= hh <= 23 /\ 0 <= mm <= 59 /\ 0 <= ss <= 59.
Proof.
  unfold new_datetime. destruct (_ && _) eqn:Hc; [|discriminate].
  intros [= <-]. repeat (apply andb_true_iff in Hc as [Hc ?]).
  repeat split; lia.
Qed.

Lemma canonical_ltb s s' t t' :
  fromisoformat s = Ok t -> fromisoformat s' = Ok t' ->
  canonical s -> canonical s' -> date t = date t' ->
  String.ltb s s' = (to_seconds t <? to_seconds t').
Proof.
  intros Hs Hs' Hc Hc' Hdate.
  destruct (fromisoformat_canonical_inv _ _ Hs Hc)
    as (y1 & y2 & y3 & y4 & m1 & m2 & d1 & d2 & h1 & h2 & i1 & i2 & s1 & s2
        & Y & M & D & hh & mm & ss & -> & HY & HM & HD & Hh & Hi & Hss & Ht).
  destruct (fromisoformat_canonical_inv _ _ Hs' Hc')
    as (y1' & y2' & y3' & y4' & m1' & m2' & d1' & d2' & h1' & h2' & i1' & i2'
        & s1' & s2' & Y' & M' & D' & hh' & mm' & ss'
        & -> & HY' & HM' & HD' & Hh' & Hi' & Hss' & Ht').
  apply new_datetime_inv in Ht as (-> & ? & ? & ? & ? & ?).
  apply new_datetime_inv in Ht' as (-> & ? & ? & ? & ? & ?).
  cbn [date] in Hdate.
  apply ymd2ord_inj in Hdate as (<- & <- & <-); try assumption.
  apply num4_inv in HY as (ya & yb & Hya & Hyb & HYeq).
  apply num4_inv in HY' as (ya' & yb' & Hya' & Hyb' & HYeq').
  pose proof (num2_range _ _ _ Hya). pose proof (num2_range _ _ _ Hyb).
  pose proof (num2_range _ _ _ Hya'). pose proof (num2_range _ _ _ Hyb').
  assert (ya' = ya /\ yb' = yb) as [-> ->] by lia.
  unfold String.ltb, timestamp_string.
  rewrite (compare_num2 _ _ _ _ _ _ _ _ Hya Hya'), Z.compare_refl.
  rewrite (compare_num2 _ _ _ _ _ _ _ _ Hyb Hyb'), Z.compare_refl.
  rewrite compare_cons_same.
  rewrite (compare_num2 _ _ _ _ _ _ _ _ HM HM'), Z.compare_refl.
  rewrite compare_cons_same.
  rewrite (compare_num2 _ _ _ _ _ _ _ _ HD HD'), Z.compare_refl.
  rewrite compare_cons_same.
  rewrite (compare_num2 _ _ _ _ _ _ _ _ Hh Hh').
  rewrite compare_cons_same.
  rewrite (compare_num2 _ _ _ _ _ _ _ _ Hi Hi').
  rewrite compare_cons_same.
  rewrite (compare_num2 _ _ _ _ _ _ _ _ Hss Hss').
  cbn [String.compare]. unfold to_seconds. cbn [date hour minute second].
  symmetry.
  destruct (Z.compare_spec hh hh'); destruct (Z.compare_spec mm mm');
    destruct (Z.compare_spec ss ss');
    first [apply Z.ltb_lt; lia | apply Z.ltb_ge; lia].
Qed.

Lemma iso_canonical t : canonical (iso t).
Proof.
  unfold iso. destruct (ord2ymd (date t)) as [[y m] d]. split; reflexivity.
Qed.

(** ** The error monad and the list helpers *)

Lemma bind_Ok {A B : Type} (m : result A) (f : A -> result B) (b : B) :
  m ≫= f = Ok b -> exists a, m = Ok a /\ f a = Ok b.
Proof. destruct m as [a|e]; cbn; [eauto|discriminate]. Qed.

Ltac bind_inv H x Hx := apply bind_Ok in H as (x & Hx & H); cbn beta in H.

Lemma filterM_elem {A : Type} (p : A -> result bool) (l r : list A) (x : A) :
  filterM p l = Ok r -> x ∈ r -> x ∈ l /\ p x = Ok true.
Proof.
  revert r. induction l as [|y l IH]; intros r H Hx; cbn in H.
  - injection H as <-. inversion Hx.
  - bind_inv H b Hb. bind_inv H r' Hr'. injection H as <-.
    destruct b.
    + apply elem_of_cons in Hx as [->|Hx].
      * split; [left|assumption].
      * destruct (IH _ Hr' Hx). split; [right|]; assumption.
    + destruct (IH _ Hr' Hx). split; [right|]; assumption.
Qed.

Lemma filterM_complete {A : Type} (p : A -> result bool) (l r : list A) x :
  filterM p l = Ok r -> x ∈ l -> p x = Ok true -> x ∈ r.
Proof.
  revert r. induction l as [|y l IH]; intros r H Hx Hp; cbn in H.
  - inversion Hx.
  - bind_inv H b Hb. bind_inv H r' Hr'. injection H as <-.
    apply elem_of_cons in Hx as [->|Hx].
    + rewrite Hp in Hb. injection Hb as <-. left.
    + destruct b; [right|]; eauto.
Qed.

Lemma filterM_total {A : Type} (p : A -> result bool) (q : A -> bool)
    (l : list A) :
  Forall (fun x => p x = Ok (q x)) l ->
  filterM p l = Ok (List.filter q l).
Proof.
  induction 1 as [|x l Hx _ IH]; cbn; [reflexivity|].
  rewrite Hx. cbn. rewrite IH. cbn. destruct (q x); reflexivity.
Qed.

Lemma insert_by_start_perm x l : insert_by_start x l ≡ₚ x :: l.
Proof.
  induction l as [|y l IH]; cbn; [reflexivity|].
  destruct (String.ltb _ _); [|reflexivity].
  rewrite IH. apply Permutation_swap.
Qed.

Lemma sorted_by_start_perm l : sorted_by_start l ≡ₚ l.
Proof.
  induction l as [|x l IH]; cbn; [reflexivity|].
  rewrite insert_by_start_perm. f_equiv. exact IH.
Qed.

Lemma sorted_by_start_elem e l : e ∈ sorted_by_start l <-> e ∈ l.
Proof. rewrite sorted_by_start_perm. reflexivity. Qed.

Lemma insert_by_start_sorted x l :
  chronological (x :: l) ->
  StronglySorted (fun e1 e2 => start_seconds e1 <= start_seconds e2) l ->
  StronglySorted (fun e1 e2 => start_seconds e1 <= start_seconds e2)
    (insert_by_start x l).
Proof.
  intros Hch Hs. induction l as [|y l IH]; cbn.
  - repeat constructor.
  - rewrite (Hch y x) by (right; left) || left.
    apply StronglySorted_cons in Hs as [Hy Hs].
    destruct (start_seconds y <? start_seconds x) eqn:E.
    + apply Z.ltb_lt in E. apply StronglySorted_cons. split.
      * rewrite insert_by_start_perm. constructor; [lia|assumption].
      * apply IH; [|assumption].
        intros e1 e2 H1 H2.
        apply Hch; rewrite elem_of_cons; rewrite elem_of_cons in *; tauto.
    + apply Z.ltb_ge in E. apply StronglySorted_cons. split.
      * constructor; [assumption|].
        eapply Forall_impl; [exact Hy|]. cbn. intros; lia.
      * apply StronglySorted_cons. split; assumption.
Qed.

Lemma sorted_by_start_sorted l :
  chronological l ->
  StronglySorted (fun e1 e2 => start_seconds e1 <= start_seconds e2)
    (sorted_by_start l).
Proof.
  induction l as [|x l IH]; intros Hch; cbn; [constructor|].
  apply insert_by_start_sorted.
  - intros e1 e2 H1 H2. apply Hch.
    + apply elem_of_cons in H1 as [->|H1]; [left|right].
      apply sorted_by_start_elem. assumption.
    + apply elem_of_cons in H2 as [->|H2]; [left|right].
      apply sorted_by_start_elem. assumption.
  - apply IH. intros e1 e2 H1 H2. apply Hch; right; assumption.
Qed.

(** ** The day filter *)

Lemma day_events_elem store work_start todays e :
  day_events store work_start = Ok todays -> e ∈ todays ->
  e ∈ store /\
  exists s, parse_iso (start e) = Ok s /\ date s = date work_start.
Proof.
  intros H He. destruct (filterM_elem _ _ _ _ H He) as [Hin Hp].
  split; [assumption|]. bind_inv Hp s Hs. injection Hp as Hp.
  exists s. split; [assumption|]. apply Z.eqb_eq. assumption.
Qed.

(** Only events whose start is a string pass the day filter, so the sort
    compares strings. *)
Lemma day_events_starts_are_strings store work_start todays e :
  day_events store work_start = Ok todays -> e ∈ todays ->
  start e = JStr (sort_key e).
Proof.
  intros H He. destruct (day_events_elem _ _ _ _ H He) as [_ (s & Hs & _)].
  unfold sort_key. destruct (start e); try discriminate. reflexivity.
Qed.

Lemma day_events_total store ws :
  Forall (fun e => exists s, parse_iso (start e) = Ok s) store ->
  day_events store ws = Ok (List.filter (same_date ws) store).
Proof.
  intros H. apply filterM_total. eapply Forall_impl; [exact H|].
  intros e [s Hs]. unfold same_date. cbn beta. rewrite Hs. reflexivity.
Qed.

(** The day filter yields nothing exactly when every stored start parses
    and none has the date of the window. *)
Lemma day_events_empty_iff store ws :
  day_events store ws = Ok [] <->
  Forall (fun e => exists s, parse_iso (start e) = Ok s /\ date s <> date ws)
    store.
Proof.
  unfold day_events. induction store as [|e store IH]; cbn.
  - split; [constructor|reflexivity].
  - split.
    + intros H. bind_inv H b Hb. bind_inv H r Hr. bind_inv Hb s Hs.
      injection Hb as <-. destruct (date s =? date ws) eqn:E;
        [discriminate|].
      injection H as ->. apply Z.eqb_neq in E.
      constructor; [eauto|]. apply IH. assumption.
    + intros H. apply Forall_cons in H as [(s & Hs & Hne) H].
      rewrite Hs. cbn. apply Z.eqb_neq in Hne. rewrite Hne.
      apply IH in H. rewrite H. reflexivity.
Qed.

Lemma day_events_chronological store ws todays :
  day_events store ws = Ok todays ->
  Forall canonical_start store ->
  chronological todays.
Proof.
  intros Hday Hcan e1 e2 H1 H2.
  destruct (day_events_elem _ _ _ _ Hday H1) as [Hin1 (t1 & Ht1 & Hd1)].
  destruct (day_events_elem _ _ _ _ Hday H2) as [Hin2 (t2 & Ht2 & Hd2)].
  rewrite Forall_forall in Hcan.
  destruct (Hcan _ Hin1) as (s1 & Hs1 & Hc1).
  destruct (Hcan _ Hin2) as (s2 & Hs2 & Hc2).
  unfold sort_key, start_seconds. rewrite Ht1, Ht2, Hs1, Hs2.
  rewrite Hs1 in Ht1. rewrite Hs2 in Ht2. cbn in Ht1, Ht2.
  apply canonical_ltb; try assumption. congruence.
Qed.

(** ** Requests: method dispatch and parameters *)

Lemma fromisoformat_nonempty s d0 : fromisoformat s = Ok d0 -> s <> "".
Proof. intros H ->. discriminate. Qed.

Lemma truthy_JStr s : s <> "" -> truthy (JStr s) = true.
Proof.
  intros H. cbn. apply negb_true_iff. apply String.eqb_neq. assumption.
Qed.

Lemma get_lookup (d : gmap string json) key v :
  d !! key = Some v -> get d key = v.
Proof. unfold get. intros ->. reflexivity. Qed.

Lemma get_or_lookup (d : gmap string json) key dflt v :
  d !! key = Some v -> get_or d key dflt = v.
Proof. unfold get_or. intros ->. reflexivity. Qed.

Lemma jsonrpc_find_free_slot uuid8 store rpc :
  method rpc = "find_free_slot" ->
  jsonrpc uuid8 store rpc
  = (store, try_except (req_id rpc) (find_free_slot store rpc)).
Proof. unfold jsonrpc. intros ->. reflexivity. Qed.

Lemma jsonrpc_get_events_for_day uuid8 store rpc :
  method rpc = "get_events_for_day" ->
  jsonrpc uuid8 store rpc
  = (store, try_except (req_id rpc) (get_events_for_day store rpc)).
Proof. unfold jsonrpc. intros ->. reflexivity. Qed.

Lemma jsonrpc_create_event uuid8 store rpc :
  method rpc = "create_event" ->
  jsonrpc uuid8 store rpc = create_event uuid8 store rpc.
Proof. unfold jsonrpc. intros ->. reflexivity. Qed.

Lemma parse_iso_truthy v d0 : parse_iso v = Ok d0 -> truthy v = true.
Proof.
  destruct v; try discriminate. cbn [parse_iso]. intros H.
  apply truthy_JStr. eauto using fromisoformat_nonempty.
Qed.

(** With a day that parses and a duration that converts, [find_free_slot]
    is [find_slot] printed. *)
Lemma find_free_slot_eq store rpc d0 duration :
  parse_iso (requested_day rpc) = Ok d0 ->
  requested_duration rpc = Ok duration ->
  find_free_slot store rpc
  = found ← find_slot store (requested_day rpc) duration;
    Ok (RpcResult (PSlot (slot_dict <$> found)) (req_id rpc)).
Proof.
  unfold requested_day, requested_duration, find_free_slot.
  intros Hday ->. change (Ok duration ≫= ?f) with (f duration). cbn beta.
  rewrite (parse_iso_truthy _ _ Hday). reflexivity.
Qed.

Lemma get_events_for_day_payload store rpc e i :
  try_except (req_id rpc) (get_events_for_day store rpc)
  <> RpcResult (PEvent e) i.
Proof.
  unfold get_events_for_day.
  destruct (negb _); [discriminate|].
  destruct (parse_iso _); [|discriminate]. cbn.
  destruct (timedelta_days 1); [|discriminate]. cbn.
  destruct (dt_add _ _); [|discriminate]. cbn.
  destruct (filterM _ _); discriminate.
Qed.

Lemma find_free_slot_payload store rpc e i :
  try_except (req_id rpc) (find_free_slot store rpc)
  <> RpcResult (PEvent e) i.
Proof.
  unfold find_free_slot.
  destruct (py_int _); [|discriminate]. cbn.
  destruct (negb _); [discriminate|].
  destruct (find_slot _ _ _); discriminate.
Qed.

(** ** The slot search: the loop *)

Lemma slot_at_ok cursor duration a b :
  slot_at cursor duration = Ok (a, b) ->
  a = cursor /\ to_seconds b = to_seconds cursor + duration * 60 /\
  valid_datetime b.
Proof.
  unfold slot_at. intros H. bind_inv H delta Hd. bind_inv H stop Hs.
  injection H as <- <-.
  unfold timedelta_minutes, timedelta_seconds in Hd.
  destruct (_ && _); [|discriminate]. injection Hd as <-.
  apply dt_add_ok in Hs. tauto.
Qed.

Lemma slot_at_total cursor duration :
  valid_datetime cursor -> duration <= 0 ->
  86400 <= to_seconds cursor + duration * 60 ->
  exists stop, slot_at cursor duration = Ok (cursor, stop).
Proof.
  intros Hv Hd Hlo. pose proof (to_seconds_range _ Hv) as Hr.
  unfold slot_at. unfold MAXORDINAL in Hr.
  rewrite timedelta_minutes_ok by lia.
  change (Ok (duration * 60) ≫= ?f) with (f (duration * 60)). cbn beta.
  destruct (dt_add_total cursor (duration * 60)) as [stop Hstop];
    [unfold MAXORDINAL; lia|].
  rewrite Hstop. eauto.
Qed.

(** The loop invariant: no candidate that avoids the events seen so far
    starts before the cursor. *)
Lemma scan_earliest evs : forall cursor duration r cursor' c,
  0 < duration ->
  valid_datetime cursor ->
  scan evs cursor duration = Ok (r, cursor') ->
  (forall e s t, e ∈ evs ->
     parse_iso (start e) = Ok s -> parse_iso (end_ e) = Ok t ->
     ~ overlaps (to_seconds c) (to_seconds c + duration * 60)
         (to_seconds s) (to_seconds t)) ->
  to_seconds cursor <= to_seconds c ->
  match r with
  | Some (a, _) => to_seconds a <= to_seconds c
  | None => to_seconds cursor' <= to_seconds c
  end.
Proof.
  induction evs as [|e rest IH]; intros cursor duration r cursor' c
    Hd Hv H Hfree Hc; cbn in H.
  - injection H as <- <-. assumption.
  - bind_inv H s Hs.
    rewrite total_seconds_between_eq in H.
    destruct (duration * 60 <=? to_seconds s - to_seconds cursor) eqn:Hgap.
    + bind_inv H found Hf. injection H as <- <-. destruct found as [a b].
      apply slot_at_ok in Hf as (-> & _). assumption.
    + bind_inv H t Ht. apply Z.leb_gt in Hgap.
      pose proof (parse_iso_valid _ _ Ht) as Hvt.
      apply (IH (dt_max cursor t) duration r cursor' c Hd);
        [apply dt_max_valid; assumption | exact H | | ].
      * intros e' s' t' He'. apply Hfree. right. assumption.
      * rewrite dt_max_seconds by (apply Hv || apply Hvt).
        assert (~ overlaps (to_seconds c) (to_seconds c + duration * 60)
                  (to_seconds s) (to_seconds t)) as Hno
          by (apply (Hfree e); [left|assumption|assumption]).
        unfold overlaps in Hno. lia.
Qed.

Lemma scan_slot evs : forall cursor duration a b cursor',
  scan evs cursor duration = Ok (Some (a, b), cursor') ->
  to_seconds b = to_seconds a + duration * 60.
Proof.
  induction evs as [|e rest IH]; intros cursor duration a b cursor' H;
    cbn in H; [discriminate|].
  bind_inv H s Hs. destruct (_ <=? _).
  - bind_inv H found Hf. injection H as -> <-.
    apply slot_at_ok in Hf as (-> & ? & _). assumption.
  - bind_inv H t Ht. eauto.
Qed.

Lemma scan_cursor evs : forall cursor duration r cursor',
  valid_datetime cursor ->
  scan evs cursor duration = Ok (r, cursor') ->
  valid_datetime cursor' /\ to_seconds cursor <= to_seconds cursor'.
Proof.
  induction evs as [|e rest IH]; intros cursor duration r cursor' Hv H;
    cbn in H.
  - injection H as <- <-. split; [assumption|lia].
  - bind_inv H s Hs. destruct (_ <=? _).
    + bind_inv H found Hf. injection H as <- <-. split; [assumption|lia].
    + bind_inv H t Ht. pose proof (parse_iso_valid _ _ Ht) as Hvt.
      apply IH in H as [H1 H2]; [|apply dt_max_valid; assumption].
      split; [assumption|].
      rewrite dt_max_seconds in H2 by (apply Hv || apply Hvt). lia.
Qed.

Lemma scan_none evs : forall cursor duration cursor',
  valid_datetime cursor ->
  scan evs cursor duration = Ok (None, cursor') ->
  forall e t, e ∈ evs -> parse_iso (end_ e) = Ok t ->
    to_seconds t <= to_seconds cursor'.
Proof.
  induction evs as [|e0 rest IH]; intros cursor duration cursor' Hv H e t He Ht.
  - inversion He.
  - cbn in H. bind_inv H s0 Hs0. destruct (_ <=? _).
    + bind_inv H found Hf. discriminate.
    + bind_inv H t0 Ht0. pose proof (parse_iso_valid _ _ Ht0) as Hvt.
      apply elem_of_cons in He as [->|He].
      * rewrite Ht in Ht0. injection Ht0 as <-.
        apply scan_cursor in H as [_ H]; [|apply dt_max_valid; assumption].
        rewrite dt_max_seconds in H by (apply Hv || apply Hvt). lia.
      * apply (IH (dt_max cursor t0) duration cursor'
                 (dt_max_valid _ _ Hv Hvt) H e t He Ht).
Qed.

Lemma scan_some evs : forall cursor duration a b cursor',
  valid_datetime cursor ->
  StronglySorted (fun e1 e2 => start_seconds e1 <= start_seconds e2) evs ->
  scan evs cursor duration = Ok (Some (a, b), cursor') ->
  to_seconds cursor <= to_seconds a /\
  forall e s t, e ∈ evs ->
    parse_iso (start e) = Ok s -> parse_iso (end_ e) = Ok t ->
    ~ overlaps (to_seconds a) (to_seconds b) (to_seconds s) (to_seconds t).
Proof.
  induction evs as [|e0 rest IH]; intros cursor duration a b cursor' Hv Hso H;
    cbn in H; [discriminate|].
  apply StronglySorted_cons in Hso as [Hall Hso].
  bind_inv H s0 Hs0. rewrite total_seconds_between_eq in H.
  destruct (_ <=? _) eqn:Hgap.
  - apply Z.leb_le in Hgap. bind_inv H found Hf. injection H as -> <-.
    apply slot_at_ok in Hf as (-> & Hb & _). split; [lia|].
    intros e s t He Hs _ [_ Hlt].
    assert (start_seconds e0 <= start_seconds e) as Hle.
    { apply elem_of_cons in He as [->|He]; [lia|].
      rewrite Forall_forall in Hall. auto. }
    unfold start_seconds in Hle. rewrite Hs0, Hs in Hle. lia.
  - bind_inv H t0 Ht0. pose proof (parse_iso_valid _ _ Ht0) as Hvt.
    apply IH in H as [Hge Hno]; [|apply dt_max_valid; assumption|assumption].
    rewrite dt_max_seconds in Hge by (apply Hv || apply Hvt).
    split; [lia|]. intros e s t He Hs Ht.
    apply elem_of_cons in He as [->|He]; [|eauto].
    rewrite Ht in Ht0. injection Ht0 as <-. intros [Hlt _]. lia.
Qed.

(** A slot found inside the loop ends by the start of the event at which
    the loop stopped. *)
Lemma scan_some_before evs : forall cursor duration a b cursor',
  scan evs cursor duration = Ok (Some (a, b), cursor') ->
  exists e s, e ∈ evs /\ parse_iso (start e) = Ok s /\
    to_seconds b <= to_seconds s.
Proof.
  induction evs as [|e0 rest IH]; intros cursor duration a b cursor' H;
    cbn in H; [discriminate|].
  bind_inv H s0 Hs0. rewrite total_seconds_between_eq in H.
  destruct (_ <=? _) eqn:Hgap.
  - apply Z.leb_le in Hgap. bind_inv H found Hf. injection H as -> <-.
    apply slot_at_ok in Hf as (-> & Hb & _).
    exists e0, s0. split; [left|split; [assumption|lia]].
  - bind_inv H t0 Ht0. apply IH in H as (e & s & He & Hs & Hle).
    exists e, s. split; [right|split]; assumption.
Qed.

Lemma scan_total lo duration evs : forall cursor,
  Forall timestamps_parse evs ->
  valid_datetime cursor ->
  duration <= 0 -> 86400 <= lo + duration * 60 ->
  lo <= to_seconds cursor ->
  exists r cursor', scan evs cursor duration = Ok (r, cursor').
Proof.
  induction evs as [|e rest IH]; intros cursor Hall Hv Hd Hlo Hc; cbn.
  - eauto.
  - apply Forall_cons in Hall as [[[s Hs] [t Ht]] Hall].
    rewrite Hs. change (Ok s ≫= ?f) with (f s). cbn beta.
    destruct (_ <=? _).
    + destruct (slot_at_total cursor duration Hv Hd) as [stop Hstop];
        [lia|].
      rewrite Hstop. cbn. eauto.
    + rewrite Ht. change (Ok t ≫= ?f) with (f t). cbn beta.
      pose proof (parse_iso_valid _ _ Ht) as Hvt.
      apply IH; try assumption.
      * apply dt_max_valid; assumption.
      * rewrite dt_max_seconds by (apply Hv || apply Hvt). lia.
Qed.

(** ** The slot search: what holds of a returned slot

    The slot lasts the requested minutes and never starts before 09:00.
    For a positive duration no free slot starts before it, and a null
    answer means that there is none.  When the start strings of the day's
    events sort as their instants do, as canonical ones do, the slot meets
    no event of the day.  It ends by 17:00 unless an event of the day
    starts after 17:00. *)

(** What a successful [find_slot] went through. *)
Lemma find_slot_inv store day duration r :
  find_slot store day duration = Ok r ->
  exists d0 todays found cursor,
    parse_iso day = Ok d0 /\
    day_events store (work_start d0) = Ok todays /\
    scan (sorted_by_start todays) (work_start d0) duration
      = Ok (found, cursor) /\
    match found with
    | Some f => r = Some f
    | None =>
        if duration * 60 <=?
           total_seconds_between
             (work_end d0) cursor
        then exists f, slot_at cursor duration = Ok f /\ r = Some f
        else r = None
    end.
Proof.
  unfold find_slot. intros H. bind_inv H d0 Hd0. bind_inv H todays Ht.
  bind_inv H looped Hl. destruct looped as [found cursor].
  exists d0, todays, found, cursor. repeat split; try assumption.
  destruct found as [f|].
  - injection H as <-. reflexivity.
  - destruct (_ <=? _); [|injection H as <-; reflexivity].
    bind_inv H f Hf. injection H as <-. eauto.
Qed.

Lemma find_slot_duration store day duration a b :
  find_slot store day duration = Ok (Some (a, b)) ->
  to_seconds b = to_seconds a + duration * 60.
Proof.
  intros H.
  apply find_slot_inv in H as (d0 & todays & found & cursor & _ & _ & Hs & Hr).
  destruct found as [[a' b']|].
  - injection Hr as -> ->. eapply scan_slot. exact Hs.
  - destruct (_ <=? _); [|discriminate].
    destruct Hr as ([a' b'] & Hf & [= -> ->]).
    apply slot_at_ok in Hf as (-> & Hb & _). exact Hb.
Qed.

Lemma find_slot_starts_in_window store day d0 duration a b :
  parse_iso day = Ok d0 ->
  find_slot store day duration = Ok (Some (a, b)) ->
  to_seconds (work_start d0) <= to_seconds a.
Proof.
  intros Hday H.
  apply find_slot_inv in H as (d0' & todays & found & cursor & Hd0 & _ & Hs & Hr).
  rewrite Hday in Hd0. injection Hd0 as <-.
  pose proof (work_start_valid _ (parse_iso_valid _ _ Hday)) as Hws.
  destruct (scan_cursor _ _ _ _ _ Hws Hs) as [_ Hge].
  destruct found as [[a' b']|].
  - injection Hr as -> ->. clear Hge. revert Hs Hws.
    generalize (work_start d0). generalize (sorted_by_start todays).
    induction l as [|e rest IH]; intros c Hs Hv; cbn in Hs; [discriminate|].
    bind_inv Hs s Hp. destruct (_ <=? _).
    + bind_inv Hs f Hf. injection Hs as -> _.
      apply slot_at_ok in Hf as (-> & _). lia.
    + bind_inv Hs t Ht. pose proof (parse_iso_valid _ _ Ht) as Hvt.
      apply IH in Hs; [|apply dt_max_valid; assumption].
      rewrite dt_max_seconds in Hs by (apply Hv || apply Hvt). lia.
  - destruct (_ <=? _); [|discriminate].
    destruct Hr as ([a' b'] & Hf & [= -> ->]).
    apply slot_at_ok in Hf as (-> & _). exact Hge.
Qed.

Lemma find_slot_scan_bound store d0 duration todays found cursor c :
  0 < duration ->
  valid_datetime d0 ->
  day_events store (work_start d0) = Ok todays ->
  scan (sorted_by_start todays) (work_start d0) duration = Ok (found, cursor) ->
  free_slot store (work_start d0) (work_end d0) duration c ->
  match found with
  | Some (a, _) => to_seconds a <= to_seconds c
  | None => to_seconds cursor <= to_seconds c
  end.
Proof.
  intros Hd Hv Ht Hs (Hc1 & Hc2 & Hc3).
  apply (scan_earliest _ _ _ _ _ c Hd (work_start_valid _ Hv) Hs);
    [|assumption].
  intros e s t He Hes Het.
  apply (proj1 (sorted_by_start_elem _ _)) in He.
  destruct (day_events_elem _ _ _ _ Ht He) as [Hin (s' & Hs' & Hdate)].
  apply (Hc3 e); [assumption|].
  rewrite Hes in Hs'. injection Hs' as <-.
  repeat split; assumption.
Qed.

Lemma find_slot_lower_bound store day d0 duration a b c :
  0 < duration ->
  parse_iso day = Ok d0 ->
  find_slot store day duration = Ok (Some (a, b)) ->
  free_slot store (work_start d0) (work_end d0) duration c ->
  to_seconds a <= to_seconds c.
Proof.
  intros Hd Hday H Hfree.
  apply find_slot_inv in H as (d0' & todays & found & cursor & Hd0 & Ht & Hs & Hr).
  rewrite Hday in Hd0. injection Hd0 as <-.
  pose proof (find_slot_scan_bound _ _ _ _ _ _ c Hd
                (parse_iso_valid _ _ Hday) Ht Hs Hfree) as Hlow.
  destruct found as [[a' b']|].
  - injection Hr as <- <-. exact Hlow.
  - destruct (_ <=? _); [|discriminate].
    destruct Hr as ([a' b'] & Hf & [= <- <-]).
    apply slot_at_ok in Hf as (-> & _). exact Hlow.
Qed.

(** A null answer for a positive duration: no free slot exists. *)
Lemma find_slot_none store day d0 duration c :
  0 < duration ->
  parse_iso day = Ok d0 ->
  find_slot store day duration = Ok None ->
  ~ free_slot store (work_start d0) (work_end d0) duration c.
Proof.
  intros Hd Hday H Hfree.
  apply find_slot_inv in H as (d0' & todays & found & cursor & Hd0 & Ht & Hs & Hr).
  rewrite Hday in Hd0. injection Hd0 as <-.
  pose proof (find_slot_scan_bound _ _ _ _ _ _ c Hd
                (parse_iso_valid _ _ Hday) Ht Hs Hfree) as Hlow.
  destruct found as [f|]; [discriminate|].
  destruct (_ <=? _) eqn:Hfit.
  - destruct Hr as (f & _ & Hr). discriminate.
  - apply Z.leb_gt in Hfit. rewrite total_seconds_between_eq in Hfit.
    destruct Hfree as (_ & Hend & _). lia.
Qed.

(** A returned slot ends by 17:00, unless it was found before an event of
    the day that starts after 17:00. *)
Lemma find_slot_end store day d0 duration a b :
  parse_iso day = Ok d0 ->
  find_slot store day duration = Ok (Some (a, b)) ->
  to_seconds b <= to_seconds (work_end d0) \/
  exists e s, e ∈ store /\ parse_iso (start e) = Ok s /\
    date s = date (work_start d0) /\
    to_seconds b <= to_seconds s /\
    to_seconds (work_end d0) < to_seconds s.
Proof.
  intros Hday H.
  pose proof (find_slot_duration _ _ _ _ _ H) as Hb.
  apply find_slot_inv in H as (d0' & todays & found & cursor & Hd0 & Ht & Hs & Hr).
  rewrite Hday in Hd0. injection Hd0 as <-.
  destruct found as [[a' b']|].
  - injection Hr as <- <-.
    apply scan_some_before in Hs as (e & s & He & Hes & Hle).
    apply (proj1 (sorted_by_start_elem _ _)) in He.
    destruct (day_events_elem _ _ _ _ Ht He) as [Hin (s' & Hs' & Hdate)].
    rewrite Hes in Hs'. injection Hs' as <-.
    destruct (Z.le_gt_cases (to_seconds b) (to_seconds (work_end d0)));
      [left; assumption|].
    right. exists e, s. repeat split; try assumption. lia.
  - destruct (_ <=? _) eqn:Hfit; [|discriminate].
    destruct Hr as ([a' b'] & Hf & [= <- <-]).
    apply slot_at_ok in Hf as (-> & Hb' & _).
    apply Z.leb_le in Hfit. rewrite total_seconds_between_eq in Hfit.
    left. lia.
Qed.

Lemma find_slot_no_overlap store day d0 duration a b todays :
  parse_iso day = Ok d0 ->
  day_events store (work_start d0) = Ok todays ->
  chronological todays ->
  find_slot store day duration = Ok (Some (a, b)) ->
  forall e s t, e ∈ store -> event_of_day (work_start d0) e s t ->
    ~ overlaps (to_seconds a) (to_seconds b) (to_seconds s) (to_seconds t).
Proof.
  intros Hday Htoday Hch H e s t He (Hs & Ht & Hdate).
  apply find_slot_inv in H as (d0' & todays' & found & cursor & Hd0 & Ht' & Hscan & Hr).
  rewrite Hday in Hd0. injection Hd0 as <-.
  fold (work_start d0) in Ht', Hscan. rewrite Htoday in Ht'.
  injection Ht' as <-.
  pose proof (work_start_valid _ (parse_iso_valid _ _ Hday)) as Hws.
  assert (e ∈ sorted_by_start todays) as Hin.
  { apply sorted_by_start_elem.
    eapply filterM_complete; [exact Htoday|assumption|].
    cbn beta. rewrite Hs. cbn. f_equal. apply Z.eqb_eq. assumption. }
  destruct found as [[a' b']|].
  - injection Hr as -> ->.
    eapply scan_some in Hscan as [_ Hno];
      eauto using sorted_by_start_sorted.
  - destruct (_ <=? _); [|discriminate].
    destruct Hr as ([a' b'] & Hf & [= -> ->]).
    apply slot_at_ok in Hf as (-> & _).
    pose proof (scan_none _ _ _ _ Hws Hscan e t Hin Ht).
    intros [Hlt _]. lia.
Qed.

(** When the day's start strings sort as their instants do, a returned
    slot that ends by 17:00 is a free slot. *)
Lemma find_slot_attains store day d0 duration a b todays :
  parse_iso day = Ok d0 ->
  day_events store (work_start d0) = Ok todays ->
  chronological todays ->
  find_slot store day duration = Ok (Some (a, b)) ->
  to_seconds b <= to_seconds (work_end d0) ->
  free_slot store (work_start d0) (work_end d0) duration a.
Proof.
  intros Hday Htoday Hch H Hend.
  pose proof (find_slot_duration _ _ _ _ _ H) as Hb.
  repeat split.
  - eapply find_slot_starts_in_window; eauto.
  - lia.
  - intros e s t He Hev. rewrite <- Hb.
    eapply find_slot_no_overlap; eauto.
Qed.

(** On a store whose starts are all canonical, a returned slot meets no
    event of the day, whatever the duration. *)
Lemma find_slot_no_overlap_canonical store day d0 duration a b :
  Forall canonical_start store ->
  parse_iso day = Ok d0 ->
  find_slot store day duration = Ok (Some (a, b)) ->
  forall e s t, e ∈ store -> event_of_day (work_start d0) e s t ->
    ~ overlaps (to_seconds a) (to_seconds b) (to_seconds s) (to_seconds t).
Proof.
  intros Hcan Hday H.
  destruct (find_slot_inv _ _ _ _ H)
    as (d0' & todays & found & cursor & Hd0 & Ht & _).
  rewrite Hday in Hd0. injection Hd0 as <-.
  eapply find_slot_no_overlap; eauto using day_events_chronological.
Qed.

(** On a canonical store, for a positive duration, a returned slot that
    ends by 17:00 is the minimum of the free slots. *)
Lemma find_slot_minimum_canonical store day d0 duration a b :
  0 < duration ->
  Forall canonical_start store ->
  parse_iso day = Ok d0 ->
  find_slot store day duration = Ok (Some (a, b)) ->
  to_seconds b <= to_seconds (work_end d0) ->
  free_slot store (work_start d0) (work_end d0) duration a /\
  forall c, free_slot store (work_start d0) (work_end d0) duration c ->
    to_seconds a <= to_seconds c.
Proof.
  intros Hd Hcan Hday H Hend. split.
  - destruct (find_slot_inv _ _ _ _ H)
      as (d0' & todays & found & cursor & Hd0 & Ht & _).
    rewrite Hday in Hd0. injection Hd0 as <-.
    eapply find_slot_attains; eauto using day_events_chronological.
  - intros c. eapply find_slot_lower_bound; eauto.
Qed.

(** With no event of the day starting after 17:00, a returned slot lies
    in the working window (for a duration that is not negative). *)
Lemma find_slot_in_window store day d0 duration a b :
  0 <= duration ->
  parse_iso day = Ok d0 ->
  (forall e s, e ∈ store -> parse_iso (start e) = Ok s ->
     date s = date (work_start d0) ->
     to_seconds s <= to_seconds (work_end d0)) ->
  find_slot store day duration = Ok (Some (a, b)) ->
  to_seconds (work_start d0) <= to_seconds a /\
  to_seconds a <= to_seconds b /\
  to_seconds b <= to_seconds (work_end d0).
Proof.
  intros Hd Hday Hearly H.
  pose proof (find_slot_duration _ _ _ _ _ H) as Hb.
  pose proof (find_slot_starts_in_window _ _ _ _ _ _ Hday H) as Ha.
  split; [assumption|]. split; [lia|].
  destruct (find_slot_end _ _ _ _ _ _ Hday H)
    as [Hle | (e & s & He & Hs & Hdate & _ & Hlate)]; [assumption|].
  specialize (Hearly e s He Hs Hdate). lia.
Qed.

Lemma find_slot_total_nonpositive store day d0 duration :
  parse_iso day = Ok d0 ->
  Forall timestamps_parse store ->
  duration <= 0 ->
  86400 <= to_seconds (work_start d0) + duration * 60 ->
  exists found, find_slot store day duration = Ok found.
Proof.
  intros Hs Hall Hd Hlo.
  pose proof (work_start_valid _ (parse_iso_valid _ _ Hs)) as Hws.
  unfold find_slot. rewrite Hs.
  change (Ok d0 ≫= ?f) with (f d0). cbn beta zeta. fold (work_start d0).
  rewrite (day_events_total store (work_start d0))
    by (eapply Forall_impl; [exact Hall|]; intros e [H _]; exact H).
  change (Ok ?l ≫= ?f) with (f l). cbn beta.
  set (evs := sorted_by_start _).
  assert (Forall timestamps_parse evs) as Hevs.
  { unfold evs. rewrite sorted_by_start_perm.
    apply Forall_forall. intros e He. apply list_elem_of_In in He.
    apply List.filter_In in He as [He _]. apply list_elem_of_In in He.
    rewrite Forall_forall in Hall. eauto. }
  destruct (scan_total (to_seconds (work_start d0)) duration evs
              (work_start d0) Hevs Hws Hd Hlo) as (r & cursor & Hscan);
    [lia|].
  rewrite Hscan. change (Ok ?p ≫= ?f) with (f p). cbn beta iota.
  destruct r as [found|]; [eauto|].
  destruct (_ <=? _); [|eauto].
  apply scan_cursor in Hscan as [Hvc Hge]; [|assumption].
  destruct (slot_at_total cursor duration Hvc Hd) as [stop Hstop]; [lia|].
  rewrite Hstop. cbn. eauto.
Qed.

(** ** The initial store, and stores grown by [book_and_confirm] *)

Lemma EVENTS_timestamps_parse : Forall timestamps_parse EVENTS.
Proof.
  repeat constructor; cbn; eauto.
Qed.

(** The initial events are canonical, and [book_and_confirm] keeps the
    store so. *)
Lemma EVENTS_canonical : Forall canonical_start EVENTS.
Proof.
  repeat constructor; eexists; (split; [reflexivity|split; reflexivity]).
Qed.

Example EVENTS_free_slot :
  free_slot EVENTS (work_start (mkdatetime 739546 0 0 0))
    (work_end (mkdatetime 739546 0 0 0)) 60 (mkdatetime 739546 9 0 0).
Proof.
  apply (find_slot_minimum_canonical EVENTS (JStr "2025-10-22")
           (mkdatetime 739546 0 0 0) 60 _ (mkdatetime 739546 10 0 0));
    [lia | exact EVENTS_canonical | reflexivity | reflexivity
    | vm_compute; discriminate].
Qed.

Lemma book_and_confirm_canonical confirm uuid8 store req :
  Forall canonical_start store ->
  Forall canonical_start (fst (book_and_confirm confirm uuid8 store req)).
Proof.
  intros H. unfold book_and_confirm.
  destruct (find_slot _ _ _) as [[found|]|]; cbn; try assumption.
  apply Forall_app. split; [assumption|].
  constructor; [|constructor].
  eexists. split; [reflexivity|]. apply iso_canonical.
Qed.

(** Two bookings of 240 minutes on 2025-10-22, one after the other: the
    first takes 10:30-14:30, the second finds no slot and leaves the store
    as the first left it. *)
Example book_and_confirm_twice :
  let req := BookRequest_init "2025-10-22" (Some 240) None None in
  let first := book_and_confirm (fun _ => "") "a1b2c3d4" EVENTS req in
  let second := book_and_confirm (fun _ => "") "e5f6a7b8" (fst first) req in
  snd first
  = Http200 (mkevent "a1b2c3d4" (JStr "Booked via UI")
               (JStr "2025-10-22T10:30:00") (JStr "2025-10-22T14:30:00")
               (JList []) (JStr "ui")) ""
  /\ second = (fst first, Http404 "No free slot found").
Proof. split; reflexivity. Qed.

(** ** Printing a date and reading it back *)

(** The year that [ord2ymd] computes from the four quotients is a leap year
    exactly when its own test says so. *)
Lemma is_leap_quotients a b c e :
  0 <= b <= 3 -> 0 <= c <= 24 -> 0 <= e <= 3 ->
  is_leap (a * 400 + 1 + b * 100 + c * 4 + e)
  = (e =? 3) && (negb (c =? 24) || (b =? 3)).
Proof.
  intros Hb Hc He. unfold is_leap.
  assert ((a * 400 + 1 + b * 100 + c * 4 + e) mod 4 = (e + 1) mod 4) as ->
    by (Z.div_mod_to_equations; lia).
  assert ((a * 400 + 1 + b * 100 + c * 4 + e) mod 100 = (c * 4 + e + 1) mod 100)
    as -> by (Z.div_mod_to_equations; lia).
  assert ((a * 400 + 1 + b * 100 + c * 4 + e) mod 400
          = (b * 100 + c * 4 + e + 1) mod 400)
    as -> by (Z.div_mod_to_equations; lia).
  destruct (e =? 3) eqn:E3; destruct (c =? 24) eqn:E24;
    destruct (b =? 3) eqn:Eb;
    rewrite ?Z.eqb_eq, ?Z.eqb_neq in *; subst; cbn [negb orb andb].
  all: repeat match goal with
       | |- context [?x mod ?y =? 0] =>
           let E := fresh "E" in
           destruct (x mod y =? 0) eqn:E;
           [apply Z.eqb_eq in E | apply Z.eqb_neq in E]
       end; cbn; try reflexivity; exfalso;
       Z.div_mod_to_equations; lia.
Qed.

Lemma days_before_year_quotients a b c e :
  0 <= b <= 3 -> 0 <= c <= 24 -> 0 <= e <= 3 ->
  days_before_year (a * 400 + 1 + b * 100 + c * 4 + e)
  = a * 146097 + b * 36524 + c * 1461 + e * 365.
Proof.
  intros Hb Hc He. unfold days_before_year. cbv zeta.
  Z.div_mod_to_equations. lia.
Qed.

(** The four quotients that [ord2ymd] takes of [n - 1]: 400-year cycles,
    centuries, 4-year cycles, years, and the day of the year left. *)
Lemma ord2ymd_quotients k :
  0 <= k ->
  let a := k / 146097 in
  let b := k mod 146097 / 36524 in
  let c := k mod 146097 mod 36524 / 1461 in
  let e := k mod 146097 mod 36524 mod 1461 / 365 in
  let r := k mod 146097 mod 36524 mod 1461 mod 365 in
  k = a * 146097 + b * 36524 + c * 1461 + e * 365 + r /\
  0 <= a /\ 0 <= b <= 4 /\ 0 <= c <= 24 /\ 0 <= e <= 4 /\ 0 <= r < 365 /\
  (b = 4 -> c = 0 /\ e = 0 /\ r = 0) /\
  (e = 4 -> r = 0 /\ c <= 23).
Proof.
  intros Hk. cbv zeta. Z.div_mod_to_equations. lia.
Qed.

Lemma ord2ymd_spec n :
  1 <= n <= MAXORDINAL ->
  exists y m d, ord2ymd n = (y, m, d) /\
    1 <= y <= 9999 /\ 1 <= m <= 12 /\ 1 <= d <= days_in_month y m /\
    ymd2ord y m d = n.
Proof.
  intros [Hlo Hhi]. unfold ord2ymd. cbv zeta.
  destruct (ord2ymd_quotients (n - 1)) as (Hk & Ha & Hb & Hc & He & Hr & Hb4 & He4);
    [lia|].
  set (a := (n - 1) / 146097) in *.
  set (b := (n - 1) mod 146097 / 36524) in *.
  set (c := (n - 1) mod 146097 mod 36524 / 1461) in *.
  set (e := (n - 1) mod 146097 mod 36524 mod 1461 / 365) in *.
  set (r := (n - 1) mod 146097 mod 36524 mod 1461 mod 365) in *.
  clearbody a b c e r.
  assert (Hyear : forall y, days_before_year y <= n - 1 -> y <= 9999).
  { intros y Hy. destruct (Z.le_gt_cases y 9999) as [|Hgt]; [assumption|].
    pose proof (days_before_year_mono 10000 y ltac:(lia)) as Hm.
    change (days_before_year 10000) with 3652059 in Hm.
    unfold MAXORDINAL in Hhi. lia. }
  destruct ((e =? 4) || (b =? 4)) eqn:Hlast.
  - (* the last day of a leap year *)
    exists (a * 400 + 1 + b * 100 + c * 4 + e - 1), 12, 31.
    split; [reflexivity|].
    apply orb_true_iff in Hlast. rewrite !Z.eqb_eq in Hlast.
    assert (exists b' c', 0 <= b' <= 3 /\ 0 <= c' <= 24 /\
              a * 400 + 1 + b * 100 + c * 4 + e - 1
              = a * 400 + 1 + b' * 100 + c' * 4 + 3 /\
              n - 1 = a * 146097 + b' * 36524 + c' * 1461 + 3 * 365 + 365 /\
              (c' = 24 -> b' = 3))
      as (b' & c' & Hb' & Hc' & -> & Hn & Hcb).
    { destruct (Z.eq_dec b 4) as [->|Hne].
      - destruct (Hb4 eq_refl) as (-> & -> & ->).
        exists 3, 24. lia.
      - destruct Hlast as [->|?]; [|lia].
        destruct (He4 eq_refl) as (-> & Hc23).
        exists b, c. lia. }
    pose proof (days_before_year_quotients a b' c' 3 Hb' Hc' ltac:(lia)) as Hdby.
    pose proof (is_leap_quotients a b' c' 3 Hb' Hc' ltac:(lia)) as Hleap.
    replace ((3 =? 3) && (negb (c' =? 24) || (b' =? 3))) with true in Hleap.
    2:{ destruct (c' =? 24) eqn:E; cbn; [|reflexivity].
        apply Z.eqb_eq in E. apply Hcb in E. subst. reflexivity. }
    split; [split; [lia|apply Hyear; lia]|].
    split; [lia|]. split; [cbn; lia|].
    unfold ymd2ord, days_before_month. rewrite Hdby, Hleap. cbn. lia.
  - apply orb_false_iff in Hlast as [He' Hb'].
    apply Z.eqb_neq in He'. apply Z.eqb_neq in Hb'.
    assert (0 <= b <= 3) as Hb3 by lia. assert (0 <= e <= 3) as He3 by lia.
    pose proof (days_before_year_quotients a b c e Hb3 Hc He3) as Hdby.
    pose proof (is_leap_quotients a b c e Hb3 Hc He3) as Hleap.
    set (year := a * 400 + 1 + b * 100 + c * 4 + e) in *.
    set (leapyear := (e =? 3) && (negb (c =? 24) || (b =? 3))) in *.
    assert (1 <= year <= 9999) as Hy
      by (split; [unfold year; lia | apply Hyear; lia]).
    assert (r < 365 \/ False) as _ by lia.
    rewrite Z.shiftr_div_pow2 by lia. change (2 ^ 5) with 32.
    assert (1 <= (r + 50) / 32 <= 12) as Hm
      by (Z.div_mod_to_equations; lia).
    assert (Hr32 : 32 * ((r + 50) / 32) <= r + 50 < 32 * ((r + 50) / 32) + 32)
      by (Z.div_mod_to_equations; lia).
    clearbody year. 
    apply month_cases in Hm.
    destruct leapyear;
      repeat (destruct Hm as [Hm | Hm]); rewrite Hm in *;
      repeat match goal with
      | |- context [Z.pos ?p - 1] =>
          let v := eval vm_compute in (Z.pos p - 1) in
          change (Z.pos p - 1) with v
      end;
      cbn [DAYS_BEFORE_MONTH DAYS_IN_MONTH Z.ltb Z.eqb Z.compare Pos.compare
           Pos.compare_cont andb];
      match goal with
      | |- context [if r <? ?p then _ else _] =>
          destruct (r <? p) eqn:Hlt;
          [apply Z.ltb_lt in Hlt | apply Z.ltb_ge in Hlt]
      end;
      (eexists _, _, _; split; [reflexivity|]; split; [assumption|];
       unfold ymd2ord, days_in_month, days_before_month;
       rewrite Hdby, Hleap; cbn; lia).
Qed.

Lemma digit_digit_char d : digit (digit_char d) = Some (d mod 10).
Proof.
  unfold digit, digit_char.
  pose proof (Z.mod_pos_bound d 10 ltac:(lia)) as Hd.
  rewrite N_ascii_embedding by lia.
  rewrite Z2N.id by lia.
  replace (48 <=? 48 + d mod 10) with true by (symmetry; apply Z.leb_le; lia).
  replace (48 + d mod 10 <=? 57) with true by (symmetry; apply Z.leb_le; lia).
  cbn. f_equal. lia.
Qed.

Lemma num2_digit_chars n :
  0 <= n <= 99 -> num2 (digit_char (n / 10)) (digit_char n) = Some n.
Proof.
  intros Hn. unfold num2. rewrite !digit_digit_char. cbn. f_equal.
  Z.div_mod_to_equations. lia.
Qed.

Lemma num4_digit_chars n :
  0 <= n <= 9999 ->
  num4 (digit_char (n / 100 / 10)) (digit_char (n / 100))
       (digit_char (n mod 100 / 10)) (digit_char (n mod 100)) = Some n.
Proof.
  intros Hn. unfold num4.
  rewrite !num2_digit_chars by (Z.div_mod_to_equations; lia).
  cbn. f_equal. Z.div_mod_to_equations. lia.
Qed.

(** What [iso] prints, [fromisoformat] reads back. *)
Lemma fromisoformat_iso t :
  valid_datetime t -> fromisoformat (iso t) = Ok t.
Proof.
  intros [Hdate (Hh & Hm & Hs)].
  destruct (ord2ymd_spec _ Hdate) as (y & m & d & Hymd & Hy & Hmo & Hd & Hord).
  assert (d <= 31) as Hd31.
  { unfold days_in_month in Hd. apply month_cases in Hmo.
    destruct (is_leap y); repeat (destruct Hmo as [-> | Hmo]); try subst m;
      cbn in Hd; lia. }
  unfold iso. rewrite Hymd. unfold fmt4, fmt2, fromisoformat.
  cbn [list_ascii_of_string is_char Ascii.eqb Bool.eqb andb].
  rewrite num4_digit_chars by lia.
  rewrite !num2_digit_chars by lia.
  cbn [parse_isoformat_time is_char Ascii.eqb Bool.eqb andb].
  rewrite !num2_digit_chars by lia. cbn [mbind option_bind].
  unfold new_datetime. rewrite Hord.
  replace (_ && _) with true; [destruct t; reflexivity|].
  symmetry. rewrite !andb_true_iff, !Z.leb_le. lia.
Qed.

Lemma parse_iso_iso t : valid_datetime t -> parse_iso (JStr (iso t)) = Ok t.
Proof. apply fromisoformat_iso. Qed.

(** ** Reading a timestamp and printing it again *)

Lemma digit_char_of_digit c x : digit c = Some x -> digit_char x = c.
Proof.
  intros H. apply digit_code in H as [Hc Hx]. unfold digit_char.
  rewrite Z.mod_small by lia. rewrite <- Hc, N2Z.id.
  apply ascii_N_embedding.
Qed.

Lemma fmt2_num2 a b v k :
  num2 a b = Some v -> fmt2 v k = String a (String b k).
Proof.
  intros H. apply num2_inv in H as (x & y & Hx & Hy & ->).
  pose proof (digit_code _ _ Hx) as [_ Hxr].
  pose proof (digit_code _ _ Hy) as [_ Hyr].
  unfold fmt2.
  replace ((10 * x + y) / 10) with x by (Z.div_mod_to_equations; lia).
  rewrite (digit_char_of_digit _ _ Hx).
  replace (digit_char (10 * x + y)) with (digit_char y).
  - rewrite (digit_char_of_digit _ _ Hy). reflexivity.
  - unfold digit_char. do 3 f_equal. Z.div_mod_to_equations. lia.
Qed.

Lemma fmt4_num4 a b c d v k :
  num4 a b c d = Some v ->
  fmt4 v k = String a (String b (String c (String d k))).
Proof.
  intros H. apply num4_inv in H as (x & y & Hx & Hy & ->).
  pose proof (num2_range _ _ _ Hx). pose proof (num2_range _ _ _ Hy).
  unfold fmt4.
  replace ((100 * x + y) / 100) with x by (Z.div_mod_to_equations; lia).
  replace ((100 * x + y) mod 100) with y by (Z.div_mod_to_equations; lia).
  rewrite (fmt2_num2 _ _ _ _ Hx), (fmt2_num2 _ _ _ _ Hy). reflexivity.
Qed.

Lemma new_datetime_year Y M D hh mm ss t :
  new_datetime Y M D hh mm ss = Ok t -> 1 <= Y <= 9999.
Proof.
  unfold new_datetime. destruct (_ && _) eqn:Hc; [|discriminate].
  intros _. repeat (apply andb_true_iff in Hc as [Hc ?]). lia.
Qed.

Lemma ord2ymd_ymd2ord y m d :
  1 <= y <= 9999 -> 1 <= m <= 12 -> 1 <= d <= days_in_month y m ->
  ord2ymd (ymd2ord y m d) = (y, m, d).
Proof.
  intros Hy Hm Hd.
  destruct (ord2ymd_spec _ (ymd2ord_range _ _ _ Hy Hm Hd))
    as (y' & m' & d' & -> & Hy' & Hm' & Hd' & Hord).
  apply ymd2ord_inj in Hord as (-> & -> & ->); trivial.
Qed.

(** A timestamp in the format [iso] prints is printed back as it was
    read. *)
Lemma iso_fromisoformat s t :
  fromisoformat s = Ok t -> canonical s -> iso t = s.
Proof.
  intros Hs Hc.
  destruct (fromisoformat_canonical_inv _ _ Hs Hc)
    as (y1 & y2 & y3 & y4 & m1 & m2 & d1 & d2 & h1 & h2 & i1 & i2 & s1 & s2
        & Y & M & D & hh & mm & ss & -> & HY & HM & HD & Hh & Hi & Hss & Ht).
  pose proof (new_datetime_year _ _ _ _ _ _ _ Ht) as HYr.
  apply new_datetime_inv in Ht as (-> & ? & ? & ? & ? & ?).
  unfold iso. cbn [date hour minute second].
  rewrite ord2ymd_ymd2ord by assumption.
  rewrite (fmt4_num4 _ _ _ _ _ _ HY), (fmt2_num2 _ _ _ _ HM),
    (fmt2_num2 _ _ _ _ HD), (fmt2_num2 _ _ _ _ Hh), (fmt2_num2 _ _ _ _ Hi),
    (fmt2_num2 _ _ _ _ Hss).
  reflexivity.
Qed.

(** A plain date [YYYY-MM-DD] is printed back with midnight appended. *)
Lemma iso_fromisoformat_date s t :
  fromisoformat s = Ok t -> String.length s = 10%nat ->
  iso t = String.append s "T00:00:00" /\ hour t = 0 /\ minute t = 0 /\ second t = 0.
Proof.
  intros H Hlen.
  destruct s as [|c0 s]; [discriminate Hlen|].
  destruct s as [|c1 s]; [discriminate Hlen|].
  destruct s as [|c2 s]; [discriminate Hlen|].
  destruct s as [|c3 s]; [discriminate Hlen|].
  destruct s as [|c4 s]; [discriminate Hlen|].
  destruct s as [|c5 s]; [discriminate Hlen|].
  destruct s as [|c6 s]; [discriminate Hlen|].
  destruct s as [|c7 s]; [discriminate Hlen|].
  destruct s as [|c8 s]; [discriminate Hlen|].
  destruct s as [|c9 s]; [discriminate Hlen|].
  destruct s; [|discriminate Hlen]. clear Hlen.
  unfold fromisoformat in H. cbn [list_ascii_of_string] in H.
  destruct (is_char c4 "-" && is_char c7 "-") eqn:Hd; [|discriminate].
  apply andb_true_iff in Hd as [Hd1 Hd2].
  apply Ascii.eqb_eq in Hd1 as ->. apply Ascii.eqb_eq in Hd2 as ->.
  destruct (num4 c0 c1 c2 c3) as [Y|] eqn:HY; [|discriminate].
  destruct (num2 c5 c6) as [M|] eqn:HM; [|discriminate].
  destruct (num2 c8 c9) as [D|] eqn:HD; [|discriminate].
  cbn [parse_isoformat_time] in H.
  pose proof (new_datetime_year _ _ _ _ _ _ _ H) as HYr.
  apply new_datetime_inv in H as (-> & ? & ? & ? & ? & ?).
  unfold iso. cbn [date hour minute second].
  rewrite ord2ymd_ymd2ord by assumption.
  rewrite (fmt4_num4 _ _ _ _ _ _ HY), (fmt2_num2 _ _ _ _ HM),
    (fmt2_num2 _ _ _ _ HD).
  repeat split.
Qed.

(** ** The slot search: the slot is a pair of dates of the requested day *)

Lemma scan_valid evs : forall cursor duration a b cursor',
  valid_datetime cursor ->
  scan evs cursor duration = Ok (Some (a, b), cursor') ->
  valid_datetime a /\ valid_datetime b.
Proof.
  induction evs as [|e rest IH]; intros cursor duration a b cursor' Hv H;
    cbn in H; [discriminate|].
  bind_inv H s Hs. destruct (_ <=? _).
  - bind_inv H found Hf. injection H as -> <-.
    apply slot_at_ok in Hf as (-> & _ & ?). split; assumption.
  - bind_inv H t Ht. pose proof (parse_iso_valid _ _ Ht).
    eapply IH; [|exact H]. apply dt_max_valid; assumption.
Qed.

Lemma find_slot_valid store day duration a b :
  find_slot store day duration = Ok (Some (a, b)) ->
  valid_datetime a /\ valid_datetime b.
Proof.
  intros H.
  apply find_slot_inv in H as (d0 & todays & found & cursor & Hd0 & _ & Hs & Hr).
  pose proof (work_start_valid _ (parse_iso_valid _ _ Hd0)) as Hws.
  destruct found as [[a' b']|].
  - injection Hr as -> ->. eapply scan_valid; eassumption.
  - destruct (_ <=? _); [|discriminate].
    destruct Hr as ([a' b'] & Hf & [= -> ->]).
    apply slot_at_ok in Hf as (-> & _ & Hb).
    apply scan_cursor in Hs as [Hc _]; [|assumption]. split; assumption.
Qed.

Lemma date_of_seconds a n :
  valid_time a ->
  n * 86400 <= to_seconds a < (n + 1) * 86400 -> date a = n.
Proof.
  intros (? & ? & ?). unfold to_seconds. lia.
Qed.

Lemma seconds_of_date a :
  valid_time a ->
  date a * 86400 <= to_seconds a < (date a + 1) * 86400.
Proof.
  intros (? & ? & ?). unfold to_seconds. lia.
Qed.

Lemma work_window_seconds d0 :
  to_seconds (work_start d0) = date d0 * 86400 + 32400 /\
  to_seconds (work_end d0) = date d0 * 86400 + 61200.
Proof. unfold to_seconds, work_end, work_start. cbn. lia. Qed.

(** For a positive duration the slot starts and ends on the requested day,
    from 09:00 on, whatever the store holds. *)
Lemma find_slot_same_day store day d0 duration a b :
  0 < duration ->
  parse_iso day = Ok d0 ->
  find_slot store day duration = Ok (Some (a, b)) ->
  date a = date d0 /\ date b = date d0 /\
  to_seconds (work_start d0) <= to_seconds a /\
  to_seconds a < to_seconds b.
Proof.
  intros Hd Hday H.
  pose proof (find_slot_valid _ _ _ _ _ H) as [[_ Hva] [_ Hvb]].
  pose proof (find_slot_duration _ _ _ _ _ H) as Hb.
  pose proof (find_slot_starts_in_window _ _ _ _ _ _ Hday H) as Ha.
  pose proof (work_window_seconds d0) as [Hws Hwe].
  assert (to_seconds b < (date d0 + 1) * 86400) as Hend.
  { destruct (find_slot_end _ _ _ _ _ _ Hday H)
      as [Hle | (e & s & _ & Hs & Hdate & Hle & _)]; [lia|].
    pose proof (parse_iso_valid _ _ Hs) as [_ Hvs].
    pose proof (seconds_of_date s Hvs). cbn in Hdate. rewrite Hdate in *. lia. }
  split; [apply date_of_seconds; [assumption|lia]|].
  split; [apply date_of_seconds; [assumption|lia]|].
  split; [assumption|lia].
Qed.

(** The cursor of the loop is where it started or the end of an event it
    has passed, and a slot found in the loop starts at such a cursor. *)
Lemma scan_starts evs : forall cursor duration r cursor',
  scan evs cursor duration = Ok (r, cursor') ->
  (cursor' = cursor \/
   exists e t, e ∈ evs /\ parse_iso (end_ e) = Ok t /\ cursor' = t) /\
  forall a b, r = Some (a, b) -> a = cursor'.
Proof.
  induction evs as [|e rest IH]; intros cursor duration r cursor' H;
    cbn in H.
  - injection H as <- <-. split; [left; reflexivity|discriminate].
  - bind_inv H s Hs. destruct (_ <=? _).
    + bind_inv H found Hf. injection H as <- <-. destruct found as [a' b'].
      apply slot_at_ok in Hf as (-> & _).
      split; [left; reflexivity|]. intros a b [= <- _]. reflexivity.
    + bind_inv H t Ht. apply IH in H as [Hc Hr]. split; [|exact Hr].
      destruct Hc as [-> | (e' & t' & He' & Ht' & ->)].
      * unfold dt_max. destruct (dt_ltb cursor t).
        -- right. exists e, t. split; [left|split; [assumption|reflexivity]].
        -- left. reflexivity.
      * right. exists e', t'.
        split; [right; assumption|split; [assumption|reflexivity]].
Qed.

Lemma find_slot_start store day d0 duration a b :
  parse_iso day = Ok d0 ->
  find_slot store day duration = Ok (Some (a, b)) ->
  a = work_start d0 \/
  exists e s, e ∈ store /\ parse_iso (start e) = Ok s /\
    date s = date d0 /\ parse_iso (end_ e) = Ok a.
Proof.
  intros Hday H.
  apply find_slot_inv in H as (d0' & todays & found & cursor & Hd0 & Ht & Hs & Hr).
  rewrite Hday in Hd0. injection Hd0 as <-.
  destruct (scan_starts _ _ _ _ _ Hs) as [Hc Hfound].
  assert (a = cursor) as ->.
  { destruct found as [[a' b']|].
    - injection Hr as -> ->. apply (Hfound a' b' eq_refl).
    - destruct (_ <=? _); [|discriminate].
      destruct Hr as ([a' b'] & Hf & [= <- <-]).
      apply slot_at_ok in Hf as (-> & _). reflexivity. }
  destruct Hc as [-> | (e & t & He & Het & ->)]; [left; reflexivity|].
  right. apply (proj1 (sorted_by_start_elem _ _)) in He.
  destruct (day_events_elem _ _ _ _ Ht He) as [Hin (s & Hes & Hdate)].
  exists e, s. repeat split; assumption.
Qed.

(** ** The slot search never fails on timestamps that parse *)

Lemma slot_at_fits cursor duration hi :
  valid_datetime cursor -> valid_datetime hi ->
  0 <= duration -> to_seconds cursor + duration * 60 <= to_seconds hi ->
  exists stop, slot_at cursor duration = Ok (cursor, stop).
Proof.
  intros Hc Hhi Hd Hfit.
  pose proof (to_seconds_range _ Hc) as Hrc.
  pose proof (to_seconds_range _ Hhi) as Hrh.
  unfold MAXORDINAL in *. unfold slot_at.
  rewrite timedelta_minutes_ok by lia.
  change (Ok (duration * 60) ≫= ?f) with (f (duration * 60)). cbn beta.
  destruct (dt_add_total cursor (duration * 60)) as [stop Hstop];
    [unfold MAXORDINAL; lia|].
  rewrite Hstop. eauto.
Qed.

Lemma scan_total_nonnegative duration evs : forall cursor,
  Forall timestamps_parse evs ->
  valid_datetime cursor ->
  0 <= duration ->
  exists r cursor', scan evs cursor duration = Ok (r, cursor').
Proof.
  induction evs as [|e rest IH]; intros cursor Hall Hv Hd; cbn.
  - eauto.
  - apply Forall_cons in Hall as [[[s Hs] [t Ht]] Hall].
    rewrite Hs. change (Ok s ≫= ?f) with (f s). cbn beta.
    rewrite total_seconds_between_eq.
    destruct (_ <=? _) eqn:Hgap.
    + apply Z.leb_le in Hgap.
      destruct (slot_at_fits cursor duration s Hv (parse_iso_valid _ _ Hs) Hd)
        as [stop Hstop]; [lia|].
      rewrite Hstop. cbn. eauto.
    + rewrite Ht. change (Ok t ≫= ?f) with (f t). cbn beta.
      apply IH; try assumption.
      apply dt_max_valid; [assumption|]. eapply parse_iso_valid; eassumption.
Qed.

Lemma find_slot_total store day d0 duration :
  parse_iso day = Ok d0 ->
  Forall timestamps_parse store ->
  0 <= duration ->
  exists found, find_slot store day duration = Ok found.
Proof.
  intros Hs Hall Hd.
  pose proof (parse_iso_valid _ _ Hs) as Hv0.
  pose proof (work_start_valid _ Hv0) as Hws.
  unfold find_slot. rewrite Hs.
  change (Ok d0 ≫= ?f) with (f d0). cbn beta zeta. fold (work_start d0).
  rewrite (day_events_total store (work_start d0))
    by (eapply Forall_impl; [exact Hall|]; intros e [H _]; exact H).
  change (Ok ?l ≫= ?f) with (f l). cbn beta.
  set (evs := sorted_by_start _).
  assert (Forall timestamps_parse evs) as Hevs.
  { unfold evs. rewrite sorted_by_start_perm.
    apply Forall_forall. intros e He. apply list_elem_of_In in He.
    apply List.filter_In in He as [He _]. apply list_elem_of_In in He.
    rewrite Forall_forall in Hall. eauto. }
  destruct (scan_total_nonnegative duration evs (work_start d0) Hevs Hws Hd)
    as (r & cursor & Hscan).
  rewrite Hscan. change (Ok ?p ≫= ?f) with (f p). cbn beta iota.
  destruct r as [found|]; [eauto|].
  fold (work_end d0). rewrite total_seconds_between_eq.
  destruct (_ <=? _) eqn:Hfit; [|eauto].
  apply Z.leb_le in Hfit.
  apply scan_cursor in Hscan as [Hvc Hge]; [|assumption].
  assert (valid_datetime (work_end d0)) as Hwe
    by (destruct Hv0 as [? _]; unfold valid_datetime, valid_time; cbn; lia).
  destruct (slot_at_fits cursor duration (work_end d0) Hvc Hwe Hd) as [stop Hstop];
    [lia|].
  rewrite Hstop. cbn. eauto.
Qed.

(** ** Naive timestamps *)

Lemma digit_is_digits c n : digit c = Some n -> is_digits [c] = true.
Proof. unfold is_digits. cbn. intros ->. reflexivity. Qed.

Lemma num2_is_digits a b n : num2 a b = Some n -> is_digits [a; b] = true.
Proof.
  unfold num2, is_digits. cbn.
  destruct (digit a); [|discriminate]. destruct (digit b); [|discriminate].
  reflexivity.
Qed.

Lemma num4_is_digits a b c d n :
  num4 a b c d = Some n -> is_digits [a; b; c; d] = true.
Proof.
  unfold num4. destruct (num2 a b) eqn:E1; [|discriminate].
  destruct (num2 c d) eqn:E2; [|discriminate]. intros _.
  apply num2_is_digits in E1, E2. unfold is_digits in *. cbn in *.
  rewrite !andb_true_r in *. apply andb_true_iff in E1 as [-> ->].
  apply andb_true_iff in E2 as [-> ->]. reflexivity.
Qed.

Lemma is_digits_app l1 l2 :
  is_digits (l1 ++ l2) = is_digits l1 && is_digits l2.
Proof. apply forallb_app. Qed.

(** [fromisoformat] reads naive timestamps to the second and nothing
    else. *)
Lemma fromisoformat_naive_seconds s t :
  fromisoformat s = Ok t -> naive_seconds s = true.
Proof.
  unfold fromisoformat, naive_seconds.
  destruct (list_ascii_of_string s)
    as [|y1 [|y2 [|y3 [|y4 [|c1 [|m1 [|m2 [|c2 [|d1 [|d2 rest]]]]]]]]]];
    try discriminate.
  destruct (is_char c1 "-" && is_char c2 "-"); [|discriminate].
  destruct (num4 y1 y2 y3 y4) as [y|] eqn:Ey; [|discriminate].
  destruct (num2 m1 m2) as [m|] eqn:Em; [|discriminate].
  destruct (num2 d1 d2) as [d|] eqn:Ed; [|discriminate].
  destruct (parse_isoformat_time rest) as [[[hh mm] ss]|] eqn:Et;
    [|discriminate].
  intros _. cbn [andb].
  change [y1; y2; y3; y4; m1; m2; d1; d2]
    with ([y1; y2; y3; y4] ++ [m1; m2] ++ [d1; d2]).
  rewrite !is_digits_app, (num4_is_digits _ _ _ _ _ Ey),
    (num2_is_digits _ _ _ Em), (num2_is_digits _ _ _ Ed).
  cbn [andb]. unfold parse_isoformat_time in Et.
  destruct rest as [|x [|h1 [|h2 [|c3 [|i1 [|i2 [|c4 [|s1 [|s2 [|? ?]]]]]]]]]];
    try discriminate; try reflexivity.
  - destruct (num2 h1 h2) eqn:Eh; [|discriminate].
    exact (num2_is_digits _ _ _ Eh).
  - destruct (is_char c3 ":"); [|discriminate].
    destruct (num2 h1 h2) eqn:Eh; [|discriminate].
    destruct (num2 i1 i2) eqn:Ei; [|discriminate].
    change [h1; h2; i1; i2] with ([h1; h2] ++ [i1; i2]).
    rewrite is_digits_app, (num2_is_digits _ _ _ Eh),
      (num2_is_digits _ _ _ Ei). reflexivity.
  - destruct (is_char c3 ":" && is_char c4 ":"); [|discriminate].
    destruct (num2 h1 h2) eqn:Eh; [|discriminate].
    destruct (num2 i1 i2) eqn:Ei; [|discriminate].
    destruct (num2 s1 s2) eqn:Es; [|discriminate].
    change [h1; h2; i1; i2; s1; s2] with ([h1; h2] ++ [i1; i2] ++ [s1; s2]).
    rewrite !is_digits_app, (num2_is_digits _ _ _ Eh),
      (num2_is_digits _ _ _ Ei), (num2_is_digits _ _ _ Es). reflexivity.
Qed.

Lemma parse_iso_naive_timestamp v t : parse_iso v = Ok t <-> naive_timestamp v t.
Proof.
  split.
  - destruct v as [| | |s| |]; try discriminate. cbn [parse_iso]. intros H.
    exists s. split; [reflexivity|]. split; [|assumption].
    eapply fromisoformat_naive_seconds. eassumption.
  - intros (s & -> & _ & H). exact H.
Qed.

Lemma naive_event_timestamps_parse e : naive_event e -> timestamps_parse e.
Proof.
  intros [[s Hs] [t Ht]]. apply parse_iso_naive_timestamp in Hs, Ht.
  split; eauto.
Qed.

Lemma naive_start_parses e : naive_start e -> exists s, parse_iso (start e) = Ok s.
Proof. intros [s Hs]. apply parse_iso_naive_timestamp in Hs. eauto. Qed.

Lemma naive_events_parse store :
  Forall naive_event store -> Forall timestamps_parse store.
Proof.
  intros H. eapply Forall_impl; [exact H|exact naive_event_timestamps_parse].
Qed.

Lemma naive_starts_parse store :
  Forall naive_start store ->
  Forall (fun e => exists s, parse_iso (start e) = Ok s) store.
Proof.
  intros H. eapply Forall_impl; [exact H|exact naive_start_parses].
Qed.

Lemma naive_events_starts store :
  Forall naive_event store -> Forall naive_start store.
Proof. intros H. eapply Forall_impl; [exact H|]. intros e [Hs _]. exact Hs. Qed.

Lemma EVENTS_naive : Forall naive_event EVENTS.
Proof.
  repeat constructor; eexists; apply parse_iso_naive_timestamp; reflexivity.
Qed.

(** ** Bookings served one after the other *)

Lemma disjoint_snoc store x :
  disjoint store ->
  (forall e s t a b, e ∈ store ->
     parse_iso (start e) = Ok s -> parse_iso (end_ e) = Ok t ->
     parse_iso (start x) = Ok a -> parse_iso (end_ x) = Ok b ->
     ~ overlaps (to_seconds a) (to_seconds b) (to_seconds s) (to_seconds t)) ->
  disjoint (store ++ [x]).
Proof.
  intros Hdis Hnew i j e1 e2 s1 t1 s2 t2 Hij H1 H2 Hs1 Ht1 Hs2 Ht2.
  apply lookup_app_Some in H1 as [H1 | [Hi H1]];
    apply lookup_app_Some in H2 as [H2 | [Hj H2]].
  - eapply Hdis; eassumption.
  - apply list_lookup_singleton_Some in H2 as [_ <-].
    intros [Ha Hb].
    apply (Hnew e1 s1 t1 s2 t2); [eapply list_elem_of_lookup_2; eassumption
                                   | assumption..|].
    split; assumption.
  - apply list_lookup_singleton_Some in H1 as [_ <-].
    apply (Hnew e2 s2 t2 s1 t1); [eapply list_elem_of_lookup_2; eassumption
                                   | assumption..].
  - apply list_lookup_singleton_Some in H1 as [H1 _].
    apply list_lookup_singleton_Some in H2 as [H2 _]. lia.
Qed.

Lemma EVENTS_well_booked : well_booked EVENTS.
Proof.
  split; [exact EVENTS_canonical|]. split.
  - unfold EVENTS. constructor; [|constructor; [|constructor]];
      eexists _, _;
      (split; [apply parse_iso_naive_timestamp; reflexivity|];
       split; [apply parse_iso_naive_timestamp; reflexivity|]);
      vm_compute; repeat split; discriminate.
  - intros i j e1 e2 s1 t1 s2 t2 Hij H1 H2 Hs1 Ht1 Hs2 Ht2.
    destruct i as [|[|i]]; destruct j as [|[|j]]; try discriminate;
      try (exfalso; apply Hij; reflexivity);
      injection H1 as <-; injection H2 as <-;
      vm_compute in Hs1, Ht1, Hs2, Ht2;
      injection Hs1 as <-; injection Ht1 as <-;
      injection Hs2 as <-; injection Ht2 as <-;
      unfold overlaps; vm_compute; intros [Ha Hb]; discriminate.
Qed.

(** One booking with a positive duration keeps a well-booked store
    well-booked. *)
Lemma book_and_confirm_well_booked confirm uuid8 store req :
  0 < duration_minutes req ->
  well_booked store ->
  well_booked (fst (book_and_confirm confirm uuid8 store req)).
Proof.
  intros Hd (Hcan & Hwin & Hdis).
  pose proof (book_and_confirm_canonical confirm uuid8 store req Hcan) as Hcan'.
  split; [assumption|]. clear Hcan'.
  unfold book_and_confirm.
  destruct (find_slot store (JStr (day req)) (duration_minutes req))
    as [[[a b]|]|] eqn:Hfound; cbn [fst]; try (split; assumption).
  destruct (find_slot_inv _ _ _ _ Hfound) as (d0 & _ & _ & _ & Hday & _).
  pose proof (find_slot_valid _ _ _ _ _ Hfound) as [Hva Hvb].
  pose proof (find_slot_same_day _ _ _ _ _ _ Hd Hday Hfound)
    as (Hda & Hdb & Hlo & Hlt).
  pose proof (work_window_seconds d0) as [Hws Hwe].
  assert (Hin : to_seconds b <= to_seconds (work_end d0)).
  { apply (find_slot_in_window store (JStr (day req)) d0
             (duration_minutes req) a b); try assumption; [lia|].
    intros e s He Hs Hdate. rewrite Forall_forall in Hwin.
    destruct (Hwin e He) as (s' & t' & Hs' & Ht' & _ & Hst & Hte).
    apply parse_iso_naive_timestamp in Hs'.
    rewrite Hs in Hs'. injection Hs' as <-.
    pose proof (work_window_seconds s) as [_ Hwes].
    cbn in Hdate. rewrite Hwe, <- Hdate. lia. }
  cbn [slot_dict slot_start slot_end fst snd].
  split.
  - apply Forall_app. split; [assumption|]. constructor; [|constructor].
    exists a, b. cbn [start end_].
    split; [apply parse_iso_naive_timestamp, parse_iso_iso; assumption|].
    split; [apply parse_iso_naive_timestamp, parse_iso_iso; assumption|].
    pose proof (work_window_seconds a) as [Hwsa Hwea].
    repeat split; rewrite ?Hwsa, ?Hwea, ?Hda; lia.
  - apply disjoint_snoc; [assumption|].
    cbn [start end_]. intros e s t a' b' He Hs Ht Ha' Hb'.
    rewrite parse_iso_iso in Ha', Hb' by assumption.
    injection Ha' as <-. injection Hb' as <-.
    destruct (Z.eq_dec (date s) (date d0)) as [Hsame | Hother].
    + apply (find_slot_no_overlap_canonical store (JStr (day req)) d0
               (duration_minutes req) a b Hcan Hday Hfound e s t He).
      repeat split; assumption.
    + rewrite Forall_forall in Hwin.
      destruct (Hwin e He) as (s' & t' & Hs' & Ht' & Hs9 & Hst & Hte).
      apply parse_iso_naive_timestamp in Hs', Ht'.
      rewrite Hs in Hs'. injection Hs' as <-.
      rewrite Ht in Ht'. injection Ht' as <-.
      pose proof (work_window_seconds s) as [Hwss Hwes].
      unfold overlaps. lia.
Qed.

(** The language model has no part in what a booking does to the
    store. *)
Lemma book_and_confirm_llm_store llm confirm uuid8 store req :
  fst (book_and_confirm_llm llm uuid8 store req)
  = fst (book_and_confirm confirm uuid8 store req).
Proof.
  unfold book_and_confirm_llm, book_and_confirm.
  destruct (find_slot _ _ _) as [[found|]|]; [|reflexivity..].
  cbv zeta. destruct (llm _); reflexivity.
Qed.

Lemma book_each_book_all llm confirm reqs : forall store,
  fst (book_each llm store reqs) = book_all confirm store reqs.
Proof.
  unfold book_all.
  induction reqs as [|r reqs IH]; intros store; [reflexivity|].
  cbn [book_each foldl].
  rewrite <- (book_and_confirm_llm_store llm confirm r.1 store r.2).
  destruct (book_and_confirm_llm llm r.1 store r.2) as [store1 answer].
  cbn [fst]. rewrite <- IH.
  destruct (book_each llm store1 reqs) as [store2 answers]. reflexivity.
Qed.

(** ** The store, the day filter and the responses *)

Lemma filterM_app {A : Type} (p : A -> result bool) (l1 l2 : list A) :
  filterM p (l1 ++ l2)
  = r1 ← filterM p l1; r2 ← filterM p l2; Ok (r1 ++ r2).
Proof.
  induction l1 as [|x l1 IH]; cbn.
  - destruct (filterM p l2); reflexivity.
  - destruct (p x) as [b|]; cbn; [|reflexivity].
    rewrite IH. destruct (filterM p l1) as [r1|]; cbn; [|reflexivity].
    destruct (filterM p l2) as [r2|]; cbn; [|reflexivity].
    destruct b; reflexivity.
Qed.

Lemma to_seconds_inj a b :
  valid_time a -> valid_time b -> to_seconds a = to_seconds b -> a = b.
Proof.
  intros (? & ? & ?) (? & ? & ?) Heq. destruct a, b. unfold to_seconds in Heq.
  cbn in *. f_equal; lia.
Qed.

(** The whole of [get_events_for_day] on a plain date and timestamps that
    parse. *)
Lemma get_events_for_day_filter store rpc n :
  parse_iso (requested_day rpc) = Ok (mkdatetime n 0 0 0) ->
  n < MAXORDINAL ->
  Forall (fun e => exists t, parse_iso (start e) = Ok t) store ->
  get_events_for_day store rpc
  = Ok (RpcResult (PEvents (List.filter (starts_on n) store)) (req_id rpc)).
Proof.
  intros Hs Hn Hall. unfold get_events_for_day.
  fold (requested_day rpc).
  rewrite (parse_iso_truthy _ _ Hs). cbn [negb]. rewrite Hs.
  change (Ok ?a ≫= ?f) with (f a). cbn beta.
  change (timedelta_days 1) with (@Ok Z 86400).
  change (Ok ?a ≫= ?f) with (f a). cbn beta.
  pose proof (parse_iso_valid _ _ Hs) as [[Hlo _] Hvt]. cbn in Hlo.
  rewrite dt_add_one_day by lia.
  change (Ok ?a ≫= ?f) with (f a). cbn beta.
  rewrite (filterM_total _ (starts_on n)); [reflexivity|].
  eapply Forall_impl; [exact Hall|]. intros e [t Ht]. cbn beta.
  unfold starts_on. rewrite Ht.
  change (Ok ?a ≫= ?f) with (f a). cbn beta.
  pose proof (parse_iso_valid _ _ Ht) as [_ Hvt'].
  assert (valid_time (mkdatetime (n + 1) 0 0 0)) as Hv1
    by (unfold valid_time; cbn; lia).
  rewrite dt_leb_seconds by assumption.
  replace (to_seconds (mkdatetime n 0 0 0)) with (n * 86400)
    by (unfold to_seconds; cbn; lia).
  destruct (n * 86400 <=? to_seconds t); [|reflexivity].
  change (Ok ?a ≫= ?f) with (f a). cbn beta.
  rewrite dt_ltb_seconds by assumption.
  replace (to_seconds (mkdatetime (n + 1) 0 0 0)) with ((n + 1) * 86400)
    by (unfold to_seconds; cbn; lia).
  reflexivity.
Qed.

Lemma get_events_for_day_id store rpc :
  response_id (try_except (req_id rpc) (get_events_for_day store rpc))
  = req_id rpc /\
  (error_code (try_except (req_id rpc) (get_events_for_day store rpc))
   = None \/
   error_code (try_except (req_id rpc) (get_events_for_day store rpc))
   = Some (-32602) \/
   error_code (try_except (req_id rpc) (get_events_for_day store rpc))
   = Some (-32000)).
Proof.
  unfold get_events_for_day.
  destruct (negb _); [cbn; auto|].
  destruct (parse_iso _); [|cbn; auto]. cbn [mbind result_bind].
  destruct (timedelta_days 1); [|cbn; auto]. cbn [mbind result_bind].
  destruct (dt_add _ _); [|cbn; auto]. cbn [mbind result_bind].
  destruct (filterM _ _); cbn; auto.
Qed.

Lemma find_free_slot_id store rpc :
  response_id (try_except (req_id rpc) (find_free_slot store rpc))
  = req_id rpc /\
  (error_code (try_except (req_id rpc) (find_free_slot store rpc)) = None \/
   error_code (try_except (req_id rpc) (find_free_slot store rpc))
   = Some (-32602) \/
   error_code (try_except (req_id rpc) (find_free_slot store rpc))
   = Some (-32000)).
Proof.
  unfold find_free_slot.
  destruct (py_int _); [|cbn; auto]. cbn [mbind result_bind].
  destruct (negb _); [cbn; auto|].
  destruct (find_slot _ _ _); cbn; auto.
Qed.

Lemma create_event_id uuid8 store rpc :
  response_id (snd (create_event uuid8 store rpc)) = req_id rpc /\
  (error_code (snd (create_event uuid8 store rpc)) = None \/
   error_code (snd (create_event uuid8 store rpc)) = Some (-32602)).
Proof.
  unfold create_event. destruct (negb _); cbn; auto.
Qed.

Lemma day_events_skip l1 l2 e ws s :
  parse_iso (start e) = Ok s -> date s <> date ws ->
  day_events (l1 ++ e :: l2) ws = day_events (l1 ++ l2) ws.
Proof.
  intros Hs Hne. unfold day_events. rewrite !filterM_app.
  destruct (filterM _ l1) as [r1|]; [|reflexivity]. cbn [mbind result_bind].
  cbn [filterM]. rewrite Hs. cbn [mbind result_bind].
  apply Z.eqb_neq in Hne. rewrite Hne.
  destruct (filterM _ l2); reflexivity.
Qed.

Lemma find_slot_skip l1 l2 e day d0 duration s :
  parse_iso day = Ok d0 ->
  parse_iso (start e) = Ok s -> date s <> date d0 ->
  find_slot (l1 ++ e :: l2) day duration = find_slot (l1 ++ l2) day duration.
Proof.
  intros Hday Hs Hne. unfold find_slot. rewrite Hday.
  cbn [mbind result_bind]. cbv zeta.
  rewrite (day_events_skip l1 l2 e _ s Hs) by (cbn; assumption).
  reflexivity.
Qed.

Lemma starts_on_own_date e t :
  parse_iso (start e) = Ok t -> starts_on (date t) e = true.
Proof.
  intros Ht. unfold starts_on. rewrite Ht.
  pose proof (parse_iso_valid _ _ Ht) as [_ Hv].
  pose proof (seconds_of_date t Hv).
  apply andb_true_iff. rewrite Z.leb_le, Z.ltb_lt. lia.
Qed.

Lemma starts_on_same_date e d0 :
  valid_datetime d0 ->
  starts_on (date d0) e = same_date (work_start d0) e.
Proof.
  intros Hv. unfold starts_on, same_date.
  destruct (parse_iso (start e)) as [t|] eqn:Ht; [|reflexivity].
  pose proof (parse_iso_valid _ _ Ht) as [_ Hvt].
  pose proof (seconds_of_date t Hvt) as Hsec. cbn [date work_start replace_hms].
  destruct (Z.eqb_spec (date t) (date d0)) as [Heq|Hne].
  - rewrite Heq in Hsec. apply andb_true_iff. rewrite Z.leb_le, Z.ltb_lt. lia.
  - apply andb_false_iff.
    destruct (Z.lt_ge_cases (date t) (date d0)).
    + left. apply Z.leb_gt. lia.
    + right. apply Z.ltb_ge. lia.
Qed.

Lemma jsonrpc_PEvent_inv uuid8 store rpc store' e i :
  jsonrpc uuid8 store rpc = (store', RpcResult (PEvent e) i) ->
  method rpc = "create_event" /\ store' = store ++ [e] /\ i = req_id rpc /\
  e = mkevent uuid8 (get (params rpc) "title") (get (params rpc) "start")
        (get (params rpc) "end") (get_or (params rpc) "attendees" (JList []))
        (get_or (params rpc) "created_by" (JStr "client")).
Proof.
  unfold jsonrpc. intros H.
  destruct (String.eqb _ _); [discriminate|].
  destruct (String.eqb _ _).
  { injection H as _ H. apply get_events_for_day_payload in H. tauto. }
  destruct (String.eqb _ _).
  { injection H as _ H. apply find_free_slot_payload in H. tauto. }
  destruct (String.eqb (method rpc) "create_event") eqn:Hm; [|discriminate].
  apply String.eqb_eq in Hm.
  unfold create_event in H. destruct (negb _); [discriminate|].
  injection H as <- <- <-. repeat split; assumption.
Qed.

Lemma EVENTS_start_early e s :
  e ∈ EVENTS -> parse_iso (start e) = Ok s ->
  date s = 739546 ->
  to_seconds s <= to_seconds (work_end (mkdatetime 739546 0 0 0)).
Proof.
  intros He Hs _. unfold EVENTS in He.
  repeat (apply elem_of_cons in He as [-> | He]);
    [ | | apply elem_of_nil in He; contradiction];
    vm_compute in Hs; injection Hs as <-; vm_compute; discriminate.
Qed.

(** ** Strings *)

Lemma length_append s1 s2 :
  String.length (String.append s1 s2)
  = (String.length s1 + String.length s2)%nat.
Proof.
  induction s1 as [|c s1 IH]; [reflexivity|].
  change (String.append (String c s1) s2) with (String c (String.append s1 s2)).
  cbn [String.length Nat.add]. f_equal. exact IH.
Qed.

Lemma length_substring_0 n s :
  String.length (String.substring 0 n s) = Nat.min n (String.length s).
Proof.
  revert s. induction n as [|n IH]; intros s.
  - destruct s; reflexivity.
  - destruct s as [|c s]; cbn [String.substring String.length Nat.min];
      [reflexivity|].
    f_equal. apply IH.
Qed.

Lemma substring_0_all n s :
  (String.length s <= n)%nat -> String.substring 0 n s = s.
Proof.
  revert s. induction n as [|n IH]; intros s Hlen.
  - destruct s; [reflexivity|cbn in Hlen; lia].
  - destruct s as [|c s]; cbn [String.substring]; [reflexivity|].
    f_equal. apply IH. cbn in Hlen. lia.
Qed.

Lemma length_replace_char old new s :
  String.length (replace_char old new s) = String.length s.
Proof.
  induction s as [|c s IH]; cbn [replace_char String.length]; [reflexivity|].
  f_equal. exact IH.
Qed.

Lemma contains_char c a s :
  contains (String c "") (String a s)
  = Ascii.eqb c a || contains (String c "") s.
Proof.
  cbn [contains String.prefix].
  destruct (ascii_dec c a) as [->|Hne].
  - rewrite Ascii.eqb_refl. destruct s; reflexivity.
  - apply Ascii.eqb_neq in Hne. rewrite Hne. reflexivity.
Qed.

Lemma replace_char_removes old new s :
  old <> new -> contains (String old "") (replace_char old new s) = false.
Proof.
  intros Hne. induction s as [|c s IH]; [reflexivity|].
  cbn [replace_char]. rewrite contains_char, IH, orb_false_r.
  destruct (Ascii.eqb c old) eqn:E.
  - apply Ascii.eqb_neq. assumption.
  - rewrite Ascii.eqb_sym. assumption.
Qed.

Lemma replace_char_absent old new s :
  contains (String old "") s = false -> replace_char old new s = s.
Proof.
  induction s as [|c s IH]; [reflexivity|].
  rewrite contains_char. intros H. apply orb_false_iff in H as [Hc Hs].
  cbn [replace_char]. rewrite Ascii.eqb_sym, Hc, IH by assumption. reflexivity.
Qed.

(** ** The client's calls *)

Lemma truthy_JStr_eqb s : truthy (JStr s) = negb (String.eqb s "").
Proof. reflexivity. Qed.

Lemma iso_nonempty t : String.eqb (iso t) "" = false.
Proof.
  apply String.eqb_neq. intros H. pose proof (iso_canonical t) as [Hlen _].
  rewrite H in Hlen. discriminate.
Qed.

(** The answer to the client's [find_free_slot] call. *)
Lemma find_free_slot_call uuid8 store day_iso duration i :
  jsonrpc_call uuid8 "find_free_slot"
    (<["day" := JStr day_iso]> (<["duration_minutes" := JInt duration]> ∅))
    i store
  = (store, [],
     Returns
       (if String.eqb day_iso ""
        then RpcError (-32602) "Missing param 'day'" None (JInt i)
        else
          match find_slot store (JStr day_iso) duration with
          | Raise e => RpcError (-32000) "Server error" (Some e) (JInt i)
          | Ok found => RpcResult (PSlot (slot_dict <$> found)) (JInt i)
          end)).
Proof.
  unfold jsonrpc_call. rewrite jsonrpc_find_free_slot by reflexivity.
  unfold find_free_slot. cbn [params req_id]. unfold get, get_or.
  rewrite lookup_insert_eq, lookup_insert_ne, lookup_insert_eq by discriminate.
  cbn [from_option]. unfold id. cbn [py_int mbind result_bind].
  rewrite truthy_JStr_eqb, negb_involutive.
  destruct (String.eqb day_iso ""); [reflexivity|].
  destruct (find_slot _ _ _); reflexivity.
Qed.

(** The answer to the client's [create_event] call. *)
Lemma create_event_call uuid8 store title_ start_ end__ attendees_ i :
  jsonrpc_call uuid8 "create_event"
    (<["title" := JStr title_]> (<["start" := JStr start_]>
      (<["end" := JStr end__]> (<["attendees" := attendees_]> ∅))))
    i store
  = if String.eqb title_ "" || String.eqb start_ "" || String.eqb end__ ""
    then (store, [],
          Returns (RpcError (-32602) "Missing title/start/end" None (JInt i)))
    else
      let ev := mkevent uuid8 (JStr title_) (JStr start_) (JStr end__)
                  attendees_ (JStr "client") in
      (store ++ [ev], [], Returns (RpcResult (PEvent ev) (JInt i))).
Proof.
  unfold jsonrpc_call. rewrite jsonrpc_create_event by reflexivity.
  unfold create_event. cbn [params req_id]. unfold get, get_or.
  rewrite lookup_insert_eq.
  rewrite (lookup_insert_ne _ "title" "start") by discriminate.
  rewrite lookup_insert_eq.
  rewrite (lookup_insert_ne _ "title" "end") by discriminate.
  rewrite (lookup_insert_ne _ "start" "end") by discriminate.
  rewrite lookup_insert_eq.
  rewrite (lookup_insert_ne _ "title" "attendees") by discriminate.
  rewrite (lookup_insert_ne _ "start" "attendees") by discriminate.
  rewrite (lookup_insert_ne _ "end" "attendees") by discriminate.
  rewrite lookup_insert_eq.
  rewrite (lookup_insert_ne _ "title" "created_by") by discriminate.
  rewrite (lookup_insert_ne _ "start" "created_by") by discriminate.
  rewrite (lookup_insert_ne _ "end" "created_by") by discriminate.
  rewrite (lookup_insert_ne _ "attendees" "created_by") by discriminate.
  rewrite lookup_empty. cbn [from_option]. unfold id.
  rewrite !truthy_JStr_eqb.
  destruct (String.eqb title_ ""), (String.eqb start_ ""),
    (String.eqb end__ ""); reflexivity.
Qed.

(** The whole of a run of [find_free_and_book]. *)
Lemma find_free_and_book_run llm uuid8 day_iso duration title_ attendees_ store :
  find_free_and_book llm uuid8 day_iso duration title_ attendees_ store
  = if String.eqb day_iso "" then
      (store,
       [AskingServer; ServerErrorLine (-32602) "Missing param 'day'" None],
       Returns tt)
    else
      match find_slot store (JStr day_iso) duration with
      | Raise e =>
          (store,
           [AskingServer; ServerErrorLine (-32000) "Server error" (Some e)],
           Returns tt)
      | Ok None => (store, [AskingServer; NoFreeSlot], Returns tt)
      | Ok (Some found) =>
          let sl := slot_dict found in
          if String.eqb title_ "" then
            (store,
             [AskingServer; FoundSlot (PSlot (Some sl));
              CreateErrorLine (-32602) "Missing title/start/end" None],
             Returns tt)
          else
            let ev :=
              mkevent uuid8 (JStr title_) (JStr (slot_start sl))
                (JStr (slot_end sl)) (JList (JStr <$> default [] attendees_))
                (JStr "client") in
            match llm (prompt (JStr title_) (start ev) (end_ ev)
                         (attendees ev)) with
            | Returns msg =>
                (store ++ [ev],
                 [AskingServer; FoundSlot (PSlot (Some sl));
                  EventCreated (PEvent ev); Confirmation msg],
                 Returns tt)
            | Raises e =>
                (store ++ [ev],
                 [AskingServer; FoundSlot (PSlot (Some sl));
                  EventCreated (PEvent ev)],
                 Raises e)
            end
      end.
Proof.
  unfold find_free_and_book.
  unfold mbind at 1. unfold client_bind at 1. cbn [print].
  unfold mbind at 1. unfold client_bind at 1.
  rewrite find_free_slot_call.
  destruct (String.eqb day_iso ""); [reflexivity|].
  destruct (find_slot store (JStr day_iso) duration) as [[found|]|e];
    [|reflexivity|reflexivity].
  cbn [fmap option_fmap option_map falsy].
  unfold mbind at 1. unfold client_bind at 1. cbn [print].
  unfold mbind at 1. unfold client_bind at 1. cbn [lift subscript String.eqb Ascii.eqb Bool.eqb].
  unfold mbind at 1. unfold client_bind at 1. cbn [lift subscript String.eqb Ascii.eqb Bool.eqb].
  unfold mbind at 1. unfold client_bind at 1.
  rewrite create_event_call.
  unfold slot_dict at 1 2. cbn [slot_start slot_end]. rewrite !iso_nonempty.
  rewrite !orb_false_r.
  destruct (String.eqb title_ ""); [reflexivity|].
  cbv zeta.
  unfold mbind at 1. unfold client_bind at 1. cbn [print].
  unfold mbind at 1. unfold client_bind at 1. cbn [lift subscript String.eqb Ascii.eqb Bool.eqb].
  unfold mbind at 1. unfold client_bind at 1. cbn [lift subscript String.eqb Ascii.eqb Bool.eqb].
  unfold mbind at 1. unfold client_bind at 1. cbn [lift subscript String.eqb Ascii.eqb Bool.eqb].
  unfold mbind at 1. unfold client_bind at 1. cbn [lift].
  cbn [start end_ attendees slot_dict slot_start slot_end].
  destruct (llm _); reflexivity.
Qed.

Lemma client_bind_ret {A B : Type} (a : A) (f : A -> client B) store :
  (mret a ≫= f) store = f a store.
Proof.
  unfold mbind, client_bind, mret, client_ret.
  destruct (f a store) as [[store' out] r]. reflexivity.
Qed.

Lemma client_bind_lift {A B : Type} (o : outcome A) (f : A -> client B) store :
  (lift o ≫= f) store
  = match o with
    | Returns a => f a store
    | Raises e => (store, [], Raises e)
    end.
Proof.
  unfold mbind, client_bind, lift. destruct o as [a|e]; [|reflexivity].
  destruct (f a store) as [[store' out] r]. reflexivity.
Qed.

Lemma print_rows_run l store :
  print_rows l store
  = (store, map (fun e => EventRow (start e) (title e)) l, Returns tt).
Proof.
  induction l as [|e l IH]; [reflexivity|].
  cbn [print_rows map]. unfold mbind, client_bind. cbn [print].
  rewrite IH. reflexivity.
Qed.

(** The answer to the client's [get_events_for_day] call is an error or a
    list of events. *)
Lemma get_events_for_day_call uuid8 store day_iso i :
  exists r,
    jsonrpc_call uuid8 "get_events_for_day" (<["day" := JStr day_iso]> ∅) i
      store
    = (store, [], Returns r) /\
    r = try_except (JInt i)
          (get_events_for_day store
             (mkrequest "get_events_for_day" (<["day" := JStr day_iso]> ∅)
                (JInt i))) /\
    match r with
    | RpcError _ _ _ _ | RpcResult (PEvents _) _ => True
    | RpcResult _ _ => False
    end.
Proof.
  eexists. unfold jsonrpc_call.
  rewrite jsonrpc_get_events_for_day by reflexivity.
  split; [reflexivity|]. split; [reflexivity|].
  unfold get_events_for_day.
  destruct (negb _); [exact I|].
  destruct (parse_iso _); [|exact I]. cbn [mbind result_bind].
  destruct (timedelta_days 1); [|exact I]. cbn [mbind result_bind].
  destruct (dt_add _ _); [|exact I]. cbn [mbind result_bind].
  destruct (filterM _ _); exact I.
Qed.

Lemma show_events_run uuid8 store day_iso :
  exists out,
    show_events uuid8 day_iso store = (store, out, Returns tt).
Proof.
  unfold show_events.
  destruct (get_events_for_day_call uuid8 store day_iso 3)
    as (r & Hcall & _ & Hshape).
  unfold mbind at 1. unfold client_bind at 1. rewrite Hcall.
  destruct r as [[l|sl|e] i|code msg data i]; try contradiction.
  - unfold mbind, client_bind. cbn [print]. rewrite print_rows_run. eauto.
  - cbn [print]. eauto.
Qed.

(** ** The digits of a duration *)

Lemma is_digit_digit c : is_digit c = true -> exists d, digit c = Some d /\ 0 <= d.
Proof.
  unfold is_digit, digit, code. intros H. rewrite H.
  apply andb_true_iff in H as [H _]. apply Z.leb_le in H. eexists. split; [reflexivity|lia].
Qed.

Lemma is_digit_not_space c : is_digit c = true -> is_space c = false.
Proof.
  unfold is_digit, is_space, code. intros H.
  apply andb_true_iff in H as [H1 H2]. apply Z.leb_le in H1, H2.
  repeat (apply orb_false_iff; split); try (apply Z.eqb_neq; lia).
  apply andb_false_iff. right. apply Z.leb_gt. lia.
Qed.

Lemma lstrip_digits l : Forall (fun c => is_digit c = true) l -> lstrip l = l.
Proof.
  intros H. destruct H as [|c l Hc _]; [reflexivity|].
  cbn. rewrite (is_digit_not_space _ Hc). reflexivity.
Qed.

Lemma strip_digits l : Forall (fun c => is_digit c = true) l -> strip l = l.
Proof.
  intros H. unfold strip. rewrite (lstrip_digits l H).
  rewrite lstrip_digits by (apply Forall_rev; assumption).
  apply rev_involutive.
Qed.

Lemma int_digits_digits l : forall acc after,
  Forall (fun c => is_digit c = true) l -> 0 <= acc ->
  l <> [] \/ after = true ->
  exists n, int_digits l acc after = Some n /\ 0 <= n.
Proof.
  induction l as [|c l IH]; intros acc after Hall Hacc Hne.
  - destruct Hne as [Hne | ->]; [contradiction|]. cbn. eauto.
  - apply Forall_cons in Hall as [Hc Hall].
    destruct (is_digit_digit _ Hc) as (d & Hd & Hd0).
    cbn. rewrite Hd. apply IH; [assumption|lia|right; reflexivity].
Qed.

Lemma take_while_all p s :
  Forall (fun c => p c = true) (list_ascii_of_string (take_while p s)).
Proof.
  induction s as [|c s IH]; cbn; [constructor|].
  destruct (p c) eqn:E; cbn; constructor; assumption.
Qed.

Lemma count_digits_all l :
  Forall (fun c => is_digit c = true) l -> count_digits l = Z.of_nat (length l).
Proof.
  unfold count_digits. intros Hall. f_equal.
  induction Hall as [|c l Hc _ IH]; [reflexivity|].
  destruct (is_digit_digit _ Hc) as (d & Hd & _).
  cbn [List.filter]. rewrite Hd. cbn [length]. f_equal. exact IH.
Qed.

Lemma length_list_ascii_of_string s :
  length (list_ascii_of_string s) = String.length s.
Proof. induction s as [|c s IH]; cbn; congruence. Qed.

(** [int] on a run of digits: the number, unless the digits are more than
    4300. *)
Lemma int_of_string_digits s :
  String.eqb (take_while is_digit s) "" = false ->
  if 4300 <? Z.of_nat (String.length (take_while is_digit s))
  then int_of_string (take_while is_digit s) = Raise ValueError
  else exists n, int_of_string (take_while is_digit s) = Ok n /\ 0 <= n.
Proof.
  intros Hne. unfold int_of_string.
  pose proof (take_while_all is_digit s) as Hall.
  rewrite (strip_digits _ Hall), (count_digits_all _ Hall).
  rewrite length_list_ascii_of_string.
  destruct (list_ascii_of_string (take_while is_digit s)) as [|c l] eqn:El.
  - apply String.eqb_neq in Hne. exfalso. apply Hne.
    rewrite <- (string_of_list_ascii_of_string (take_while is_digit s)), El.
    reflexivity.
  - pose proof Hall as Hall'. apply Forall_cons in Hall' as [Hc _].
    assert (is_char c "-" = false /\ is_char c "+" = false) as [-> ->].
    { unfold is_digit, code in Hc. apply andb_true_iff in Hc as [H1 H2].
      apply Z.leb_le in H1, H2. unfold is_char.
      split; apply Ascii.eqb_neq; intros ->; cbn in H1, H2; lia. }
    destruct (int_digits_digits (c :: l) 0 false Hall ltac:(lia))
      as (n & Hn & Hn0); [left; discriminate|].
    rewrite Hn.
    destruct (4300 <? Z.of_nat (String.length (take_while is_digit s)));
      eauto.
Qed.

Lemma search_minutes_digits s : forall d,
  search_minutes s = Some d ->
  exists s', d = take_while is_digit s' /\ String.eqb d "" = false.
Proof.
  induction s as [|c s IH]; intros d; cbn [search_minutes];
    unfold match_minutes.
  - cbn. discriminate.
  - destruct (String.eqb (take_while is_digit (String c s)) "") eqn:E;
      [apply IH|].
    destruct (String.prefix _ _); [|apply IH].
    intros [= <-]. exists (String c s). split; [reflexivity|exact E].
Qed.

(** ** The command line *)

Lemma lower_char_idempotent c : lower_char (lower_char c) = lower_char c.
Proof.
  destruct c as [[] [] [] [] [] [] [] []]; vm_compute; reflexivity.
Qed.

Lemma lower_idempotent s : lower (lower s) = lower s.
Proof.
  induction s as [|c s IH]; cbn; [reflexivity|].
  rewrite lower_char_idempotent, IH. reflexivity.
Qed.

Lemma match_date_length s d : match_date s = Some d -> String.length d = 10%nat.
Proof.
  unfold match_date.
  repeat (destruct s as [|? s]; [discriminate|]).
  destruct (_ && _); [|discriminate]. intros [= <-]. reflexivity.
Qed.

Lemma search_date_length s : forall d,
  search_date s = Some d -> String.length d = 10%nat.
Proof.
  induction s as [|c s IH]; intros d; cbn [search_date].
  - cbn. discriminate.
  - destruct (match_date (String c s)) as [d'|] eqn:E; [|apply IH].
    intros [= <-]. eapply match_date_length. eassumption.
Qed.

Lemma date_isoformat_length n : String.length (date_isoformat n) = 10%nat.
Proof.
  unfold date_isoformat. destruct (ord2ymd n) as [[y m] d]. reflexivity.
Qed.

Lemma tomorrow_run {B : Type} today (f : string -> client B) store :
  1 <= today ->
  (lift_result (tomorrow ← date_plus_days today 1;
                Ok (date_isoformat tomorrow)) ≫= f) store
  = if today <? MAXORDINAL then f (date_isoformat (today + 1)) store
    else (store, [], Raises UncaughtOverflowError).
Proof.
  intros Hlo. unfold lift_result, date_plus_days.
  change (timedelta_days 1) with (@Ok Z 86400). cbn [mbind result_bind].
  replace (0 <? today + 1) with true by (symmetry; apply Z.ltb_lt; lia).
  cbn [andb].
  replace (today + 1 <=? MAXORDINAL) with (today <? MAXORDINAL)
    by (destruct (Z.ltb_spec today MAXORDINAL);
        symmetry; [apply Z.leb_le|apply Z.leb_gt]; lia).
  rewrite client_bind_lift.
  destruct (today <? MAXORDINAL); reflexivity.
Qed.

Lemma length_take_while p s :
  (String.length (take_while p s) <= String.length s)%nat.
Proof.
  induction s as [|c s IH]; cbn; [lia|]. destruct (p c); cbn; lia.
Qed.

Lemma search_minutes_length s : forall d,
  search_minutes s = Some d -> (String.length d <= String.length s)%nat.
Proof.
  induction s as [|c s IH]; intros d; cbn [search_minutes];
    unfold match_minutes.
  - cbn. discriminate.
  - assert (Hrec : search_minutes s = Some d ->
                   (String.length d <= String.length (String c s))%nat)
      by (intros H; apply IH in H; cbn [String.length]; lia).
    destruct (String.eqb (take_while is_digit (String c s)) "");
      [exact Hrec|].
    destruct (String.prefix _ _); [|exact Hrec].
    intros [= <-]. exact (length_take_while is_digit (String c s)).
Qed.

Lemma length_lower s : String.length (lower s) = String.length s.
Proof. induction s as [|c s IH]; cbn; congruence. Qed.

(** The duration of a command: the digits convert to a number that is not
    negative, unless there are more than 4300 of them. *)
Lemma duration_run {B : Type} cmd (f : Z -> client B) store :
  (exists dur, 0 <= dur /\
     ((match search_minutes cmd with
       | Some digits => lift_result (int_of_string digits)
       | None => (mret 60 : client Z)
       end) ≫= f) store = f dur store) \/
  (4300 < Z.of_nat (String.length cmd) /\
   ((match search_minutes cmd with
     | Some digits => lift_result (int_of_string digits)
     | None => (mret 60 : client Z)
     end) ≫= f) store = (store, [], Raises UncaughtValueError)).
Proof.
  destruct (search_minutes cmd) as [digits|] eqn:E.
  - pose proof (search_minutes_length _ _ E) as Hlen.
    apply search_minutes_digits in E as (s' & -> & Hne).
    pose proof (int_of_string_digits s' Hne) as Hint.
    destruct (Z.ltb_spec 4300
                (Z.of_nat (String.length (take_while is_digit s'))))
      as [Hlong|Hshort].
    + right. split; [lia|].
      unfold lift_result. rewrite Hint, client_bind_lift. reflexivity.
    + left. destruct Hint as (n & Hn & Hn0).
      exists n. split; [assumption|].
      unfold lift_result. rewrite Hn, client_bind_lift. reflexivity.
  - left. exists 60. split; [lia|]. apply client_bind_ret.
Qed.

Local Ltac long_argument :=
  right; right; right; right;
  split; [eexists; split; [reflexivity|]; lia | reflexivity].

(** What a run of [main] comes to: one line printed, a call of
    [show_events], a call of [find_free_and_book] for a day of ten
    characters, a duration that is not negative and one of the two titles,
    the overflow of the day after 9999-12-31, or the refusal of a duration
    of more than 4300 digits. *)
Lemma main_cases llm uuid8 today argv store :
  1 <= today ->
  (exists p, main llm uuid8 today argv store = (store, [p], Returns tt)) \/
  (exists d, main llm uuid8 today argv store = show_events uuid8 d store) \/
  (exists day_ dur title_,
     String.length day_ = 10%nat /\ 0 <= dur /\
     (title_ = "Quick MCP Booking" \/ title_ = "Booked by user request") /\
     main llm uuid8 today argv store
     = find_free_and_book llm uuid8 day_ dur title_ None store) \/
  ((today = MAXORDINAL \/ MAXORDINAL < today) /\
   main llm uuid8 today argv store
   = (store, [], Raises UncaughtOverflowError)) \/
  (exists arg, argv !! 1%nat = Some arg /\
     4300 < Z.of_nat (String.length arg)) /\
  main llm uuid8 today argv store = (store, [], Raises UncaughtValueError).
Proof.
  intros Hlo. unfold main.
  destruct argv as [|prog [|arg rest]]; [left; eexists; reflexivity..|].
  cbv zeta. set (cmd := lower arg).
  assert (Hcmd : String.length cmd = String.length arg)
    by apply length_lower.
  destruct (contains "free" cmd || contains "find" cmd).
  { destruct (search_date cmd) as [d|] eqn:Hd.
    - rewrite client_bind_ret.
      destruct (duration_run cmd
                  (fun dur => find_free_and_book llm uuid8 d dur
                                "Quick MCP Booking" None) store)
        as [(dur & Hdur & ->) | [Hlong ->]]; [|long_argument].
      right; right; left. exists d, dur, "Quick MCP Booking".
      split; [eapply search_date_length; eassumption|]. auto.
    - destruct (contains "tomorrow" cmd).
      + rewrite tomorrow_run by assumption.
        destruct (Z.ltb_spec today MAXORDINAL).
        * destruct (duration_run cmd
                      (fun dur => find_free_and_book llm uuid8
                                    (date_isoformat (today + 1)) dur
                                    "Quick MCP Booking" None) store)
            as [(dur & Hdur & ->) | [Hlong ->]]; [|long_argument].
          right; right; left.
          exists (date_isoformat (today + 1)), dur, "Quick MCP Booking".
          split; [apply date_isoformat_length|]. auto.
        * right; right; right; left. split; [lia|reflexivity].
      + rewrite client_bind_ret.
        destruct (duration_run cmd
                    (fun dur => find_free_and_book llm uuid8
                                  (date_isoformat today) dur
                                  "Quick MCP Booking" None) store)
          as [(dur & Hdur & ->) | [Hlong ->]]; [|long_argument].
        right; right; left.
        exists (date_isoformat today), dur, "Quick MCP Booking".
        split; [apply date_isoformat_length|]. auto. }
  destruct (contains "book" cmd || contains "schedule" cmd).
  { destruct (search_date cmd) as [d|] eqn:Hd.
    - right; right; left. exists d, 60, "Booked by user request".
      split; [eapply search_date_length; eassumption|].
      split; [lia|]. auto.
    - destruct (contains "tomorrow" cmd); [|left; eexists; reflexivity].
      rewrite tomorrow_run by assumption.
      destruct (Z.ltb_spec today MAXORDINAL).
      + right; right; left.
        exists (date_isoformat (today + 1)), 60, "Booked by user request".
        split; [apply date_isoformat_length|]. split; [lia|]. auto.
      + right; right; right; left. split; [lia|reflexivity]. }
  destruct (contains "show" cmd || contains "events" cmd).
  { right; left. destruct (search_date cmd); eexists; reflexivity. }
  left. eexists. reflexivity.
Qed.

(** * The claims *)

(** ** [find_free_slot] *)

(** C3 (concrete case): on the initial calendar (10:00-10:30 and
    15:00-16:00 on 2025-10-22) a request for 60 minutes on 2025-10-22 is
    answered with the slot 09:00-10:00, and the store is left as it was. *)
Theorem find_free_slot_concrete_case uuid8 :
  jsonrpc uuid8 EVENTS (find_free_slot_request "2025-10-22" 60)
  = (EVENTS,
     RpcResult
       (PSlot (Some (mkslot "2025-10-22T09:00:00" "2025-10-22T10:00:00")))
       (JInt 1)).
Proof. reflexivity. Qed.

(** C6, as the code has it: in a store whose starts are all naive
    timestamps to the second, for a day given as such a timestamp on which
    no stored event starts, and a positive duration, [find_free_slot]
    answers with the slot that starts at 09:00 and ends [duration] minutes
    later if [duration <= 480], and with a null result (not an error)
    otherwise. *)
Theorem find_free_slot_empty_day uuid8 store rpc d0 duration :
  method rpc = "find_free_slot" ->
  naive_timestamp (requested_day rpc) d0 ->
  requested_duration rpc = Ok duration ->
  Forall naive_start store ->
  (forall e s, e ∈ store -> naive_timestamp (start e) s -> date s <> date d0) ->
  0 < duration ->
  let stop := mkdatetime (date d0) (9 + duration / 60) (duration mod 60) 0 in
  jsonrpc uuid8 store rpc
  = (store,
     RpcResult
       (PSlot (if duration <=? 480
               then Some (slot_dict (work_start d0, stop))
               else None))
       (req_id rpc))
  /\ to_seconds stop = to_seconds (work_start d0) + duration * 60
  /\ to_seconds (work_end d0) = to_seconds (work_start d0) + 480 * 60.
Proof.
  intros Hm Hday Hdur Hnaive Hnone Hpos stop.
  apply parse_iso_naive_timestamp in Hday.
  assert (Hempty : day_events store (work_start d0) = Ok []).
  { apply day_events_empty_iff. apply Forall_forall. intros e He.
    pose proof (proj1 (Forall_forall _ _) Hnaive e He) as [s Hs].
    exists s. split; [apply parse_iso_naive_timestamp; exact Hs|].
    exact (Hnone e s He Hs). }
  split; [|unfold stop, work_end, work_start, to_seconds; cbn;
           split; [Z.div_mod_to_equations|]; lia].
  rewrite (jsonrpc_find_free_slot _ _ _ Hm).
  rewrite (find_free_slot_eq _ _ _ _ Hday Hdur).
  unfold find_slot. rewrite Hday.
  change (Ok d0 ≫= ?f) with (f d0). cbn beta zeta.
  fold (work_start d0). rewrite Hempty.
  change (Ok [] ≫= ?f) with (f (@nil event)). cbn beta.
  cbn [sorted_by_start foldr scan].
  change (Ok (None, work_start d0) ≫= ?f) with (f (None, work_start d0)).
  cbn beta iota.
  fold (work_end d0).
  replace (total_seconds_between (work_end d0) (work_start d0))
    with (480 * 60)
    by (unfold total_seconds_between, work_end, work_start; cbn; lia).
  pose proof (parse_iso_valid _ _ Hday) as Hv.
  destruct (duration <=? 480) eqn:Hfit.
  - apply Z.leb_le in Hfit.
    replace (duration * 60 <=? 480 * 60) with true
      by (symmetry; apply Z.leb_le; lia).
    unfold slot_at. rewrite timedelta_minutes_ok by lia.
    change (Ok (duration * 60) ≫= ?f) with (f (duration * 60)). cbn beta.
    rewrite dt_add_work_start by (assumption || lia). reflexivity.
  - apply Z.leb_gt in Hfit.
    replace (duration * 60 <=? 480 * 60) with false
      by (symmetry; apply Z.leb_gt; lia).
    reflexivity.
Qed.

Lemma find_free_slot_empty_day_witness :
  jsonrpc "" EVENTS (find_free_slot_request "2025-10-23" 60)
  = (EVENTS,
     RpcResult
       (PSlot (Some (mkslot "2025-10-23T09:00:00" "2025-10-23T10:00:00")))
       (JInt 1))
  /\ to_seconds (mkdatetime 739547 10 0 0)
     = to_seconds (work_start (mkdatetime 739547 0 0 0)) + 60 * 60
  /\ to_seconds (work_end (mkdatetime 739547 0 0 0))
     = to_seconds (work_start (mkdatetime 739547 0 0 0)) + 480 * 60.
Proof.
  apply (find_free_slot_empty_day "" EVENTS
           (find_free_slot_request "2025-10-23" 60)
           (mkdatetime 739547 0 0 0) 60);
    [reflexivity | apply parse_iso_naive_timestamp; reflexivity | reflexivity
    | apply naive_events_starts; exact EVENTS_naive | | lia].
  intros e s He Hs. apply parse_iso_naive_timestamp in Hs.
  unfold EVENTS in He.
  repeat (apply elem_of_cons in He as [-> | He]);
    [ | | apply elem_of_nil in He; contradiction];
    vm_compute in Hs; injection Hs as <-; vm_compute; discriminate.
Defined.

(** C6 fails as stated.  [create_event] stores a start that is not a
    timestamp; no stored event starts on 2025-10-23, and yet a request for
    60 minutes on that day is answered with a server error: the day filter
    reads the start of every stored event, whatever its day. *)
Lemma find_free_slot_empty_day_can_fail :
  let store :=
    fst (jsonrpc "a1b2c3d4" EVENTS
           (create_event_request "Lunch" "tomorrow noon" "tomorrow 13:00" [])) in
  (forall e s, e ∈ store -> parse_iso (start e) = Ok s -> date s <> 739547) /\
  fromisoformat "2025-10-23" = Ok (mkdatetime 739547 0 0 0) /\
  snd (jsonrpc "" store (find_free_slot_request "2025-10-23" 60))
  = RpcError (-32000) "Server error" (Some ValueError) (JInt 1).
Proof.
  cbv zeta. split; [|split; reflexivity].
  intros e s He Hs. vm_compute in He.
  repeat (apply elem_of_cons in He as [-> | He]);
    [ | | | apply elem_of_nil in He; contradiction];
    vm_compute in Hs; try discriminate Hs;
    injection Hs as <-; vm_compute; discriminate.
Qed.

(** Earliest fit, the part that holds on every store: for a positive
    duration, when [find_free_slot] answers with a slot, the slot is the
    printed pair of datetimes that the search found; it lasts exactly the
    requested number of minutes, and no free slot of that duration (inside
    the working window 09:00-17:00 of the day, meeting no event of the
    day) starts before it. *)
Lemma find_free_slot_earliest_fit uuid8 store rpc d0 duration store' sl i :
  method rpc = "find_free_slot" ->
  parse_iso (requested_day rpc) = Ok d0 ->
  requested_duration rpc = Ok duration ->
  0 < duration ->
  jsonrpc uuid8 store rpc = (store', RpcResult (PSlot (Some sl)) i) ->
  exists a b,
    find_slot store (requested_day rpc) duration = Ok (Some (a, b)) /\
    sl = slot_dict (a, b) /\
    total_seconds_between b a = duration * 60 /\
    forall c,
      free_slot store (work_start d0) (work_end d0) duration c ->
      to_seconds a <= to_seconds c.
Proof.
  intros Hm Hday Hdur Hd H.
  rewrite (jsonrpc_find_free_slot _ _ _ Hm) in H.
  rewrite (find_free_slot_eq _ _ _ _ Hday Hdur) in H.
  destruct (find_slot store (requested_day rpc) duration)
    as [[[a b]|]|] eqn:Hfound; try discriminate.
  injection H as _ <- _.
  exists a, b. split; [reflexivity|]. split; [reflexivity|]. split.
  - rewrite total_seconds_between_eq.
    pose proof (find_slot_duration _ _ _ _ _ Hfound). lia.
  - intros c. apply (find_slot_lower_bound _ _ _ _ _ _ c Hd Hday Hfound).
Qed.

Example find_free_slot_earliest_fit_on_EVENTS :
  exists a b,
    find_slot EVENTS (requested_day (find_free_slot_request "2025-10-22" 60))
      60 = Ok (Some (a, b)) /\
    mkslot "2025-10-22T09:00:00" "2025-10-22T10:00:00" = slot_dict (a, b) /\
    total_seconds_between b a = 60 * 60 /\
    forall c,
      free_slot EVENTS (work_start (mkdatetime 739546 0 0 0))
        (work_end (mkdatetime 739546 0 0 0)) 60 c ->
      to_seconds a <= to_seconds c.
Proof.
  apply (find_free_slot_earliest_fit "" EVENTS
           (find_free_slot_request "2025-10-22" 60)
           (mkdatetime 739546 0 0 0) 60 EVENTS
           (mkslot "2025-10-22T09:00:00" "2025-10-22T10:00:00") (JInt 1));
    [reflexivity | reflexivity | reflexivity | lia | reflexivity].
Qed.

(** C2, where the code breaks it.  (1) After an event 12:00-13:00 has been
    created on 2025-10-22 with a blank instead of [T] in its timestamps, a
    request for 90 minutes on that day is answered with 09:00-10:30.  That
    is not a free slot, it overlaps the event 10:00-10:30; free slots of
    90 minutes exist and the least of them starts at 10:30.  (2) After an
    event 18:00-19:00 has been created on 2025-10-23, a request for 500
    minutes on that day is answered with 09:00-17:20 although no free slot
    of 500 minutes exists. *)
Theorem find_free_slot_not_minimum :
  let store :=
    fst (jsonrpc "a1b2c3d4" EVENTS
           (create_event_request "Lunch" "2025-10-22 12:00:00"
              "2025-10-22 13:00:00" [])) in
  let d0 := mkdatetime 739546 0 0 0 in
  let free := free_slot store (work_start d0) (work_end d0) 90 in
  let store' :=
    fst (jsonrpc "a1b2c3d4" EVENTS
           (create_event_request "Dinner" "2025-10-23T18:00:00"
              "2025-10-23T19:00:00" [])) in
  let d0' := mkdatetime 739547 0 0 0 in
  (parse_iso (JStr "2025-10-22") = Ok d0 /\
   jsonrpc "" store (find_free_slot_request "2025-10-22" 90)
   = (store,
      RpcResult
        (PSlot (Some (mkslot "2025-10-22T09:00:00" "2025-10-22T10:30:00")))
        (JInt 1)) /\
   find_slot store (JStr "2025-10-22") 90
   = Ok (Some (mkdatetime 739546 9 0 0, mkdatetime 739546 10 30 0)) /\
   ~ free (mkdatetime 739546 9 0 0) /\
   free (mkdatetime 739546 10 30 0) /\
   forall c, free c ->
     to_seconds (mkdatetime 739546 10 30 0) <= to_seconds c) /\
  (parse_iso (JStr "2025-10-23") = Ok d0' /\
   jsonrpc "" store' (find_free_slot_request "2025-10-23" 500)
   = (store',
      RpcResult
        (PSlot (Some (mkslot "2025-10-23T09:00:00" "2025-10-23T17:20:00")))
        (JInt 1)) /\
   forall c, ~ free_slot store' (work_start d0') (work_end d0') 500 c).
Proof.
  intros store d0 free store' d0'. split.
  - assert (Hstore : store =
      EVENTS ++ [mkevent "a1b2c3d4" (JStr "Lunch")
                   (JStr "2025-10-22 12:00:00") (JStr "2025-10-22 13:00:00")
                   (JList []) (JStr "client")])
      by (vm_compute; reflexivity).
    assert (He1 : forall c, free c ->
              ~ overlaps (to_seconds c) (to_seconds c + 90 * 60)
                  (to_seconds (mkdatetime 739546 10 0 0))
                  (to_seconds (mkdatetime 739546 10 30 0))).
    { intros c (_ & _ & Hfree).
      apply (Hfree (mkevent "e1" (JStr "Weekly team sync")
                      (JStr "2025-10-22T10:00:00")
                      (JStr "2025-10-22T10:30:00")
                      (JList [JStr "alice@example.com"]) (JStr "system"))).
      - rewrite Hstore. left.
      - repeat split. }
    split; [reflexivity|]. split; [vm_compute; reflexivity|].
    split; [vm_compute; reflexivity|]. split; [|split].
    + intros Hfree. apply He1 in Hfree. apply Hfree.
      unfold overlaps. vm_compute. split; reflexivity.
    + split; [vm_compute; discriminate|]. split; [vm_compute; discriminate|].
      intros e s t He (Hs & Ht & _). rewrite Hstore in He.
      unfold EVENTS in He. cbn [app] in He.
      repeat (apply elem_of_cons in He as [-> | He]);
        [ | | | apply elem_of_nil in He; contradiction];
        vm_compute in Hs, Ht; injection Hs as <-; injection Ht as <-;
        unfold overlaps; vm_compute; intros [H1 H2]; discriminate.
    + intros c Hc. pose proof (He1 c Hc) as Hno.
      destruct Hc as (Hlo & _ & _).
      unfold overlaps, work_start, d0, to_seconds in *.
      cbn in Hlo, Hno |- *. lia.
  - split; [reflexivity|]. split; [vm_compute; reflexivity|].
    intros c (Hlo & Hhi & _).
    unfold work_start, work_end, d0', to_seconds in *.
    cbn in Hlo, Hhi. lia.
Qed.

(** C1, where the code breaks it.  (1) After an event 18:00-19:00 has been
    created on 2025-10-23, a request for 500 minutes on that day is
    answered with 09:00-17:20, which ends after 17:00 (no slot of 500
    minutes fits in the 480 minutes of the window).  (2) After an event
    12:00-13:00 has been created on 2025-10-22 with its timestamps written
    with a blank instead of [T], a request for 90 minutes on that day is
    answered with 09:00-10:30, which overlaps the event 10:00-10:30: the
    sort compares the start strings, and the blank sorts before [T]. *)
Theorem find_free_slot_invalid_slots :
  let store1 :=
    fst (jsonrpc "a1b2c3d4" EVENTS
           (create_event_request "Dinner" "2025-10-23T18:00:00"
              "2025-10-23T19:00:00" [])) in
  let d1 := mkdatetime 739547 0 0 0 in
  let store2 :=
    fst (jsonrpc "a1b2c3d4" EVENTS
           (create_event_request "Lunch" "2025-10-22 12:00:00"
              "2025-10-22 13:00:00" [])) in
  let d2 := mkdatetime 739546 0 0 0 in
  (fromisoformat "2025-10-23" = Ok d1 /\
   find_slot store1 (JStr "2025-10-23") 500
   = Ok (Some (work_start d1, mkdatetime 739547 17 20 0)) /\
   to_seconds (work_end d1) < to_seconds (mkdatetime 739547 17 20 0) /\
   jsonrpc "" store1 (find_free_slot_request "2025-10-23" 500)
   = (store1,
      RpcResult
        (PSlot (Some (mkslot "2025-10-23T09:00:00" "2025-10-23T17:20:00")))
        (JInt 1))) /\
  (find_slot store2 (JStr "2025-10-22") 90
   = Ok (Some (work_start d2, mkdatetime 739546 10 30 0)) /\
   fromisoformat "2025-10-22T10:00:00" = Ok (mkdatetime 739546 10 0 0) /\
   fromisoformat "2025-10-22T10:30:00" = Ok (mkdatetime 739546 10 30 0) /\
   overlaps (to_seconds (work_start d2))
     (to_seconds (mkdatetime 739546 10 30 0))
     (to_seconds (mkdatetime 739546 10 0 0))
     (to_seconds (mkdatetime 739546 10 30 0)) /\
   jsonrpc "" store2 (find_free_slot_request "2025-10-22" 90)
   = (store2,
      RpcResult
        (PSlot (Some (mkslot "2025-10-22T09:00:00" "2025-10-22T10:30:00")))
        (JInt 1))).
Proof. cbv zeta. unfold overlaps. repeat split. Qed.

(** C4, as the code has it: a duration that is zero or negative is not
    rejected.  On a store whose timestamps are naive timestamps to the
    second, for a day given as such a timestamp, and as long as 09:00 of
    the day plus the duration is still a date the library can represent,
    [find_free_slot] runs the same search and answers with a result, never
    with an error: null, or a slot whose end is its start plus the
    duration, hence not after its start. *)
Theorem find_free_slot_nonpositive_duration uuid8 store rpc d0 duration :
  method rpc = "find_free_slot" ->
  naive_timestamp (requested_day rpc) d0 ->
  requested_duration rpc = Ok duration ->
  Forall naive_event store ->
  duration <= 0 ->
  86400 <= to_seconds (work_start d0) + duration * 60 ->
  exists found,
    find_slot store (requested_day rpc) duration = Ok found /\
    jsonrpc uuid8 store rpc
    = (store, RpcResult (PSlot (slot_dict <$> found)) (req_id rpc)) /\
    forall a b, found = Some (a, b) ->
      to_seconds b = to_seconds a + duration * 60 /\
      to_seconds b <= to_seconds a.
Proof.
  intros Hm Hday Hdur Hall Hd Hlo.
  apply parse_iso_naive_timestamp in Hday. apply naive_events_parse in Hall.
  destruct (find_slot_total_nonpositive store _ d0 duration Hday Hall Hd Hlo)
    as [found Hfound].
  exists found. split; [assumption|]. split.
  - rewrite (jsonrpc_find_free_slot _ _ _ Hm).
    rewrite (find_free_slot_eq _ _ _ _ Hday Hdur), Hfound. reflexivity.
  - intros a b ->. apply find_slot_duration in Hfound. lia.
Qed.

Lemma find_free_slot_nonpositive_duration_witness :
  exists found,
    find_slot EVENTS
      (requested_day (find_free_slot_request "2025-10-22" (-60))) (-60)
    = Ok found /\
    jsonrpc "" EVENTS (find_free_slot_request "2025-10-22" (-60))
    = (EVENTS, RpcResult (PSlot (slot_dict <$> found)) (JInt 1)) /\
    forall a b, found = Some (a, b) ->
      to_seconds b = to_seconds a + (-60) * 60 /\
      to_seconds b <= to_seconds a.
Proof.
  apply (find_free_slot_nonpositive_duration "" EVENTS
           (find_free_slot_request "2025-10-22" (-60))
           (mkdatetime 739546 0 0 0) (-60));
    [reflexivity | apply parse_iso_naive_timestamp; reflexivity | reflexivity
    | exact EVENTS_naive | lia | vm_compute; discriminate].
Defined.

(** C4 fails as stated: on the initial calendar a request for 0 minutes is
    answered with the empty slot 09:00-09:00, not with an error. *)
Lemma find_free_slot_zero_duration_accepted :
  snd (jsonrpc "" EVENTS (find_free_slot_request "2025-10-22" 0))
  = RpcResult
      (PSlot (Some (mkslot "2025-10-22T09:00:00" "2025-10-22T09:00:00")))
      (JInt 1)
  /\ is_error (snd (jsonrpc "" EVENTS (find_free_slot_request "2025-10-22" 0)))
     = false.
Proof. split; reflexivity. Qed.

(** C9 (default duration): a [find_free_slot] request without the
    parameter [duration_minutes] is served as the same request with
    [duration_minutes = 60]: the conversion of the duration does not raise
    and yields 60.  A [BookRequest] built without a duration has
    [duration_minutes = 60], and [book_and_confirm] serves it as the one
    built with 60. *)
Theorem duration_defaults_to_60 uuid8 confirm store rpc day_ title_ attendees_ :
  method rpc = "find_free_slot" ->
  params rpc !! "duration_minutes" = None ->
  requested_duration rpc = Ok 60 /\
  jsonrpc uuid8 store rpc
  = jsonrpc uuid8 store
      (mkrequest (method rpc)
         (<["duration_minutes" := JInt 60]> (params rpc)) (req_id rpc)) /\
  duration_minutes (BookRequest_init day_ None title_ attendees_) = 60 /\
  book_and_confirm confirm uuid8 store
    (BookRequest_init day_ None title_ attendees_)
  = book_and_confirm confirm uuid8 store
      (BookRequest_init day_ (Some 60) title_ attendees_).
Proof.
  intros Hm Hnone. split; [|split; [|split; reflexivity]].
  - unfold requested_duration, get_or. rewrite Hnone. reflexivity.
  - rewrite !jsonrpc_find_free_slot by (cbn; assumption).
    unfold find_free_slot. cbn [params req_id]. unfold get, get_or.
    rewrite Hnone, lookup_insert_eq, lookup_insert_ne by discriminate.
    reflexivity.
Qed.

Lemma duration_defaults_to_60_witness :
  let rpc := mkrequest "find_free_slot" (<["day" := JStr "2025-10-22"]> ∅)
               (JInt 1) in
  requested_duration rpc = Ok 60 /\
  jsonrpc "" EVENTS rpc
  = jsonrpc "" EVENTS
      (mkrequest (method rpc)
         (<["duration_minutes" := JInt 60]> (params rpc)) (req_id rpc)) /\
  duration_minutes (BookRequest_init "2025-10-22" None None None) = 60 /\
  book_and_confirm (fun _ => "") "" EVENTS
    (BookRequest_init "2025-10-22" None None None)
  = book_and_confirm (fun _ => "") "" EVENTS
      (BookRequest_init "2025-10-22" (Some 60) None None).
Proof.
  cbv zeta.
  apply (duration_defaults_to_60 "" (fun _ => "") EVENTS
           (mkrequest "find_free_slot" (<["day" := JStr "2025-10-22"]> ∅)
              (JInt 1)) "2025-10-22" None None);
    reflexivity.
Defined.

(** ** [get_events_for_day] *)

(** C7, as the code has it: for a day given as a naive timestamp that
    denotes a midnight (a plain date) before 9999-12-31, and a store in
    which every start is a naive timestamp to the second,
    [get_events_for_day] answers with exactly the stored events that start
    at or after that midnight and before the next one, in store order (the
    empty list when there is none), and leaves the store as it was. *)
Theorem get_events_for_day_exact uuid8 store rpc n :
  method rpc = "get_events_for_day" ->
  naive_timestamp (requested_day rpc) (mkdatetime n 0 0 0) ->
  n < MAXORDINAL ->
  Forall naive_start store ->
  jsonrpc uuid8 store rpc
  = (store,
     RpcResult (PEvents (List.filter (starts_on n) store)) (req_id rpc)).
Proof.
  intros Hm Hs Hn Hall.
  apply parse_iso_naive_timestamp in Hs. apply naive_starts_parse in Hall.
  rewrite (jsonrpc_get_events_for_day _ _ _ Hm). unfold get_events_for_day.
  fold (requested_day rpc).
  rewrite (parse_iso_truthy _ _ Hs). cbn [negb]. rewrite Hs.
  change (Ok ?a ≫= ?f) with (f a). cbn beta.
  change (timedelta_days 1) with (@Ok Z 86400).
  change (Ok ?a ≫= ?f) with (f a). cbn beta.
  pose proof (parse_iso_valid _ _ Hs) as [[Hlo _] Hvt]. cbn in Hlo.
  rewrite dt_add_one_day by lia.
  change (Ok ?a ≫= ?f) with (f a). cbn beta.
  rewrite (filterM_total _ (starts_on n)); [reflexivity|].
  eapply Forall_impl; [exact Hall|]. intros e [t Ht]. cbn beta.
  unfold starts_on. rewrite Ht.
  change (Ok ?a ≫= ?f) with (f a). cbn beta.
  pose proof (parse_iso_valid _ _ Ht) as [_ Hvt'].
  assert (valid_time (mkdatetime (n + 1) 0 0 0)) as Hv1
    by (unfold valid_time; cbn; lia).
  rewrite dt_leb_seconds by assumption.
  replace (to_seconds (mkdatetime n 0 0 0)) with (n * 86400)
    by (unfold to_seconds; cbn; lia).
  destruct (n * 86400 <=? to_seconds t); [|reflexivity].
  change (Ok ?a ≫= ?f) with (f a). cbn beta.
  rewrite dt_ltb_seconds by assumption.
  replace (to_seconds (mkdatetime (n + 1) 0 0 0)) with ((n + 1) * 86400)
    by (unfold to_seconds; cbn; lia).
  reflexivity.
Qed.

Lemma get_events_for_day_exact_witness :
  jsonrpc "" EVENTS (get_events_for_day_request "2025-10-22")
  = (EVENTS,
     RpcResult (PEvents (List.filter (starts_on 739546) EVENTS)) (JInt 3)).
Proof.
  apply (get_events_for_day_exact "" EVENTS
           (get_events_for_day_request "2025-10-22") 739546);
    [reflexivity | apply parse_iso_naive_timestamp; reflexivity | reflexivity
    | apply naive_events_starts; exact EVENTS_naive].
Defined.

(** C7 fails as stated.  [create_event] stores a start that is not a
    timestamp, and from then on the query fails for every day.  On the
    initial store the query fails for the parseable day 9999-12-31, whose
    next midnight does not exist.  And a day string that carries a time is
    parsed to that instant, not to midnight: for 2025-10-22T13:00:00 the
    event of 10:00 on that day is left out. *)
Lemma get_events_for_day_can_fail :
  snd (jsonrpc ""
         (fst (jsonrpc "a1b2c3d4" EVENTS
                 (create_event_request "Lunch" "tomorrow noon"
                    "tomorrow 13:00" [])))
         (get_events_for_day_request "2025-10-22"))
  = RpcError (-32000) "Server error" (Some ValueError) (JInt 3)
  /\ snd (jsonrpc "" EVENTS (get_events_for_day_request "9999-12-31"))
     = RpcError (-32000) "Server error" (Some OverflowError) (JInt 3)
  /\ fromisoformat "9999-12-31" = Ok (mkdatetime MAXORDINAL 0 0 0)
  /\ snd (jsonrpc "" EVENTS
            (get_events_for_day_request "2025-10-22T13:00:00"))
     = RpcResult (PEvents (List.tl EVENTS)) (JInt 3)
  /\ List.filter (starts_on 739546) EVENTS = EVENTS.
Proof. repeat split. Qed.

(** ** [create_event] and [book_and_confirm] *)

(** C5, as the code has it: [create_event] looks only at the presence of
    title, start and end.  When the three are present and truthy the event
    is appended and returned, whatever the order of start and end (equal
    ones included); when one is missing or empty the request is refused
    with code -32602 and the store is left as it was. *)
Theorem create_event_checks_presence_only uuid8 store rpc :
  method rpc = "create_event" ->
  let title_ := get (params rpc) "title" in
  let start_ := get (params rpc) "start" in
  let end__ := get (params rpc) "end" in
  let new_e :=
    mkevent uuid8 title_ start_ end__
      (get_or (params rpc) "attendees" (JList []))
      (get_or (params rpc) "created_by" (JStr "client")) in
  (truthy title_ = true /\ truthy start_ = true /\ truthy end__ = true ->
   jsonrpc uuid8 store rpc
   = (store ++ [new_e], RpcResult (PEvent new_e) (req_id rpc))) /\
  (truthy title_ = false \/ truthy start_ = false \/ truthy end__ = false ->
   jsonrpc uuid8 store rpc
   = (store,
      RpcError (-32602) "Missing title/start/end" None (req_id rpc))).
Proof.
  intros Hm title_ start_ end__ new_e.
  rewrite (jsonrpc_create_event _ _ _ Hm). unfold create_event.
  fold title_ start_ end__. split.
  - intros (-> & -> & ->). reflexivity.
  - intros [-> | [-> | ->]]; cbn; rewrite ?andb_false_r; reflexivity.
Qed.

Lemma create_event_checks_presence_only_witness :
  let rpc :=
    create_event_request "Standup" "2025-10-22T11:00:00"
      "2025-10-22T11:00:00" [] in
  let new_e :=
    mkevent "a1b2c3d4" (JStr "Standup") (JStr "2025-10-22T11:00:00")
      (JStr "2025-10-22T11:00:00") (JList []) (JStr "client") in
  jsonrpc "a1b2c3d4" EVENTS rpc
  = (EVENTS ++ [new_e], RpcResult (PEvent new_e) (JInt 2)).
Proof.
  cbv zeta.
  apply (proj1 (create_event_checks_presence_only "a1b2c3d4" EVENTS
                  (create_event_request "Standup" "2025-10-22T11:00:00"
                     "2025-10-22T11:00:00" []) eq_refl)).
  repeat split.
Defined.

(** C5 fails as stated: an insert whose end equals its start is accepted
    and stored, so the store holds an event with end = start. *)
Lemma create_event_accepts_end_equal_start :
  let new_e :=
    mkevent "a1b2c3d4" (JStr "Standup") (JStr "2025-10-22T11:00:00")
      (JStr "2025-10-22T11:00:00") (JList []) (JStr "client") in
  jsonrpc "a1b2c3d4" EVENTS
    (create_event_request "Standup" "2025-10-22T11:00:00"
       "2025-10-22T11:00:00" [])
  = (EVENTS ++ [new_e], RpcResult (PEvent new_e) (JInt 2))
  /\ start new_e = end_ new_e.
Proof. split; reflexivity. Qed.

(** C10 (frame of an insert): when [create_event] answers with the new
    event, or [book_and_confirm] answers 200 with it, the new store is the
    old list with that one event appended: one element longer, and every
    position of the old list holds the event it held. *)
Theorem insert_appends_one_event uuid8 confirm store rpc req store' e :
  (exists i, jsonrpc uuid8 store rpc = (store', RpcResult (PEvent e) i)) \/
  (exists c, book_and_confirm confirm uuid8 store req = (store', Http200 e c)) ->
  store' = store ++ [e] /\
  length store' = S (length store) /\
  forall (k : nat) (old : event), store !! k = Some old -> store' !! k = Some old.
Proof.
  intros H.
  assert (store' = store ++ [e]) as ->.
  { destruct H as [[i H] | [c H]].
    - unfold jsonrpc in H.
      destruct (String.eqb _ _); [discriminate|].
      destruct (String.eqb _ _).
      { injection H as _ H. apply get_events_for_day_payload in H. tauto. }
      destruct (String.eqb _ _).
      { injection H as _ H. apply find_free_slot_payload in H. tauto. }
      destruct (String.eqb _ _); [|discriminate].
      unfold create_event in H. destruct (negb _); [discriminate|].
      injection H as <- <- _. reflexivity.
    - unfold book_and_confirm in H.
      destruct (find_slot _ _ _) as [[found|]|]; try discriminate.
      injection H as <- <- _. reflexivity. }
  split; [reflexivity|]. split.
  - rewrite length_app. cbn. lia.
  - intros k old Hk. rewrite lookup_app_l; [assumption|].
    apply lookup_lt_Some in Hk. assumption.
Qed.

Lemma insert_appends_one_event_witness :
  let rpc := create_event_request "Retro" "2025-10-22T13:00:00"
               "2025-10-22T14:00:00" ["carol@example.com"] in
  let e := mkevent "a1b2c3d4" (JStr "Retro") (JStr "2025-10-22T13:00:00")
             (JStr "2025-10-22T14:00:00") (JList [JStr "carol@example.com"])
             (JStr "client") in
  jsonrpc "a1b2c3d4" EVENTS rpc
  = (EVENTS ++ [e], RpcResult (PEvent e) (JInt 2)) /\
  EVENTS ++ [e] = EVENTS ++ [e] /\
  length (EVENTS ++ [e]) = S (length EVENTS) /\
  forall (k : nat) (old : event),
    EVENTS !! k = Some old -> (EVENTS ++ [e]) !! k = Some old.
Proof.
  cbv zeta. split; [reflexivity|].
  apply (insert_appends_one_event "a1b2c3d4" (fun _ => "") EVENTS
           (create_event_request "Retro" "2025-10-22T13:00:00"
              "2025-10-22T14:00:00" ["carol@example.com"])
           (BookRequest_init "2025-10-22" None None None)).
  left. exists (JInt 2). reflexivity.
Defined.

(** The same two defects in bookings: two identical booking requests
    served one after the other.  (1) On 2025-10-23, after an event 22:00-23:00 has
    been created, with 300 minutes each: the first books 09:00-14:00, after
    which no free slot of 300 minutes is left in the window, and yet the
    second books 14:00-19:00 instead of failing.  (2) On 2025-10-22, after
    an event 12:00-13:00 has been created with a blank instead of [T] in
    its timestamps, with 90 minutes each (the gaps 10:30-12:00 and
    13:00-15:00 have room for both): the two requests book the same slot
    09:00-10:30. *)
Example book_and_confirm_overbooks :
  let confirm := fun _ : event => "" in
  let store1 :=
    fst (jsonrpc "a1b2c3d4" EVENTS
           (create_event_request "Dinner" "2025-10-23T22:00:00"
              "2025-10-23T23:00:00" [])) in
  let req1 := BookRequest_init "2025-10-23" (Some 300) None None in
  let first1 := book_and_confirm confirm "00000001" store1 req1 in
  let second1 := book_and_confirm confirm "00000002" (fst first1) req1 in
  let d1 := mkdatetime 739547 0 0 0 in
  let store2 :=
    fst (jsonrpc "a1b2c3d4" EVENTS
           (create_event_request "Lunch" "2025-10-22 12:00:00"
              "2025-10-22 13:00:00" [])) in
  let req2 := BookRequest_init "2025-10-22" (Some 90) None None in
  let first2 := book_and_confirm confirm "00000003" store2 req2 in
  let second2 := book_and_confirm confirm "00000004" (fst first2) req2 in
  (booked (snd first1)
   = Some (JStr "2025-10-23T09:00:00", JStr "2025-10-23T14:00:00") /\
   (forall c, ~ free_slot (fst first1) (work_start d1) (work_end d1) 300 c) /\
   booked (snd second1)
   = Some (JStr "2025-10-23T14:00:00", JStr "2025-10-23T19:00:00")) /\
  (booked (snd first2)
   = Some (JStr "2025-10-22T09:00:00", JStr "2025-10-22T10:30:00") /\
   booked (snd second2)
   = Some (JStr "2025-10-22T09:00:00", JStr "2025-10-22T10:30:00")).
Proof.
  intros confirm store1 req1 first1 second1 d1 store2 req2 first2 second2.
  set (b1 := mkevent "00000001" (JStr "Booked via UI")
               (JStr "2025-10-23T09:00:00") (JStr "2025-10-23T14:00:00")
               (JList []) (JStr "ui")).
  assert (Hin : b1 ∈ fst first1) by (vm_compute; do 3 right; left).
  split; [|split; vm_compute; reflexivity].
  split; [vm_compute; reflexivity|].
  split; [|vm_compute; reflexivity].
  intros c (Hlo & Hhi & Hfree).
  apply (Hfree b1 (mkdatetime 739547 9 0 0) (mkdatetime 739547 14 0 0) Hin).
  - repeat split.
  - unfold overlaps, work_start, work_end, d1, to_seconds in *.
    cbn in Hlo, Hhi |- *. lia.
Qed.

(** C8, where the code breaks it.  Requests that arrive together are
    served one after the other (the handler has no [await]), so the search
    and the insert of one booking are never interleaved with those of
    another; what fails is the outcome.  (1) After an event 22:00-23:00 has
    been created on 2025-10-23, the window 09:00-17:00 of that day has room
    for exactly one slot of 300 minutes: 09:00-14:00 is free, and any two
    free slots of 300 minutes overlap.  Two requests for 300 minutes on
    that day are both answered 200, the first with 09:00-14:00 and the
    second with 14:00-19:00, which ends after 17:00, instead of 404.
    (2) After an event 12:00-13:00 has been created on 2025-10-22 with a
    blank instead of [T] in its timestamps, two requests for 90 minutes on
    that day are both answered 200 with the same slot 09:00-10:30: the two
    bookings overlap.  The language model is [generate] without a key. *)
Theorem concurrent_bookings_overbook :
  let llm := generate None RequestException in
  let store1 :=
    fst (jsonrpc "a1b2c3d4" EVENTS
           (create_event_request "Dinner" "2025-10-23T22:00:00"
              "2025-10-23T23:00:00" [])) in
  let req1 := BookRequest_init "2025-10-23" (Some 300) None None in
  let d1 := mkdatetime 739547 0 0 0 in
  let free1 := free_slot store1 (work_start d1) (work_end d1) 300 in
  let store2 :=
    fst (jsonrpc "a1b2c3d4" EVENTS
           (create_event_request "Lunch" "2025-10-22 12:00:00"
              "2025-10-22 13:00:00" [])) in
  let req2 := BookRequest_init "2025-10-22" (Some 90) None None in
  (fromisoformat "2025-10-23" = Ok d1 /\
   free1 (work_start d1) /\
   (forall c1 c2, free1 c1 -> free1 c2 ->
      overlaps (to_seconds c1) (to_seconds c1 + 300 * 60)
        (to_seconds c2) (to_seconds c2 + 300 * 60)) /\
   booked_answer
     <$> snd (book_each llm store1 [("00000001", req1); ("00000002", req1)])
   = [Some (JStr "2025-10-23T09:00:00", JStr "2025-10-23T14:00:00");
      Some (JStr "2025-10-23T14:00:00", JStr "2025-10-23T19:00:00")] /\
   to_seconds (work_end d1) < to_seconds (mkdatetime 739547 19 0 0)) /\
  (booked_answer
     <$> snd (book_each llm store2 [("00000003", req2); ("00000004", req2)])
   = [Some (JStr "2025-10-22T09:00:00", JStr "2025-10-22T10:30:00");
      Some (JStr "2025-10-22T09:00:00", JStr "2025-10-22T10:30:00")] /\
   length (fst (book_each llm store2
                  [("00000003", req2); ("00000004", req2)]))
   = S (S (length store2))).
Proof.
  intros llm store1 req1 d1 free1 store2 req2.
  split; [|split; vm_compute; reflexivity].
  split; [reflexivity|]. split; [|split; [|split]].
  - split; [vm_compute; discriminate|]. split; [vm_compute; discriminate|].
    intros e s t He (Hs & Ht & Hdate). vm_compute in He.
    repeat (apply elem_of_cons in He as [-> | He]);
      [ | | | apply elem_of_nil in He; contradiction];
      vm_compute in Hs, Ht; injection Hs as <-; injection Ht as <-;
      try (vm_compute in Hdate; discriminate Hdate);
      unfold overlaps; vm_compute; intros [H1 H2]; discriminate.
  - intros c1 c2 (Hlo1 & Hhi1 & _) (Hlo2 & Hhi2 & _).
    unfold overlaps, work_start, work_end, d1, to_seconds in *.
    cbn in Hlo1, Hhi1, Hlo2, Hhi2. lia.
  - vm_compute. reflexivity.
  - vm_compute. reflexivity.
Qed.

(** * Further properties of the server *)

(** ** Timestamps *)

(** X1 (print, then parse): every datetime the library can represent is
    read back by [parse_iso] from the string [iso] prints for it, and that
    string has the nineteen characters [YYYY-MM-DDTHH:MM:SS]. *)
Theorem iso_then_parse_iso t :
  valid_datetime t ->
  parse_iso (JStr (iso t)) = Ok t /\ canonical (iso t).
Proof.
  intros Hv. split; [apply parse_iso_iso; assumption | apply iso_canonical].
Qed.

Lemma iso_then_parse_iso_witness :
  parse_iso (JStr (iso (mkdatetime 739546 9 0 0)))
  = Ok (mkdatetime 739546 9 0 0)
  /\ canonical (iso (mkdatetime 739546 9 0 0)).
Proof.
  apply (iso_then_parse_iso (mkdatetime 739546 9 0 0)).
  unfold valid_datetime, valid_time, MAXORDINAL. cbn. lia.
Defined.

(** X2 (parse, then print): a timestamp in the format
    [YYYY-MM-DDTHH:MM:SS] that [parse_iso] accepts is printed back by [iso]
    character for character. *)
Theorem parse_iso_then_iso s t :
  parse_iso (JStr s) = Ok t -> canonical s -> iso t = s.
Proof. apply iso_fromisoformat. Qed.

Lemma parse_iso_then_iso_witness :
  iso (mkdatetime 739546 10 30 0) = "2025-10-22T10:30:00".
Proof.
  apply (parse_iso_then_iso "2025-10-22T10:30:00" (mkdatetime 739546 10 30 0));
    [reflexivity | split; reflexivity].
Defined.

(** ** [find_free_slot] *)

(** X3 (the slot stays on the day): for a day given as a naive timestamp
    to the second, a store of such timestamps and a positive duration, the
    two strings of a returned slot parse back to two datetimes of the
    requested day; the first is at or after 09:00 and the second is
    [duration] minutes later. *)
Theorem slot_is_on_requested_day uuid8 store rpc d0 duration store' sl i :
  method rpc = "find_free_slot" ->
  naive_timestamp (requested_day rpc) d0 ->
  requested_duration rpc = Ok duration ->
  0 < duration ->
  Forall naive_event store ->
  jsonrpc uuid8 store rpc = (store', RpcResult (PSlot (Some sl)) i) ->
  exists a b,
    fromisoformat (slot_start sl) = Ok a /\
    fromisoformat (slot_end sl) = Ok b /\
    date a = date d0 /\ date b = date d0 /\
    to_seconds (work_start d0) <= to_seconds a /\
    to_seconds b = to_seconds a + duration * 60.
Proof.
  intros Hm Hday Hdur Hd _ H. apply parse_iso_naive_timestamp in Hday.
  rewrite (jsonrpc_find_free_slot _ _ _ Hm) in H.
  rewrite (find_free_slot_eq _ _ _ _ Hday Hdur) in H.
  destruct (find_slot store (requested_day rpc) duration)
    as [[[a b]|]|] eqn:Hfound; try discriminate.
  injection H as _ <- _.
  pose proof (find_slot_valid _ _ _ _ _ Hfound) as [Hva Hvb].
  pose proof (find_slot_same_day _ _ _ _ _ _ Hd Hday Hfound)
    as (Hda & Hdb & Hlo & _).
  exists a, b. cbn [slot_dict slot_start slot_end fst snd].
  rewrite !fromisoformat_iso by assumption.
  repeat split; try assumption.
  exact (find_slot_duration _ _ _ _ _ Hfound).
Qed.

Lemma slot_is_on_requested_day_witness :
  exists a b,
    fromisoformat "2025-10-22T09:00:00" = Ok a /\
    fromisoformat "2025-10-22T10:00:00" = Ok b /\
    date a = 739546 /\ date b = 739546 /\
    to_seconds (work_start (mkdatetime 739546 0 0 0)) <= to_seconds a /\
    to_seconds b = to_seconds a + 60 * 60.
Proof.
  apply (slot_is_on_requested_day "" EVENTS
           (find_free_slot_request "2025-10-22" 60)
           (mkdatetime 739546 0 0 0) 60 EVENTS
           (mkslot "2025-10-22T09:00:00" "2025-10-22T10:00:00") (JInt 1));
    [reflexivity | apply parse_iso_naive_timestamp; reflexivity | reflexivity
    | lia | exact EVENTS_naive | reflexivity].
Defined.

(** X4 (a null answer is sound): for a positive duration, whatever the
    store holds, when [find_free_slot] answers with a null result, or
    [book_and_confirm] with 404, no free slot of that duration exists: no
    start in the working window 09:00-17:00 of the day whose slot ends by
    17:00 and meets no event of the day. *)
Theorem no_slot_answer_is_sound uuid8 confirm store rpc req d0 duration :
  0 < duration ->
  (method rpc = "find_free_slot" /\
   parse_iso (requested_day rpc) = Ok d0 /\
   requested_duration rpc = Ok duration /\
   snd (jsonrpc uuid8 store rpc) = RpcResult (PSlot None) (req_id rpc)) \/
  (fromisoformat (day req) = Ok d0 /\
   duration_minutes req = duration /\
   snd (book_and_confirm confirm uuid8 store req)
   = Http404 "No free slot found") ->
  forall c, ~ free_slot store (work_start d0) (work_end d0) duration c.
Proof.
  intros Hd [(Hm & Hday & Hdur & H) | (Hday & <- & H)] c.
  - rewrite (jsonrpc_find_free_slot _ _ _ Hm) in H.
    rewrite (find_free_slot_eq _ _ _ _ Hday Hdur) in H. cbn [snd] in H.
    destruct (find_slot store (requested_day rpc) duration)
      as [[found|]|] eqn:Hfound; try discriminate.
    apply (find_slot_none _ _ _ _ c Hd Hday Hfound).
  - unfold book_and_confirm in H.
    destruct (find_slot store (JStr (day req)) (duration_minutes req))
      as [[found|]|] eqn:Hfound; try discriminate.
    apply (find_slot_none _ (JStr (day req)) _ _ c Hd Hday Hfound).
Qed.

Lemma no_slot_answer_is_sound_witness :
  ~ free_slot EVENTS (work_start (mkdatetime 739546 0 0 0))
      (work_end (mkdatetime 739546 0 0 0)) 300 (mkdatetime 739546 10 30 0).
Proof.
  apply (no_slot_answer_is_sound "" (fun _ => "") EVENTS
           (find_free_slot_request "2025-10-22" 300)
           (BookRequest_init "2025-10-22" (Some 300) None None)
           (mkdatetime 739546 0 0 0) 300); [lia|].
  left. repeat split.
Defined.

(** X5 (the search never fails on naive timestamps): when the day is a
    naive timestamp to the second, so are both timestamps of every stored
    event, and the duration converts and is not negative, [find_free_slot]
    answers with a result, never with an error.  [book_and_confirm] for
    that day and duration never answers 500 for a failed search; if the
    language model returns it answers 200 or 404, and if it raises the
    request fails with that exception. *)
Theorem slot_search_does_not_fail uuid8 llm store rpc req d0 duration :
  Forall naive_event store ->
  0 <= duration ->
  method rpc = "find_free_slot" ->
  naive_timestamp (requested_day rpc) d0 ->
  requested_duration rpc = Ok duration ->
  requested_day rpc = JStr (day req) ->
  duration_minutes req = duration ->
  (exists found,
     jsonrpc uuid8 store rpc
     = (store, RpcResult (PSlot (slot_dict <$> found)) (req_id rpc))) /\
  (forall e,
     snd (book_and_confirm_llm llm uuid8 store req) <> Returns (Http500 e)) /\
  ((forall p, exists text, llm p = Returns text) ->
   exists r, snd (book_and_confirm_llm llm uuid8 store req) = Returns r /\
     ((exists e text, r = Http200 e text) \/ r = Http404 "No free slot found")).
Proof.
  intros Hall Hd Hm Hday Hdur Hreq <-.
  apply parse_iso_naive_timestamp in Hday. apply naive_events_parse in Hall.
  destruct (find_slot_total store _ d0 _ Hday Hall Hd) as [found Hfound].
  split; [|split].
  - exists found. rewrite (jsonrpc_find_free_slot _ _ _ Hm).
    rewrite (find_free_slot_eq _ _ _ _ Hday Hdur), Hfound. reflexivity.
  - intros e. unfold book_and_confirm_llm. rewrite <- Hreq, Hfound.
    destruct found; [|discriminate]. cbv zeta.
    destruct (llm _); discriminate.
  - intros Hllm. unfold book_and_confirm_llm. rewrite <- Hreq, Hfound.
    destruct found; [|eexists; split; [reflexivity|right; reflexivity]].
    cbv zeta.
    match goal with |- context [llm ?p] => destruct (Hllm p) as [text ->] end.
    eexists. split; [reflexivity|]. left. eauto.
Qed.

Lemma slot_search_does_not_fail_witness :
  let llm := generate None RequestException in
  let req := BookRequest_init "2025-10-22" (Some 0) None None in
  (exists found,
     jsonrpc "" EVENTS (find_free_slot_request "2025-10-22" 0)
     = (EVENTS, RpcResult (PSlot (slot_dict <$> found)) (JInt 1))) /\
  (forall e, snd (book_and_confirm_llm llm "" EVENTS req) <> Returns (Http500 e)) /\
  ((forall p, exists text, llm p = Returns text) ->
   exists r, snd (book_and_confirm_llm llm "" EVENTS req) = Returns r /\
     ((exists e text, r = Http200 e text) \/ r = Http404 "No free slot found")).
Proof.
  cbv zeta.
  apply (slot_search_does_not_fail "" (generate None RequestException) EVENTS
           (find_free_slot_request "2025-10-22" 0)
           (BookRequest_init "2025-10-22" (Some 0) None None)
           (mkdatetime 739546 0 0 0) 0);
    [exact EVENTS_naive | lia | reflexivity
    | apply parse_iso_naive_timestamp; reflexivity
    | reflexivity | reflexivity | reflexivity].
Defined.



(** X7 (the answer does not depend on the order of the store): on a store
    whose starts all have the format [YYYY-MM-DDTHH:MM:SS], whose
    timestamps all parse, and in which no event of the requested day starts
    after 17:00, for a positive duration, two stores that hold the same
    events in different orders get the same answer from
    [find_free_slot]. *)
Theorem find_free_slot_ignores_store_order uuid8 store store' rpc d0 duration :
  method rpc = "find_free_slot" ->
  parse_iso (requested_day rpc) = Ok d0 ->
  requested_duration rpc = Ok duration ->
  short_duration rpc ->
  0 < duration ->
  Forall canonical_start store ->
  Forall timestamps_parse store ->
  (forall e s, e ∈ store -> parse_iso (start e) = Ok s ->
     date s = date d0 -> to_seconds s <= to_seconds (work_end d0)) ->
  store ≡ₚ store' ->
  snd (jsonrpc uuid8 store' rpc) = snd (jsonrpc uuid8 store rpc).
Proof.
  intros Hm Hday Hdur _ Hd Hcan Hall Hearly Hperm.
  assert (Hfree : forall c,
            free_slot store (work_start d0) (work_end d0) duration c <->
            free_slot store' (work_start d0) (work_end d0) duration c).
  { intros c. unfold free_slot.
    split; intros (H1 & H2 & H3); (split; [assumption|split; [assumption|]]);
      intros e s t He; apply H3; [rewrite Hperm | rewrite <- Hperm];
      assumption. }
  rewrite !(jsonrpc_find_free_slot _ _ _ Hm).
  rewrite !(find_free_slot_eq _ _ _ _ Hday Hdur). cbn [snd].
  assert (Hcan' : Forall canonical_start store') by (rewrite <- Hperm; exact Hcan).
  assert (Hall' : Forall timestamps_parse store') by (rewrite <- Hperm; exact Hall).
  assert (Hearly' : forall e s, e ∈ store' -> parse_iso (start e) = Ok s ->
            date s = date d0 -> to_seconds s <= to_seconds (work_end d0)).
  { intros e s He. apply Hearly. rewrite Hperm. assumption. }
  destruct (find_slot_total store _ d0 duration Hday Hall (Z.lt_le_incl _ _ Hd))
    as [found Hfound].
  destruct (find_slot_total store' _ d0 duration Hday Hall' (Z.lt_le_incl _ _ Hd))
    as [found' Hfound'].
  rewrite Hfound, Hfound'. cbn.
  destruct found as [[a b]|]; destruct found' as [[a' b']|].
  - pose proof (find_slot_in_window _ _ _ _ _ _ (Z.lt_le_incl _ _ Hd) Hday Hearly Hfound)
      as (_ & _ & Hend).
    pose proof (find_slot_in_window _ _ _ _ _ _ (Z.lt_le_incl _ _ Hd) Hday Hearly' Hfound')
      as (_ & _ & Hend').
    destruct (find_slot_minimum_canonical _ _ _ _ _ _ Hd Hcan Hday Hfound Hend)
      as [Hf Hmin].
    destruct (find_slot_minimum_canonical _ _ _ _ _ _ Hd Hcan' Hday Hfound'
                Hend') as [Hf' Hmin'].
    pose proof (Hmin a' (proj2 (Hfree a') Hf')).
    pose proof (Hmin' a (proj1 (Hfree a) Hf)).
    pose proof (find_slot_duration _ _ _ _ _ Hfound).
    pose proof (find_slot_duration _ _ _ _ _ Hfound').
    pose proof (find_slot_valid _ _ _ _ _ Hfound) as [[_ Hva] [_ Hvb]].
    pose proof (find_slot_valid _ _ _ _ _ Hfound') as [[_ Hva'] [_ Hvb']].
    assert (a' = a) as -> by (apply to_seconds_inj; [assumption..|lia]).
    assert (b' = b) as -> by (apply to_seconds_inj; [assumption..|lia]).
    reflexivity.
  - exfalso.
    pose proof (find_slot_in_window _ _ _ _ _ _ (Z.lt_le_incl _ _ Hd) Hday Hearly Hfound)
      as (_ & _ & Hend).
    destruct (find_slot_minimum_canonical _ _ _ _ _ _ Hd Hcan Hday Hfound Hend)
      as [Hf _].
    apply (find_slot_none _ _ _ _ a Hd Hday Hfound'). apply Hfree. assumption.
  - exfalso.
    pose proof (find_slot_in_window _ _ _ _ _ _ (Z.lt_le_incl _ _ Hd) Hday Hearly' Hfound')
      as (_ & _ & Hend').
    destruct (find_slot_minimum_canonical _ _ _ _ _ _ Hd Hcan' Hday Hfound'
                Hend') as [Hf' _].
    apply (find_slot_none _ _ _ _ a' Hd Hday Hfound). apply Hfree. assumption.
  - reflexivity.
Qed.

Lemma find_free_slot_ignores_store_order_witness :
  snd (jsonrpc "" (rev EVENTS) (find_free_slot_request "2025-10-22" 60))
  = snd (jsonrpc "" EVENTS (find_free_slot_request "2025-10-22" 60)).
Proof.
  apply (find_free_slot_ignores_store_order "" EVENTS (rev EVENTS)
           (find_free_slot_request "2025-10-22" 60)
           (mkdatetime 739546 0 0 0) 60);
    [reflexivity | reflexivity | reflexivity
    | intros s Hs; vm_compute in Hs; discriminate Hs | lia
    | exact EVENTS_canonical | exact EVENTS_timestamps_parse
    | exact EVENTS_start_early | apply Permutation_swap].
Defined.

(** X8 (where a slot starts): a returned slot starts at 09:00 of the
    requested day or at the end of a stored event that starts on that day;
    the search proposes no other start. *)
Theorem slot_starts_at_nine_or_after_an_event uuid8 store rpc d0 duration
    store' sl i :
  method rpc = "find_free_slot" ->
  parse_iso (requested_day rpc) = Ok d0 ->
  requested_duration rpc = Ok duration ->
  jsonrpc uuid8 store rpc = (store', RpcResult (PSlot (Some sl)) i) ->
  slot_start sl = iso (work_start d0) \/
  exists e s t,
    e ∈ store /\ parse_iso (start e) = Ok s /\ date s = date d0 /\
    parse_iso (end_ e) = Ok t /\ slot_start sl = iso t.
Proof.
  intros Hm Hday Hdur H.
  rewrite (jsonrpc_find_free_slot _ _ _ Hm) in H.
  rewrite (find_free_slot_eq _ _ _ _ Hday Hdur) in H.
  destruct (find_slot store (requested_day rpc) duration)
    as [[[a b]|]|] eqn:Hfound; try discriminate.
  injection H as _ <- _. cbn [slot_dict slot_start fst].
  destruct (find_slot_start _ _ _ _ _ _ Hday Hfound)
    as [-> | (e & s & He & Hs & Hdate & Ht)]; [left; reflexivity|].
  right. exists e, s, a. repeat split; assumption.
Qed.

Lemma slot_starts_at_nine_or_after_an_event_witness :
  "2025-10-22T10:30:00" = iso (work_start (mkdatetime 739546 0 0 0)) \/
  exists e s t,
    e ∈ EVENTS /\ parse_iso (start e) = Ok s /\ date s = 739546 /\
    parse_iso (end_ e) = Ok t /\ "2025-10-22T10:30:00" = iso t.
Proof.
  apply (slot_starts_at_nine_or_after_an_event "" EVENTS
           (find_free_slot_request "2025-10-22" 90)
           (mkdatetime 739546 0 0 0) 90 EVENTS
           (mkslot "2025-10-22T10:30:00" "2025-10-22T12:00:00") (JInt 1));
    reflexivity.
Defined.

(** X9 (no overlap on canonical starts): on a store whose timestamps are
    all naive timestamps to the second and whose starts all have the format
    [YYYY-MM-DDTHH:MM:SS], a slot returned by [find_free_slot] for a day
    given as a naive timestamp overlaps no stored event that starts on the
    requested day, whatever the duration and wherever the slot ends. *)
Theorem slot_overlaps_no_event_on_canonical_store uuid8 store rpc d0 duration
    store' sl i :
  method rpc = "find_free_slot" ->
  naive_timestamp (requested_day rpc) d0 ->
  requested_duration rpc = Ok duration ->
  Forall naive_event store ->
  Forall canonical_start store ->
  jsonrpc uuid8 store rpc = (store', RpcResult (PSlot (Some sl)) i) ->
  exists a b,
    sl = slot_dict (a, b) /\
    fromisoformat (slot_start sl) = Ok a /\
    fromisoformat (slot_end sl) = Ok b /\
    forall e s t, e ∈ store -> event_of_day (work_start d0) e s t ->
      ~ overlaps (to_seconds a) (to_seconds b) (to_seconds s) (to_seconds t).
Proof.
  intros Hm Hday Hdur _ Hcan H. apply parse_iso_naive_timestamp in Hday.
  rewrite (jsonrpc_find_free_slot _ _ _ Hm) in H.
  rewrite (find_free_slot_eq _ _ _ _ Hday Hdur) in H.
  destruct (find_slot store (requested_day rpc) duration)
    as [[[a b]|]|] eqn:Hfound; try discriminate.
  injection H as _ <- _.
  pose proof (find_slot_valid _ _ _ _ _ Hfound) as [Hva Hvb].
  exists a, b. cbn [slot_dict slot_start slot_end fst snd].
  rewrite !fromisoformat_iso by assumption.
  repeat split.
  exact (find_slot_no_overlap_canonical _ _ _ _ _ _ Hcan Hday Hfound).
Qed.

Lemma slot_overlaps_no_event_on_canonical_store_witness :
  exists a b,
    mkslot "2025-10-22T10:30:00" "2025-10-22T12:00:00" = slot_dict (a, b) /\
    fromisoformat "2025-10-22T10:30:00" = Ok a /\
    fromisoformat "2025-10-22T12:00:00" = Ok b /\
    forall e s t,
      e ∈ EVENTS -> event_of_day (work_start (mkdatetime 739546 0 0 0)) e s t ->
      ~ overlaps (to_seconds a) (to_seconds b) (to_seconds s) (to_seconds t).
Proof.
  apply (slot_overlaps_no_event_on_canonical_store "" EVENTS
           (find_free_slot_request "2025-10-22" 90)
           (mkdatetime 739546 0 0 0) 90 EVENTS
           (mkslot "2025-10-22T10:30:00" "2025-10-22T12:00:00") (JInt 1));
    [reflexivity | apply parse_iso_naive_timestamp; reflexivity | reflexivity
    | exact EVENTS_naive | exact EVENTS_canonical | reflexivity].
Defined.

(** X10 (inside the window unless an event starts late): when no stored
    event of the requested day starts after 17:00, a slot returned by
    [find_free_slot] for a duration that is not negative lies within
    09:00-17:00 of that day, whatever else the store holds. *)
Theorem slot_is_in_window_without_late_events uuid8 store rpc d0 duration
    store' sl i :
  method rpc = "find_free_slot" ->
  parse_iso (requested_day rpc) = Ok d0 ->
  requested_duration rpc = Ok duration ->
  0 <= duration ->
  (forall e s, e ∈ store -> parse_iso (start e) = Ok s ->
     date s = date d0 -> to_seconds s <= to_seconds (work_end d0)) ->
  jsonrpc uuid8 store rpc = (store', RpcResult (PSlot (Some sl)) i) ->
  exists a b,
    fromisoformat (slot_start sl) = Ok a /\
    fromisoformat (slot_end sl) = Ok b /\
    to_seconds (work_start d0) <= to_seconds a /\
    to_seconds a <= to_seconds b /\
    to_seconds b <= to_seconds (work_end d0).
Proof.
  intros Hm Hday Hdur Hd Hearly H.
  rewrite (jsonrpc_find_free_slot _ _ _ Hm) in H.
  rewrite (find_free_slot_eq _ _ _ _ Hday Hdur) in H.
  destruct (find_slot store (requested_day rpc) duration)
    as [[[a b]|]|] eqn:Hfound; try discriminate.
  injection H as _ <- _.
  pose proof (find_slot_valid _ _ _ _ _ Hfound) as [Hva Hvb].
  exists a, b. cbn [slot_dict slot_start slot_end fst snd].
  rewrite !fromisoformat_iso by assumption.
  split; [reflexivity|]. split; [reflexivity|].
  exact (find_slot_in_window _ _ _ _ _ _ Hd Hday Hearly Hfound).
Qed.

Lemma slot_is_in_window_without_late_events_witness :
  exists a b,
    fromisoformat "2025-10-22T16:00:00" = Ok a /\
    fromisoformat "2025-10-22T17:00:00" = Ok b /\
    to_seconds (work_start (mkdatetime 739546 0 0 0)) <= to_seconds a /\
    to_seconds a <= to_seconds b /\
    to_seconds b <= to_seconds (work_end (mkdatetime 739546 0 0 0)).
Proof.
  apply (slot_is_in_window_without_late_events ""
           (mkevent "a1b2c3d4" (JStr "Review") (JStr "2025-10-22T09:00:00")
              (JStr "2025-10-22T15:00:00") (JList []) (JStr "client")
            :: EVENTS)
           (find_free_slot_request "2025-10-22" 60)
           (mkdatetime 739546 0 0 0) 60
           (mkevent "a1b2c3d4" (JStr "Review") (JStr "2025-10-22T09:00:00")
              (JStr "2025-10-22T15:00:00") (JList []) (JStr "client")
            :: EVENTS)
           (mkslot "2025-10-22T16:00:00" "2025-10-22T17:00:00") (JInt 1));
    [reflexivity | reflexivity | reflexivity | lia | | reflexivity].
  intros e s He Hs _. unfold EVENTS in He.
  repeat (apply elem_of_cons in He as [-> | He]);
    [ | | | apply elem_of_nil in He; contradiction];
    vm_compute in Hs; injection Hs as <-; vm_compute; discriminate.
Defined.

(** ** Bookings *)

(** X11 (bookings served one after the other): starting from a store
    whose events have naive timestamps to the second, starts in the format
    [YYYY-MM-DDTHH:MM:SS], lie within 09:00-17:00 of their day and do not
    overlap one another, any run of [book_and_confirm] requests with
    positive durations and days written as naive timestamps, served one
    after the other, leaves a store with these properties, whatever the
    language model answers: no two events overlap and every booked event
    lies within 09:00-17:00 of its day.  The initial [EVENTS] is such a
    store. *)
Theorem serial_bookings_stay_disjoint llm reqs : forall store,
  Forall (fun r => 0 < duration_minutes r.2 /\
                   naive_seconds (day r.2) = true) reqs ->
  well_booked store ->
  well_booked (fst (book_each llm store reqs)).
Proof.
  intros store Hreqs. rewrite (book_each_book_all llm (fun _ => "")).
  revert store. unfold book_all.
  induction reqs as [|r reqs IH]; intros store Hwb; cbn; [assumption|].
  apply Forall_cons in Hreqs as [[Hr _] Hreqs].
  apply IH; [assumption|]. apply book_and_confirm_well_booked; assumption.
Qed.

Lemma serial_bookings_stay_disjoint_witness :
  well_booked
    (fst (book_each (generate None RequestException) EVENTS
            [("a1b2c3d4", BookRequest_init "2025-10-22" (Some 240) None None);
             ("e5f6a7b8", BookRequest_init "2025-10-22" (Some 60) None None);
             ("00c0ffee", BookRequest_init "2025-10-22" None None None)])).
Proof.
  apply (serial_bookings_stay_disjoint (generate None RequestException)
           [("a1b2c3d4", BookRequest_init "2025-10-22" (Some 240) None None);
            ("e5f6a7b8", BookRequest_init "2025-10-22" (Some 60) None None);
            ("00c0ffee", BookRequest_init "2025-10-22" None None None)]
           EVENTS).
  - repeat constructor.
  - exact EVENTS_well_booked.
Defined.

(** ** The store and the responses *)

(** X12 (the store only grows, and only by an insert that succeeded):
    whatever the request, [jsonrpc] leaves the store as it was unless the
    method is [create_event] and the answer is the new event, which is then
    the one element added at the end.  [book_and_confirm] leaves the store
    as it was, and then does not answer 200, or adds one event at the end,
    and then answers 200 with that event if it answers at all.  So no
    request removes or changes a stored event, and a [jsonrpc] request
    that is answered with an error changes nothing. *)
Theorem store_only_grows uuid8 llm store rpc req :
  (fst (jsonrpc uuid8 store rpc) = store /\
   (forall e i, snd (jsonrpc uuid8 store rpc) <> RpcResult (PEvent e) i)
   \/
   exists e,
     method rpc = "create_event" /\
     jsonrpc uuid8 store rpc
     = (store ++ [e], RpcResult (PEvent e) (req_id rpc))) /\
  (fst (book_and_confirm_llm llm uuid8 store req) = store /\
   (forall e c,
      snd (book_and_confirm_llm llm uuid8 store req) <> Returns (Http200 e c))
   \/
   exists e,
     fst (book_and_confirm_llm llm uuid8 store req) = store ++ [e] /\
     forall r, snd (book_and_confirm_llm llm uuid8 store req) = Returns r ->
       exists c, r = Http200 e c).
Proof.
  split.
  - unfold jsonrpc.
    destruct (String.eqb _ _);
      [left; split; [reflexivity|discriminate]|].
    destruct (String.eqb _ _).
    { left. split; [reflexivity|]. cbn [snd]. intros e i.
      apply get_events_for_day_payload. }
    destruct (String.eqb _ _).
    { left. split; [reflexivity|]. cbn [snd]. intros e i.
      apply find_free_slot_payload. }
    destruct (String.eqb_spec (method rpc) "create_event") as [Hm|Hm];
      [|left; split; [reflexivity|discriminate]].
    unfold create_event. destruct (negb _).
    + left. split; [reflexivity|discriminate].
    + right. eexists. split; [assumption|reflexivity].
  - unfold book_and_confirm_llm.
    destruct (find_slot _ _ _) as [[found|]|]; cbn [fst snd].
    + right. cbv zeta. eexists.
      destruct (llm _) as [text|x]; cbn [fst snd];
        (split; [reflexivity|]); intros r Hr; [|discriminate].
      injection Hr as <-. eexists. reflexivity.
    + left. split; [reflexivity|discriminate].
    + left. split; [reflexivity|discriminate].
Qed.

(** X13 (ids and error codes): every answer of [jsonrpc] carries the id of
    the request.  An error has one of three codes: -32601 exactly when the
    method is none of [list_events], [get_events_for_day], [find_free_slot]
    and [create_event], and otherwise -32602 (a missing parameter) or
    -32000 (an exception in the handler). *)
Theorem response_id_and_error_codes uuid8 store rpc :
  let r := snd (jsonrpc uuid8 store rpc) in
  response_id r = req_id rpc /\
  (error_code r = None \/ error_code r = Some (-32602) \/
   error_code r = Some (-32601) \/ error_code r = Some (-32000)) /\
  (error_code r = Some (-32601) <->
   method rpc <> "list_events" /\ method rpc <> "get_events_for_day" /\
   method rpc <> "find_free_slot" /\ method rpc <> "create_event").
Proof.
  cbv zeta. unfold jsonrpc.
  destruct (String.eqb_spec (method rpc) "list_events") as [H1|H1].
  { cbn. split; [reflexivity|]. split; [auto|].
    split; [discriminate|tauto]. }
  destruct (String.eqb_spec (method rpc) "get_events_for_day") as [H2|H2].
  { cbn [snd]. destruct (get_events_for_day_id store rpc) as [Hid Hc].
    split; [assumption|]. split; [tauto|].
    split; [|tauto]. destruct Hc as [Hc | [Hc | Hc]]; rewrite Hc; discriminate. }
  destruct (String.eqb_spec (method rpc) "find_free_slot") as [H3|H3].
  { cbn [snd]. destruct (find_free_slot_id store rpc) as [Hid Hc].
    split; [assumption|]. split; [tauto|].
    split; [|tauto]. destruct Hc as [Hc | [Hc | Hc]]; rewrite Hc; discriminate. }
  destruct (String.eqb_spec (method rpc) "create_event") as [H4|H4].
  { destruct (create_event_id uuid8 store rpc) as [Hid Hc].
    split; [assumption|]. split; [tauto|].
    split; [|tauto]. destruct Hc as [Hc | Hc]; rewrite Hc; discriminate. }
  cbn. split; [reflexivity|]. split; [auto|]. tauto.
Qed.

(** X14 (a missing day): when the parameter [day] is absent or falsy (null,
    the empty string, 0, false, an empty list or object),
    [get_events_for_day] answers with error -32602.  [find_free_slot]
    does so only if the duration converts: it converts the duration first,
    and a duration that does not convert is reported as error -32000 with
    the exception of the conversion, the missing day unmentioned.  (A
    duration given as a string is taken to have at most 4300 characters.) *)
Theorem missing_day_is_reported uuid8 store rpc :
  truthy (requested_day rpc) = false ->
  short_duration rpc ->
  method rpc = "get_events_for_day" \/ method rpc = "find_free_slot" ->
  jsonrpc uuid8 store rpc
  = (store,
     if String.eqb (method rpc) "get_events_for_day"
     then RpcError (-32602) "Missing param 'day'" None (req_id rpc)
     else
       match requested_duration rpc with
       | Ok _ => RpcError (-32602) "Missing param 'day'" None (req_id rpc)
       | Raise e => RpcError (-32000) "Server error" (Some e) (req_id rpc)
       end).
Proof.
  unfold requested_day, requested_duration. intros Hday _ [Hm | Hm].
  - rewrite (jsonrpc_get_events_for_day _ _ _ Hm), Hm. cbn [String.eqb].
    unfold get_events_for_day. rewrite Hday. reflexivity.
  - rewrite (jsonrpc_find_free_slot _ _ _ Hm), Hm.
    change (String.eqb "find_free_slot" "get_events_for_day") with false.
    unfold find_free_slot. cbv iota. rewrite Hday.
    destruct (py_int _); reflexivity.
Qed.

Lemma missing_day_is_reported_witness :
  jsonrpc "" EVENTS
    (mkrequest "find_free_slot" (<["duration_minutes" := JStr "an hour"]> ∅)
       (JInt 7))
  = (EVENTS, RpcError (-32000) "Server error" (Some ValueError) (JInt 7)).
Proof.
  refine (missing_day_is_reported "" EVENTS
            (mkrequest "find_free_slot"
               (<["duration_minutes" := JStr "an hour"]> ∅) (JInt 7))
            eq_refl _ (or_intror eq_refl)).
  intros s Hs. vm_compute in Hs. injection Hs as <-.
  vm_compute. discriminate.
Defined.

(** X15 (an inserted event is found again): after [create_event] has
    answered with the new event, [list_events] returns the old list with
    that event at the end; and if its start is a naive timestamp to the
    second (as those of the events stored before), [get_events_for_day]
    for the day of that start, given as a naive timestamp, returns what it
    returned before with the new event at the end. *)
Theorem created_event_is_found uuid8 uuid8' store rpc store' e i t q l :
  jsonrpc uuid8 store rpc = (store', RpcResult (PEvent e) i) ->
  Forall naive_start store ->
  naive_timestamp (start e) t ->
  date t < MAXORDINAL ->
  method q = "get_events_for_day" ->
  naive_timestamp (requested_day q) (mkdatetime (date t) 0 0 0) ->
  method l = "list_events" ->
  jsonrpc uuid8' store' l
  = (store', RpcResult (PEvents (store ++ [e])) (req_id l)) /\
  jsonrpc uuid8' store q
  = (store, RpcResult (PEvents (List.filter (starts_on (date t)) store))
              (req_id q)) /\
  jsonrpc uuid8' store' q
  = (store',
     RpcResult (PEvents (List.filter (starts_on (date t)) store ++ [e]))
       (req_id q)).
Proof.
  intros H Hall Ht Hmax Hq Hday Hl.
  apply parse_iso_naive_timestamp in Ht, Hday. apply naive_starts_parse in Hall.
  apply jsonrpc_PEvent_inv in H as (_ & -> & _ & _).
  split; [unfold jsonrpc; rewrite Hl; reflexivity|].
  rewrite !(jsonrpc_get_events_for_day _ _ _ Hq).
  rewrite (get_events_for_day_filter store q _ Hday Hmax Hall).
  rewrite (get_events_for_day_filter (store ++ [e]) q _ Hday Hmax)
    by (apply Forall_app; split; [assumption|]; repeat constructor; eauto).
  split; [reflexivity|].
  rewrite List.filter_app. cbn [List.filter].
  rewrite (starts_on_own_date _ _ Ht). reflexivity.
Qed.

Lemma created_event_is_found_witness :
  let e := mkevent "a1b2c3d4" (JStr "Retro") (JStr "2025-10-22T13:00:00")
             (JStr "2025-10-22T14:00:00") (JList []) (JStr "client") in
  jsonrpc "" (EVENTS ++ [e]) (mkrequest "list_events" ∅ (JInt 4))
  = (EVENTS ++ [e], RpcResult (PEvents (EVENTS ++ [e])) (JInt 4)) /\
  jsonrpc "" EVENTS (get_events_for_day_request "2025-10-22")
  = (EVENTS,
     RpcResult (PEvents (List.filter (starts_on 739546) EVENTS)) (JInt 3)) /\
  jsonrpc "" (EVENTS ++ [e]) (get_events_for_day_request "2025-10-22")
  = (EVENTS ++ [e],
     RpcResult (PEvents (List.filter (starts_on 739546) EVENTS ++ [e]))
       (JInt 3)).
Proof.
  cbv zeta.
  apply (created_event_is_found "a1b2c3d4" "" EVENTS
           (create_event_request "Retro" "2025-10-22T13:00:00"
              "2025-10-22T14:00:00" [])
           _ _ (JInt 2) (mkdatetime 739546 13 0 0)
           (get_events_for_day_request "2025-10-22")
           (mkrequest "list_events" ∅ (JInt 4)));
    [reflexivity | apply naive_events_starts; exact EVENTS_naive
    | apply parse_iso_naive_timestamp; reflexivity | reflexivity | reflexivity
    | apply parse_iso_naive_timestamp; reflexivity | reflexivity].
Defined.

(** X16 (events of other days play no part): an event whose start parses
    to a date other than the requested one, wherever it sits in the store,
    does not change the answer of [find_free_slot] for the requested
    day. *)
Theorem events_of_other_days_are_ignored uuid8 l1 l2 e rpc d0 s :
  method rpc = "find_free_slot" ->
  parse_iso (requested_day rpc) = Ok d0 ->
  parse_iso (start e) = Ok s ->
  date s <> date d0 ->
  snd (jsonrpc uuid8 (l1 ++ e :: l2) rpc) = snd (jsonrpc uuid8 (l1 ++ l2) rpc).
Proof.
  intros Hm Hday Hs Hne.
  rewrite !(jsonrpc_find_free_slot _ _ _ Hm). cbn [snd].
  unfold find_free_slot. fold (requested_day rpc).
  destruct (py_int _) as [duration|]; [|reflexivity].
  cbn [mbind result_bind].
  rewrite (find_slot_skip l1 l2 e _ d0 duration s Hday Hs Hne). reflexivity.
Qed.

Lemma events_of_other_days_are_ignored_witness :
  let e := mkevent "a1b2c3d4" (JStr "Dinner") (JStr "2025-10-23T18:00:00")
             (JStr "2025-10-23T19:00:00") (JList []) (JStr "client") in
  snd (jsonrpc "" (EVENTS ++ e :: []) (find_free_slot_request "2025-10-22" 500))
  = snd (jsonrpc "" (EVENTS ++ []) (find_free_slot_request "2025-10-22" 500)).
Proof.
  cbv zeta.
  apply (events_of_other_days_are_ignored "" EVENTS [] _
           (find_free_slot_request "2025-10-22" 500)
           (mkdatetime 739546 0 0 0) (mkdatetime 739547 18 0 0));
    [reflexivity | reflexivity | reflexivity | discriminate].
Defined.

(** X17 (the sort on start strings is chronological for canonical
    timestamps): on a store whose starts all have the format
    [YYYY-MM-DDTHH:MM:SS], the list that [find_free_slot] scans (the
    events of the day, sorted on their start strings) holds exactly the
    events of the day and is in the order of their start instants. *)
Theorem sort_on_start_strings_is_chronological store ws todays :
  Forall canonical_start store ->
  day_events store ws = Ok todays ->
  sorted_by_start todays ≡ₚ todays /\
  StronglySorted (fun e1 e2 => start_seconds e1 <= start_seconds e2)
    (sorted_by_start todays).
Proof.
  intros Hcan Hday. split; [apply sorted_by_start_perm|].
  apply sorted_by_start_sorted.
  eapply day_events_chronological; eassumption.
Qed.

Lemma sort_on_start_strings_is_chronological_witness :
  sorted_by_start (rev EVENTS) ≡ₚ rev EVENTS /\
  StronglySorted (fun e1 e2 => start_seconds e1 <= start_seconds e2)
    (sorted_by_start (rev EVENTS)).
Proof.
  apply (sort_on_start_strings_is_chronological (rev EVENTS)
           (mkdatetime 739546 9 0 0) (rev EVENTS)).
  - apply Forall_rev. exact EVENTS_canonical.
  - reflexivity.
Defined.

(** X18 (one notion of the day): for a plain date before 9999-12-31 given
    as a naive timestamp, on a store whose starts are naive timestamps to
    the second, the events [get_events_for_day] returns are the events
    that the slot search of [find_free_slot] takes as the events of the
    day, in the same order. *)
Theorem shown_events_are_the_events_searched uuid8 store rpc n :
  method rpc = "get_events_for_day" ->
  naive_timestamp (requested_day rpc) (mkdatetime n 0 0 0) ->
  n < MAXORDINAL ->
  Forall naive_start store ->
  exists todays,
    day_events store (work_start (mkdatetime n 0 0 0)) = Ok todays /\
    jsonrpc uuid8 store rpc = (store, RpcResult (PEvents todays) (req_id rpc)).
Proof.
  intros Hm Hday Hmax Hall.
  apply parse_iso_naive_timestamp in Hday. apply naive_starts_parse in Hall.
  exists (List.filter (same_date (work_start (mkdatetime n 0 0 0))) store).
  split; [apply day_events_total; assumption|].
  rewrite (jsonrpc_get_events_for_day _ _ _ Hm).
  rewrite (get_events_for_day_filter store rpc n Hday Hmax Hall).
  cbn [try_except]. do 3 f_equal.
  apply List.filter_ext. intros e.
  apply (starts_on_same_date e (mkdatetime n 0 0 0)).
  eapply parse_iso_valid. eassumption.
Qed.

Lemma shown_events_are_the_events_searched_witness :
  exists todays,
    day_events EVENTS (work_start (mkdatetime 739546 0 0 0)) = Ok todays /\
    jsonrpc "" EVENTS (get_events_for_day_request "2025-10-22")
    = (EVENTS, RpcResult (PEvents todays) (JInt 3)).
Proof.
  apply (shown_events_are_the_events_searched "" EVENTS
           (get_events_for_day_request "2025-10-22") 739546);
    [reflexivity | apply parse_iso_naive_timestamp; reflexivity | reflexivity
    | apply naive_events_starts; exact EVENTS_naive].
Defined.

(** * Further properties of the language model and of the client *)

(** ** [generate] *)

Lemma length_mock_reply prompt_ :
  String.length (mock_reply prompt_)
  = (83 + Nat.min 400 (String.length prompt_))%nat.
Proof.
  unfold mock_reply, snippet.
  rewrite !length_append. cbn [String.length].
  rewrite !length_append. cbn [String.length].
  rewrite length_replace_char, length_substring_0. lia.
Qed.

(** X19 (no key, no request): when [OPENROUTER_API_KEY] is unset or empty,
    [generate] makes no request and returns the mock text, whatever the
    prompt; it never raises.  The text quotes at most the first 400
    characters of the prompt, line feeds replaced by blanks, so it is at
    most 483 characters long; a prompt of at most 400 characters without a
    line feed is quoted whole. *)
Theorem generate_without_key key reply prompt_ :
  key = None \/ key = Some "" ->
  generate key reply prompt_ = Returns (mock_reply prompt_) /\
  String.length (mock_reply prompt_)
  = (83 + Nat.min 400 (String.length prompt_))%nat /\
  contains (String newline "") (snippet prompt_) = false /\
  ((String.length prompt_ <= 400)%nat ->
   contains (String newline "") prompt_ = false ->
   snippet prompt_ = prompt_).
Proof.
  intros Hkey. split; [destruct Hkey as [-> | ->]; reflexivity|].
  split; [apply length_mock_reply|]. split.
  - unfold snippet. apply replace_char_removes. discriminate.
  - intros Hlen Hnl. unfold snippet.
    rewrite substring_0_all by assumption.
    apply replace_char_absent. assumption.
Qed.

Lemma generate_without_key_witness :
  generate None RequestException "Hello" = Returns (mock_reply "Hello") /\
  String.length (mock_reply "Hello")
  = (83 + Nat.min 400 (String.length "Hello"))%nat /\
  contains (String newline "") (snippet "Hello") = false /\
  ((String.length "Hello" <= 400)%nat ->
   contains (String newline "") "Hello" = false ->
   snippet "Hello" = "Hello").
Proof.
  apply (generate_without_key None RequestException "Hello").
  left. reflexivity.
Defined.

(** X20 (with a key): a failed request is answered with the fallback text,
    never with an exception.  On a body of the expected shape - an object
    whose [choices], if any, is a list, the first choice an object, its
    [message], if any, an object whose [content], if any, is a string, and
    its [text] a string where it is looked at - [generate] returns a text
    and does not raise. *)
Theorem generate_returns_on_expected_shapes key prompt_ data :
  key <> "" ->
  expected_body data = true ->
  generate (Some key) RequestException prompt_
  = Returns (fallback_reply prompt_) /\
  exists text, generate (Some key) (Body data) prompt_ = Returns text.
Proof.
  intros Hkey Hshape. apply String.eqb_neq in Hkey.
  unfold generate. rewrite Hkey. split; [reflexivity|].
  destruct data as [| | | |l|l]; try discriminate.
  cbn [expected_body] in Hshape.
  cbn [py_in py_getitem mbind outcome_bind].
  destruct (dict_get l "choices") as [choices|] eqn:Hc; [|eauto].
  cbn [mbind outcome_bind].
  destruct choices as [| | | |cs|]; try discriminate.
  destruct cs as [|choice cs]; [cbn; eauto|].
  cbn [py_len mbind outcome_bind length].
  replace (0 <? Z.of_nat (S (length cs))) with true
    by (symmetry; apply Z.ltb_lt; lia).
  cbn [py_first mbind outcome_bind].
  destruct choice as [| | | | |c]; try discriminate.
  cbn [expected_choice] in Hshape.
  cbn [py_in py_getitem mbind outcome_bind].
  destruct (dict_get c "message") as [message|] eqn:Hm.
  - cbn [mbind outcome_bind].
    destruct message as [| | | | |m]; try discriminate.
    cbn [py_in py_getitem mbind outcome_bind].
    destruct (dict_get m "content") as [content|] eqn:Hct.
    + cbn [mbind outcome_bind].
      destruct content; try discriminate. cbn. eauto.
    + cbn [mbind outcome_bind]. unfold expected_text in Hshape.
      destruct (dict_get c "text") as [text|]; [|eauto].
      cbn [mbind outcome_bind]. destruct text; try discriminate. cbn. eauto.
  - cbn [mbind outcome_bind]. unfold expected_text in Hshape.
    destruct (dict_get c "text") as [text|]; [|eauto].
    cbn [mbind outcome_bind]. destruct text; try discriminate. cbn. eauto.
Qed.

Lemma generate_returns_on_expected_shapes_witness :
  generate (Some "sk-1") RequestException "Hello"
  = Returns (fallback_reply "Hello") /\
  exists text,
    generate (Some "sk-1")
      (Body (JObj [("choices",
                    JList [JObj [("message",
                                  JObj [("content", JStr " Booked. ")])]])]))
      "Hello"
    = Returns text.
Proof.
  apply (generate_returns_on_expected_shapes "sk-1" "Hello"
           (JObj [("choices",
                   JList [JObj [("message",
                                 JObj [("content", JStr " Booked. ")])]])]));
    [discriminate | reflexivity].
Defined.

(** ** [book_and_confirm] and the language model *)

(** X21 (the event is stored before the confirmation is asked for): what
    [book_and_confirm] does to the store does not depend on the language
    model.  When [generate] returns, the answer is 200 with its text; when
    it raises, the request fails with that exception and the event that
    was appended stays in the store. *)
Theorem booking_is_stored_before_the_confirmation llm confirm uuid8 store req :
  fst (book_and_confirm_llm llm uuid8 store req)
  = fst (book_and_confirm confirm uuid8 store req) /\
  match book_and_confirm confirm uuid8 store req with
  | (store', Http200 e _) =>
      store' = store ++ [e] /\
      match llm (prompt (title e) (start e) (end_ e) (attendees e)) with
      | Returns text =>
          book_and_confirm_llm llm uuid8 store req
          = (store ++ [e], Returns (Http200 e text))
      | Raises x =>
          book_and_confirm_llm llm uuid8 store req = (store ++ [e], Raises x)
      end
  | (store', r) =>
      store' = store /\
      book_and_confirm_llm llm uuid8 store req = (store, Returns r)
  end.
Proof.
  unfold book_and_confirm_llm, book_and_confirm.
  destruct (find_slot _ _ _) as [[found|]|]; cbn [fst];
    [|split; [reflexivity|split; reflexivity]..].
  cbv zeta. destruct (llm _); repeat split.
Qed.

(** A body whose [content] is null makes [generate] raise; the booking
    that asked for the confirmation is stored all the same. *)
Example booking_survives_a_failed_confirmation :
  let body :=
    Body (JObj [("choices",
                 JList [JObj [("message", JObj [("content", JNull)])]])]) in
  let llm := generate (Some "sk-1") body in
  let req := BookRequest_init "2025-10-22" None None None in
  let e := mkevent "a1b2c3d4" (JStr "Booked via UI")
             (JStr "2025-10-22T09:00:00") (JStr "2025-10-22T10:00:00")
             (JList []) (JStr "ui") in
  book_and_confirm_llm llm "a1b2c3d4" EVENTS req
  = (EVENTS ++ [e], Raises UncaughtAttributeError).
Proof. vm_compute. reflexivity. Qed.

(** ** The client *)

Lemma find_slot_empty_day_string store duration :
  find_slot store (JStr "") duration = Raise ValueError.
Proof. reflexivity. Qed.

(** X22 (the client books what the server's helper books): for a title
    that is not empty, the two calls of [find_free_and_book] leave the
    store as [book_and_confirm] leaves it for the same day, duration, title
    and attendees, but for the label of the new event, [created_by], which
    reads [client] instead of [ui]; when [book_and_confirm] adds nothing,
    neither does the client. *)
Theorem client_books_what_book_and_confirm_books llm confirm uuid8 store
    day_iso duration title_ attendees_ :
  title_ <> "" ->
  (find_free_and_book llm uuid8 day_iso duration title_ attendees_ store).1.1
  = match book_and_confirm confirm uuid8 store
            (mkbook day_iso duration title_ (default [] attendees_)) with
    | (_, Http200 e _) => store ++ [created_by_client e]
    | (_, _) => store
    end.
Proof.
  intros Ht. apply String.eqb_neq in Ht.
  rewrite find_free_and_book_run. unfold book_and_confirm.
  cbn [day duration_minutes book_title book_attendees].
  destruct (String.eqb_spec day_iso "") as [->|_].
  - rewrite find_slot_empty_day_string. reflexivity.
  - destruct (find_slot store (JStr day_iso) duration) as [[found|]|];
      [|reflexivity..].
    cbv zeta. rewrite Ht. destruct (llm _); reflexivity.
Qed.

Lemma client_books_what_book_and_confirm_books_witness :
  (find_free_and_book (fun _ => Returns "") "a1b2c3d4" "2025-10-22" 60
     "Standup" None EVENTS).1.1
  = match book_and_confirm (fun _ => "") "a1b2c3d4" EVENTS
            (mkbook "2025-10-22" 60 "Standup" (default [] None)) with
    | (_, Http200 e _) => EVENTS ++ [created_by_client e]
    | (_, _) => EVENTS
    end.
Proof.
  apply (client_books_what_book_and_confirm_books (fun _ => Returns "")
           (fun _ => "") "a1b2c3d4" EVENTS "2025-10-22" 60 "Standup" None).
  discriminate.
Defined.

(** X23 (an empty title): with an empty title the client finds the slot
    and then books nothing: [create_event] refuses the empty title with
    error -32602, the store is left as it was, and the run ends without
    an exception.  [book_and_confirm] with the same empty title books the
    slot. *)
Theorem client_needs_a_title llm confirm uuid8 store day_iso duration
    attendees_ found :
  find_slot store (JStr day_iso) duration = Ok (Some found) ->
  find_free_and_book llm uuid8 day_iso duration "" attendees_ store
  = (store,
     [AskingServer; FoundSlot (PSlot (Some (slot_dict found)));
      CreateErrorLine (-32602) "Missing title/start/end" None],
     Returns tt) /\
  exists e,
    book_and_confirm confirm uuid8 store
      (mkbook day_iso duration "" (default [] attendees_))
    = (store ++ [e], Http200 e (confirm e)) /\
    title e = JStr "".
Proof.
  intros Hfound. split.
  - rewrite find_free_and_book_run, Hfound.
    destruct (String.eqb_spec day_iso "") as [->|_]; [discriminate|].
    reflexivity.
  - unfold book_and_confirm. cbn [day duration_minutes]. rewrite Hfound.
    eexists. split; reflexivity.
Qed.

Lemma client_needs_a_title_witness :
  find_free_and_book (fun _ => Returns "") "a1b2c3d4" "2025-10-22" 60 "" None
    EVENTS
  = (EVENTS,
     [AskingServer;
      FoundSlot (PSlot (Some (slot_dict (mkdatetime 739546 9 0 0,
                                         mkdatetime 739546 10 0 0))));
      CreateErrorLine (-32602) "Missing title/start/end" None],
     Returns tt) /\
  exists e,
    book_and_confirm (fun _ => "") "a1b2c3d4" EVENTS
      (mkbook "2025-10-22" 60 "" (default [] None))
    = (EVENTS ++ [e], Http200 e "") /\
    title e = JStr "".
Proof.
  apply (client_needs_a_title (fun _ => Returns "") (fun _ => "") "a1b2c3d4"
           EVENTS "2025-10-22" 60 None
           (mkdatetime 739546 9 0 0, mkdatetime 739546 10 0 0)).
  reflexivity.
Defined.



(** The first usage example of client.py, on the initial calendar. *)
Example main_usage_example :
  main (fun _ => Returns "ok") "a1b2c3d4" 739546
    ["client.py"; "Find me a free 60 minute slot on 2025-10-23"] EVENTS
  = let ev := mkevent "a1b2c3d4" (JStr "Quick MCP Booking")
                (JStr "2025-10-23T09:00:00") (JStr "2025-10-23T10:00:00")
                (JList []) (JStr "client") in
    (EVENTS ++ [ev],
     [AskingServer;
      FoundSlot (PSlot (Some (mkslot "2025-10-23T09:00:00"
                                "2025-10-23T10:00:00")));
      EventCreated (PEvent ev); Confirmation "ok"],
     Returns tt).
Proof. vm_compute. reflexivity. Qed.

(** X25 (commands are read without regard to case): [main] looks at the
    command in lower case only, so a command and its lower-case form run
    the same, whatever the program name and further arguments. *)
Theorem main_ignores_case llm uuid8 today prog prog' arg rest rest' :
  main llm uuid8 today (prog :: arg :: rest)
  = main llm uuid8 today (prog' :: lower arg :: rest').
Proof. unfold main. rewrite lower_idempotent. reflexivity. Qed.

(** X26 ([show_events] lists the day): for a day [YYYY-MM-DD] (a naive
    timestamp of ten characters) before 9999-12-31, on a store whose
    starts are naive timestamps to the second, [show_events] prints the
    heading and then one row for each stored event that starts on that
    day, in store order, with its start and title; it leaves the store as
    it was and raises nothing. *)
Theorem show_events_lists_the_day uuid8 store day_iso t :
  naive_timestamp (JStr day_iso) t ->
  String.length day_iso = 10%nat ->
  date t < MAXORDINAL ->
  Forall naive_start store ->
  show_events uuid8 day_iso store
  = (store,
     EventsOn day_iso
       :: map (fun e => EventRow (start e) (title e))
            (List.filter (starts_on (date t)) store),
     Returns tt).
Proof.
  intros Hday Hlen Hmax Hall.
  apply parse_iso_naive_timestamp in Hday. cbn [parse_iso] in Hday.
  apply naive_starts_parse in Hall.
  destruct (iso_fromisoformat_date _ _ Hday Hlen) as (_ & Hh & Hm & Hs).
  assert (t = mkdatetime (date t) 0 0 0) as Ht
    by (destruct t; cbn in *; subst; reflexivity).
  unfold show_events.
  destruct (get_events_for_day_call uuid8 store day_iso 3)
    as (r & Hcall & -> & _).
  unfold mbind at 1. unfold client_bind at 1. rewrite Hcall.
  rewrite (get_events_for_day_filter store _ (date t)); try assumption.
  - cbn [try_except]. unfold mbind, client_bind. cbn [print].
    rewrite print_rows_run. reflexivity.
  - unfold requested_day, get. cbn [params].
    rewrite lookup_insert_eq. cbn. rewrite Hday. f_equal. exact Ht.
Qed.

Lemma show_events_lists_the_day_witness :
  show_events "" "2025-10-22" EVENTS
  = (EVENTS,
     EventsOn "2025-10-22"
       :: map (fun e => EventRow (start e) (title e))
            (List.filter (starts_on 739546) EVENTS),
     Returns tt).
Proof.
  apply (show_events_lists_the_day "" EVENTS "2025-10-22"
           (mkdatetime 739546 0 0 0));
    [apply parse_iso_naive_timestamp; reflexivity | reflexivity | reflexivity
    | apply naive_events_starts; exact EVENTS_naive].
Defined.

(** X27 (the client does not crash): if today is not the last day of the
    calendar (9999-12-31), [generate] returns, and the arguments have at
    most 4300 characters (so that no run of digits in them is longer than
    [int] converts), a run of [main] whose calls reach the server ends
    without an exception, whatever the command line and whatever the
    server's store holds: every answer of the server has the shape the
    client goes on to read. *)
Theorem client_does_not_crash llm uuid8 today argv store :
  1 <= today < MAXORDINAL ->
  (forall p, exists text, llm p = Returns text) ->
  Forall (fun arg => Z.of_nat (String.length arg) <= 4300) argv ->
  (main llm uuid8 today argv store).2 = Returns tt.
Proof.
  intros [Hlo Hhi] Hllm Hargs.
  destruct (main_cases llm uuid8 today argv store Hlo)
    as [[p ->] | [[d ->] | [(day_ & dur & title_ & _ & Hdur & Ht & ->)
                           | [[Hlast _] | [(arg & Harg & Hlong) _]]]]];
    [reflexivity | | | lia | ].
  - destruct (show_events_run uuid8 store d) as [out ->]. reflexivity.
  - rewrite find_free_and_book_run.
    destruct (String.eqb day_ ""); [reflexivity|].
    destruct (find_slot store (JStr day_) dur) as [[found|]|];
      [|reflexivity..].
    cbv zeta. destruct (String.eqb title_ ""); [reflexivity|].
    match goal with |- context [llm ?p] => destruct (Hllm p) as [text ->] end.
    reflexivity.
  - pose proof (Forall_lookup_1 _ _ _ _ Hargs Harg) as Hshort.
    cbv beta in Hshort. lia.
Qed.

Lemma client_does_not_crash_witness :
  (main (fun _ => Returns "") "" 739546 ["client.py"; "book tomorrow"]
     EVENTS).2
  = Returns tt.
Proof.
  apply (client_does_not_crash (fun _ => Returns "") "" 739546
           ["client.py"; "book tomorrow"] EVENTS).
  - unfold MAXORDINAL. lia.
  - intros p. eexists. reflexivity.
  - repeat constructor; vm_compute; discriminate.
Defined.
